(** * Insight aggregation engine: a shallow embedding and its properties

    This development embeds [services/insight-aggregator/src/aggregator.py]
    (classes [InsightAggregator] and [RecommendationEngine]) together with
    the defaults of [services/insight-aggregator/src/config.py] and the
    bodies of the request handlers [receive_insight] and [get_assessment]
    of [services/insight-aggregator/src/main.py].

    Modelling conventions
    - A Python [float] is an IEEE 754 binary64 number, in the executable
      specification of the Standard Library ([SpecFloat] with precision 53
      and exponent bound 1024): sums, quotients and products round to
      nearest, ties to even, and the comparisons are the IEEE ones, so a
      NaN is neither below, nor above, nor equal to anything.  A decimal
      literal such as [0.7] is written as the quotient of two integers,
      which rounds to the same number.  The one quotient of two integers,
      the average severity score, is only compared with [2.5] and [1.5]
      and is kept exact ([Q]).
    - The builtin [sum] over floats is an interface ([PyFloatSum]): CPython
      adds from left to right up to version 3.11 and with a compensated
      algorithm since 3.12, and the development only assumes what both do.
      The loop [x += c] of [_create_summary] adds from left to right.
    - A [datetime] is an integer number of microseconds ([Z]); a
      [timedelta] is a difference of two, and [total_seconds() < n]
      compares the difference with [n * 1000000].
    - [datetime.utcnow()] is a parameter of every operation that reads the
      clock.  [add_insight] takes two readings, one for the stamp and one
      for the clean-up; the readings within one call of [aggregate] are
      identified.
    - The raw insight dictionaries are records with optional fields, one
      per key the aggregator reads; the values have the types the
      aggregator expects of them (numbers, strings, lists of strings).
    - A [dict] keyed by strings whose iteration order does not matter is a
      [gmap string _]; a [dict] that is iterated (the groups, the summary
      counters) is an association list in insertion order, as CPython
      iterates it.
    - [list(set(xs))] iterates a hash set: the order is left open by the
      language, so it is an interface ([PySetOrder]) of which the
      development only assumes that it enumerates the distinct elements.
    - Strings are byte strings.  [str.title()], which only the fallback
      title of [_generate_title] uses, is modelled on ASCII letters; on
      other text Python's casing is not modelled, and nothing below
      depends on it beyond the title not being empty. *)

From Stdlib Require Import ZArith QArith String Ascii List Sorted Permutation Lia Bool.
From Stdlib Require Import SpecFloat.
From stdpp Require Import gmap strings list fin_maps pretty.

Local Open Scope string_scope.
Local Open Scope list_scope.
Local Open Scope Z_scope.

(** ** Time *)

Definition datetime := Z.

Definition seconds (n : Z) : Z := n * 1000000.

(** ** Floating point *)

Definition float : Type := spec_float.

Definition prec : Z := 53.

Definition emax : Z := 1024.

Definition float_add : float -> float -> float := SFadd prec emax.

Definition float_mul : float -> float -> float := SFmul prec emax.

Definition float_div : float -> float -> float := SFdiv prec emax.

Definition float_neg : float -> float := SFopp.

Definition float_eq : float -> float -> bool := SFeqb.

Definition float_lt : float -> float -> bool := SFltb.

(** [a >= b] *)
Definition float_ge (a b : float) : bool := SFleb b a.

(** [float(n)] for an integer [n], as the arithmetic converts an [int]
    operand: the nearest float.  (Python raises on an integer beyond the
    range of the floats; the integers converted here are [0] and list
    lengths.) *)
Definition float_of_int (n : Z) : float := binary_normalize prec emax n 0 false.

(** The literal whose decimal notation is the fraction [n/d]. *)
Definition float_lit (n d : Z) : float :=
  float_div (float_of_int n) (float_of_int d).

(** [min(a, b)]: the first argument unless the second is below it. *)
Definition py_min (a b : float) : float := if float_lt b a then b else a.

(** [sum(xs)] for floats [xs], from the integer [0]. *)
Class PyFloatSum := {
  float_sum : list float -> float;
  float_sum_one : forall x, float_sum [x] = float_add (float_of_int 0) x
}.

(** ** Configuration ([config.py]) *)

Record Settings := {
  insight_window_seconds : Z;
  min_confidence_threshold : float;
  max_insights_per_batch : Z;
  fraud_alert_confidence : float;
  contradiction_alert_confidence : float;
  min_alert_interval_seconds : Z;
  generate_recommendations : bool;
  max_recommendations_per_round : Z
}.

Definition default_settings : Settings := {|
  insight_window_seconds := 30;
  min_confidence_threshold := float_lit 7 10;
  max_insights_per_batch := 10;
  fraud_alert_confidence := float_lit 85 100;
  contradiction_alert_confidence := float_lit 80 100;
  min_alert_interval_seconds := 60;
  generate_recommendations := true;
  max_recommendations_per_round := 5
|}.

(** ** Data model *)

(** The open [data] mapping of a raw insight, restricted to the keys the
    aggregator reads.  [None] is an absent key. *)
Record InsightData := {
  data_confidence : option float;
  data_severity : option string;
  data_description : option string;
  data_evidence : option (list string);
  data_followup_questions : option (list string)
}.

Definition empty_data : InsightData := {|
  data_confidence := None;
  data_severity := None;
  data_description := None;
  data_evidence := None;
  data_followup_questions := None
|}.

(** A raw insight: the dictionary handed to [add_insight]. *)
Record RawInsight := {
  source : option string;
  raw_type : option string;
  data : option InsightData;
  received_at : option datetime
}.

Record AggregatedInsight := {
  insight_id : string;
  round_id : string;
  category : string;
  insight_type : string;
  confidence : float;
  severity : string;
  title : string;
  description : string;
  evidence : list string;
  source_services : list string;
  followup_questions : list string;
  timestamp : datetime;
  is_alert : bool
}.

Record Recommendation := {
  rec_type : string;
  rec_priority : string;
  rec_title : string;
  rec_description : string;
  suggested_actions : option (list string);
  suggested_questions : option (list string);
  related_insight_id : string
}.

(** The summary dictionary.  The early return of [aggregate] builds a
    dictionary with the single key [total_insights]; the other keys are
    optional for that reason.  [overall_confidence] starts as the integer
    [0], which is the float zero here. *)
Record Summary := {
  total_insights : nat;
  alerts_count : option nat;
  by_category : option (list (string * nat));
  by_severity : option (list (string * nat));
  overall_confidence : option float
}.

Record InsightBatch := {
  batch_round_id : string;
  insights : list AggregatedInsight;
  recommendations : list Recommendation;
  summary : Summary;
  batch_timestamp : datetime
}.

(** The state of an [InsightAggregator] object. *)
Record InsightAggregator := {
  insight_buffer : gmap string (list RawInsight);
  recent_alerts : gmap string datetime;
  insight_counter : nat
}.

(** [InsightAggregator.__init__] *)
Definition init : InsightAggregator := {|
  insight_buffer := ∅;
  recent_alerts := ∅;
  insight_counter := 0
|}.

Definition category_priority (c : string) : Z :=
  if String.eqb c "fraud" then 1
  else if String.eqb c "contradiction" then 2
  else if String.eqb c "speech" then 3
  else if String.eqb c "video" then 4
  else 99.

Definition severity_weights (s : string) : Z :=
  if String.eqb s "high" then 3
  else if String.eqb s "medium" then 2
  else if String.eqb s "low" then 1
  else 0.

(** ** Python helpers *)

(** [xs[:n]] for a possibly negative [n]. *)
Definition py_slice_to {A} (n : Z) (xs : list A) : list A :=
  if 0 <=? n then firstn (Z.to_nat n) xs
  else firstn (length xs - Z.to_nat (- n))%nat xs.

(** [list(set(xs))]: some enumeration, without repetition, of the
    elements of [xs]. *)
Class PySetOrder := {
  list_set : list string -> list string;
  list_set_NoDup : forall xs, NoDup (list_set xs);
  list_set_elem_of : forall xs x, x ∈ list_set xs <-> x ∈ xs
}.

(** ** The round buffer *)

Section WithSettings.

Variable settings : Settings.

(** [_cleanup_buffer]: the buffer entry is (re)assigned, so the key exists
    afterwards even when the list is empty. *)
Definition _cleanup_buffer (self : InsightAggregator) (round : string)
    (now : datetime) : InsightAggregator :=
  let cutoff := now - seconds (insight_window_seconds settings * 2) in
  let old := default [] (insight_buffer self !! round) in
  let kept := List.filter (fun i => cutoff <? default now (received_at i)) old in
  {| insight_buffer := <[round := kept]> (insight_buffer self);
     recent_alerts := recent_alerts self;
     insight_counter := insight_counter self |}.

(** [insight["received_at"] = datetime.utcnow()] *)
Definition stamp (insight : RawInsight) (now : datetime) : RawInsight :=
  {| source := source insight;
     raw_type := raw_type insight;
     data := data insight;
     received_at := Some now |}.

(** [add_insight]: [now] stamps the record, [now'] is the clock reading
    of the clean-up that follows. *)
Definition add_insight (self : InsightAggregator) (round : string)
    (insight : RawInsight) (now now' : datetime) : InsightAggregator :=
  let stamped := stamp insight now in
  let old := default [] (insight_buffer self !! round) in
  let self1 := {| insight_buffer := <[round := old ++ [stamped]]> (insight_buffer self);
                  recent_alerts := recent_alerts self;
                  insight_counter := insight_counter self |} in
  _cleanup_buffer self1 round now'.

Definition clear_buffer (self : InsightAggregator) (round : string)
    : InsightAggregator :=
  match insight_buffer self !! round with
  | Some _ =>
      {| insight_buffer := delete round (insight_buffer self);
         recent_alerts := recent_alerts self;
         insight_counter := insight_counter self |}
  | None => self
  end.

Definition get_buffer_size (self : InsightAggregator) (round : string) : nat :=
  length (default [] (insight_buffer self !! round)).

(** ** Grouping *)

Definition _source_to_category (source : string) : string :=
  if String.eqb source "speech-analysis" then "speech"
  else if String.eqb source "video-analysis" then "video"
  else if String.eqb source "fraud-detection" then "fraud"
  else if String.eqb source "nlp-engine" then "contradiction"
  else "other".

Definition group_key : Type := string * string.

Definition group_key_eqb (k1 k2 : group_key) : bool :=
  String.eqb (fst k1) (fst k2) && String.eqb (snd k1) (snd k2).

(** [grouped[key].append(insight)] on a [defaultdict(list)]: a new key
    goes to the end of the iteration order. *)
Fixpoint group_append (key : group_key) (insight : RawInsight)
    (grouped : list (group_key * list RawInsight))
    : list (group_key * list RawInsight) :=
  match grouped with
  | [] => [(key, [insight])]
  | (k, members) :: rest =>
      if group_key_eqb k key then (k, members ++ [insight]) :: rest
      else (k, members) :: group_append key insight rest
  end.

Definition insight_source (i : RawInsight) : string :=
  default "unknown" (source i).

Definition insight_key (i : RawInsight) : group_key :=
  (_source_to_category (insight_source i), default "unknown" (raw_type i)).

Definition _group_insights (insights : list RawInsight)
    : list (group_key * list RawInsight) :=
  fold_left (fun grouped insight =>
               group_append (insight_key insight) insight grouped)
            insights [].

(** ** Scoring one group *)

(** [insight.get("data", {})] *)
Definition get_data (i : RawInsight) : InsightData :=
  default empty_data (data i).

Definition reported_confidence (i : RawInsight) : float :=
  default (float_lit 5 10) (data_confidence (get_data i)).

Definition severity_scores (s : string) : Z :=
  if String.eqb s "high" then 3
  else if String.eqb s "medium" then 2
  else 1.

(** The average score is a quotient of two integers; it is compared with
    [2.5] and [1.5] exactly. *)
Definition _aggregate_severity (severities : list string) : string :=
  match severities with
  | [] => "low"
  | _ =>
      let total := fold_left Z.add (map severity_scores severities) 0 in
      let avg_score :=
        (inject_Z total / inject_Z (Z.of_nat (length severities)))%Q in
      if Qle_bool (5 # 2) avg_score then "high"
      else if Qle_bool (3 # 2) avg_score then "medium"
      else "low"
  end.

Fixpoint assoc_get {V} (key : group_key) (table : list (group_key * V))
    : option V :=
  match table with
  | [] => None
  | (k, v) :: rest => if group_key_eqb k key then Some v else assoc_get key rest
  end.

(** [str.title()] and [str.replace('_', ' ')] on ASCII text. *)
Definition is_lower (c : ascii) : bool :=
  let n := nat_of_ascii c in (97 <=? n)%nat && (n <=? 122)%nat.

Definition is_upper (c : ascii) : bool :=
  let n := nat_of_ascii c in (65 <=? n)%nat && (n <=? 90)%nat.

Definition to_upper (c : ascii) : ascii :=
  if is_lower c then ascii_of_nat (nat_of_ascii c - 32) else c.

Definition to_lower (c : ascii) : ascii :=
  if is_upper c then ascii_of_nat (nat_of_ascii c + 32) else c.

Fixpoint str_title_from (previous_is_cased : bool) (s : string) : string :=
  match s with
  | EmptyString => EmptyString
  | String c rest =>
      if is_lower c then
        String (if previous_is_cased then c else to_upper c)
               (str_title_from true rest)
      else if is_upper c then
        String (if previous_is_cased then to_lower c else c)
               (str_title_from true rest)
      else String c (str_title_from false rest)
  end.

Definition str_title (s : string) : string := str_title_from false s.

Fixpoint str_replace_char (old new : ascii) (s : string) : string :=
  match s with
  | EmptyString => EmptyString
  | String c rest =>
      String (if Ascii.eqb c old then new else c)
             (str_replace_char old new rest)
  end.

Definition titles : list (group_key * string) :=
  [ (("fraud", "multiple_faces"), "Multiple Faces Detected");
    (("fraud", "face_switch"), "Face Switch Detected");
    (("fraud", "background_voice"), "Background Voice Detected");
    (("contradiction", "contradiction"), "Resume Contradiction Found");
    (("contradiction", "skill_mismatch"), "Skill Level Mismatch");
    (("speech", "low_confidence"), "Low Speaking Confidence");
    (("speech", "high_hesitation"), "High Hesitation Detected");
    (("video", "head_movement"), "Unusual Head Movement");
    (("video", "low_quality"), "Video Quality Issue") ].

Definition _generate_title (category insight_type : string)
    (insights : list RawInsight) : string :=
  default (str_title category +:+ ": "
             +:+ str_title (str_replace_char "_" " " insight_type))
          (assoc_get (category, insight_type) titles).

Definition descriptions : list (group_key * string) :=
  [ (("fraud", "multiple_faces"),
     "Multiple people detected in the candidate's video feed. This may indicate someone else is present during the interview.");
    (("fraud", "face_switch"),
     "The face in the video appears to have changed from the original candidate. Identity verification recommended.");
    (("fraud", "background_voice"),
     "Additional voices detected in the audio that may indicate coaching or assistance.");
    (("contradiction", "contradiction"),
     "The candidate's statement contradicts information on their resume.");
    (("contradiction", "skill_mismatch"),
     "The candidate's demonstrated knowledge doesn't match the expertise level claimed on their resume.");
    (("speech", "low_confidence"),
     "Speech analysis indicates the candidate may be uncertain about their response.");
    (("speech", "high_hesitation"),
     "Frequent pauses and filler words detected in the candidate's response.");
    (("video", "head_movement"),
     "Candidate is looking away from the camera frequently.");
    (("video", "low_quality"),
     "Video quality is degraded, which may affect analysis accuracy.") ].

Definition nonempty (s : string) : bool :=
  match s with EmptyString => false | _ => true end.

Fixpoint first_description (insights : list RawInsight) : option string :=
  match insights with
  | [] => None
  | i :: rest =>
      match data_description (get_data i) with
      | Some d => if nonempty d then Some d else first_description rest
      | None => first_description rest
      end
  end.

Definition _generate_description (category insight_type : string)
    (insights : list RawInsight) : string :=
  match first_description insights with
  | Some d => d
  | None =>
      default ("Observation in " +:+ category +:+ ": " +:+ insight_type)
              (assoc_get (category, insight_type) descriptions)
  end.

(** The two accumulation loops of [_aggregate_group]. *)
Definition collect_evidence (insights : list RawInsight) : list string :=
  flat_map (fun i =>
              let d := get_data i in
              match data_description d with Some x => [x] | None => [] end
              ++ default [] (data_evidence d))
           insights.

Definition collect_followups (insights : list RawInsight) : list string :=
  flat_map (fun i => default [] (data_followup_questions (get_data i)))
           insights.

Section WithSetOrder.

Context {order : PySetOrder} {adder : PyFloatSum}.

Definition group_confidence (insights : list RawInsight) : float :=
  let total_confidence := float_sum (map reported_confidence insights) in
  let avg_confidence :=
    float_div total_confidence (float_of_int (Z.of_nat (length insights))) in
  let source_services := list_set (map insight_source insights) in
  if (1 <? length source_services)%nat
  then py_min (float_lit 1 1) (float_mul avg_confidence (float_lit 11 10))
  else avg_confidence.

(** [_aggregate_group]: returns the aggregated insight, if any, and the
    aggregator with its counter advanced. *)
Definition _aggregate_group (self : InsightAggregator)
    (round category insight_type : string) (insights : list RawInsight)
    (now : datetime) : option AggregatedInsight * InsightAggregator :=
  match insights with
  | [] => (None, self)
  | _ =>
      let counter := S (insight_counter self) in
      let self' := {| insight_buffer := insight_buffer self;
                      recent_alerts := recent_alerts self;
                      insight_counter := counter |} in
      let severities :=
        map (fun i => default "low" (data_severity (get_data i))) insights in
      (Some {| insight_id := round +:+ "-" +:+ pretty counter;
               round_id := round;
               category := category;
               insight_type := insight_type;
               confidence := group_confidence insights;
               severity := _aggregate_severity severities;
               title := _generate_title category insight_type insights;
               description :=
                 _generate_description category insight_type insights;
               evidence := firstn 5 (list_set (collect_evidence insights));
               source_services := list_set (map insight_source insights);
               followup_questions :=
                 firstn 3 (list_set (collect_followups insights));
               timestamp := now;
               is_alert := false |},
       self')
  end.

(** The loop [for key, insights in grouped.items()] of [aggregate]. *)
Fixpoint score_groups (self : InsightAggregator) (round : string)
    (grouped : list (group_key * list RawInsight)) (now : datetime)
    : list AggregatedInsight * InsightAggregator :=
  match grouped with
  | [] => ([], self)
  | (key, members) :: rest =>
      let '(agg_insight, self1) :=
        _aggregate_group self round (fst key) (snd key) members now in
      let '(aggregated, self2) := score_groups self1 round rest now in
      (match agg_insight with
       | Some a => a :: aggregated
       | None => aggregated
       end, self2)
  end.

(** ** The alert gate *)

Definition alert_key (insight : AggregatedInsight) : string :=
  round_id insight +:+ ":" +:+ category insight +:+ ":"
    +:+ insight_type insight.

Definition record_alert (self : InsightAggregator) (key : string)
    (now : datetime) : InsightAggregator :=
  {| insight_buffer := insight_buffer self;
     recent_alerts := <[key := now]> (recent_alerts self);
     insight_counter := insight_counter self |}.

Definition in_cooldown (self : InsightAggregator) (key : string)
    (now : datetime) : bool :=
  match recent_alerts self !! key with
  | Some last_alert =>
      now - last_alert <? seconds (min_alert_interval_seconds settings)
  | None => false
  end.

Definition _should_be_alert (self : InsightAggregator)
    (insight : AggregatedInsight) (now : datetime)
    : bool * InsightAggregator :=
  let key := alert_key insight in
  if in_cooldown self key now then (false, self)
  else if String.eqb (category insight) "fraud"
          && float_ge (confidence insight) (fraud_alert_confidence settings)
  then (true, record_alert self key now)
  else if String.eqb (category insight) "contradiction"
          && float_ge (confidence insight)
                      (contradiction_alert_confidence settings)
  then (true, record_alert self key now)
  else if String.eqb (severity insight) "high"
          && float_ge (confidence insight) (float_lit 8 10)
  then (true, record_alert self key now)
  else (false, self).

Definition set_is_alert (insight : AggregatedInsight) (alert : bool)
    : AggregatedInsight :=
  {| insight_id := insight_id insight;
     round_id := round_id insight;
     category := category insight;
     insight_type := insight_type insight;
     confidence := confidence insight;
     severity := severity insight;
     title := title insight;
     description := description insight;
     evidence := evidence insight;
     source_services := source_services insight;
     followup_questions := followup_questions insight;
     timestamp := timestamp insight;
     is_alert := alert |}.

(** The loop [for insight in aggregated: insight.is_alert = ...]. *)
Fixpoint mark_alerts (self : InsightAggregator)
    (aggregated : list AggregatedInsight) (now : datetime)
    : list AggregatedInsight * InsightAggregator :=
  match aggregated with
  | [] => ([], self)
  | insight :: rest =>
      let '(alert, self1) := _should_be_alert self insight now in
      let '(rest', self2) := mark_alerts self1 rest now in
      (set_is_alert insight alert :: rest', self2)
  end.

(** ** Recommendations and summary *)

Definition recommendation_for (insight : AggregatedInsight)
    : list Recommendation :=
  if negb (is_alert insight) then []
  else if String.eqb (category insight) "fraud" then
    [ {| rec_type := "action";
         rec_priority := "high";
         rec_title := "Verify Candidate Identity";
         rec_description :=
           "Based on " +:+ insight_type insight
             +:+ ", consider verifying the candidate's identity.";
         suggested_actions :=
           Some [ "Ask the candidate to show their ID";
                  "Request they pan the camera around the room";
                  "Ask a question only they would know from their application" ];
         suggested_questions := None;
         related_insight_id := insight_id insight |} ]
  else if String.eqb (category insight) "contradiction" then
    [ {| rec_type := "clarification";
         rec_priority := "medium";
         rec_title := "Clarify Resume Claim";
         rec_description := description insight;
         suggested_actions := None;
         suggested_questions :=
           Some (match followup_questions insight with
                 | [] => [ "Can you elaborate on that?";
                           "Can you walk me through a specific example?" ]
                 | qs => qs
                 end);
         related_insight_id := insight_id insight |} ]
  else if String.eqb (category insight) "speech"
          && String.eqb (insight_type insight) "high_hesitation" then
    [ {| rec_type := "observation";
         rec_priority := "low";
         rec_title := "Candidate Hesitation Noted";
         rec_description :=
           "The candidate appears hesitant. This could indicate uncertainty or nervousness.";
         suggested_actions :=
           Some [ "Consider asking for more specific examples";
                  "Give the candidate time to think before answering" ];
         suggested_questions := None;
         related_insight_id := insight_id insight |} ]
  else [].

Definition _generate_recommendations (aggregated : list AggregatedInsight)
    : list Recommendation :=
  py_slice_to (max_recommendations_per_round settings)
              (flat_map recommendation_for aggregated).

(** [counts[k] += 1] on a [defaultdict(int)]. *)
Fixpoint count_incr (k : string) (counts : list (string * nat))
    : list (string * nat) :=
  match counts with
  | [] => [(k, 1%nat)]
  | (k', n) :: rest =>
      if String.eqb k' k then (k', S n) :: rest
      else (k', n) :: count_incr k rest
  end.

Definition _create_summary (aggregated : list AggregatedInsight) : Summary :=
  let total :=
    fold_left float_add (map confidence aggregated) (float_of_int 0) in
  {| total_insights := length aggregated;
     alerts_count := Some (length (List.filter is_alert aggregated));
     by_category :=
       Some (fold_left (fun counts i => count_incr (category i) counts)
                       aggregated []);
     by_severity :=
       Some (fold_left (fun counts i => count_incr (severity i) counts)
                       aggregated []);
     overall_confidence :=
       Some (match aggregated with
             | [] => total
             | _ => float_div total
                              (float_of_int (Z.of_nat (length aggregated)))
             end) |}.

(** ** Sorting *)

(** The key [(priority, -confidence, -weight)] of [aggregated.sort]. *)
Definition sort_key (x : AggregatedInsight) : Z * float * Z :=
  (category_priority (category x),
   float_neg (confidence x),
   - severity_weights (severity x)).

(** Python's [<] on such tuples: the first component on which the tuples
    are not [==] decides, with its [<]. *)
Definition sort_key_ltb (a b : Z * float * Z) : bool :=
  let '(p1, c1, w1) := a in
  let '(p2, c2, w2) := b in
  if negb (p1 =? p2) then p1 <? p2
  else if negb (float_eq c1 c2) then float_lt c1 c2
  else w1 <? w2.

(** [list.sort(key=...)] is stable and compares keys with [<] only; on
    keys that [<] orders (here: no NaN among them, which the threshold
    filter before the sort ensures) a stable sort has one possible result,
    computed here by insertion. *)
Fixpoint insert_by {A K} (ltb : K -> K -> bool) (key : A -> K)
    (x : A) (sorted : list A) : list A :=
  match sorted with
  | [] => [x]
  | y :: rest =>
      if ltb (key y) (key x) then y :: insert_by ltb key x rest
      else x :: y :: rest
  end.

Fixpoint py_sort {A K} (ltb : K -> K -> bool) (key : A -> K)
    (xs : list A) : list A :=
  match xs with
  | [] => []
  | x :: rest => insert_by ltb key x (py_sort ltb key rest)
  end.

(** ** [aggregate] *)

Definition empty_batch (round : string) (now : datetime) : InsightBatch :=
  {| batch_round_id := round;
     insights := [];
     recommendations := [];
     summary := {| total_insights := 0;
                   alerts_count := None;
                   by_category := None;
                   by_severity := None;
                   overall_confidence := None |};
     batch_timestamp := now |}.

(** The insights of a batch before the alert gate runs: scored, filtered,
    sorted and truncated. *)
Definition ranked (scored : list AggregatedInsight) : list AggregatedInsight :=
  let kept :=
    List.filter
      (fun i => float_ge (confidence i) (min_confidence_threshold settings))
      scored in
  py_slice_to (max_insights_per_batch settings)
              (py_sort sort_key_ltb sort_key kept).

Definition aggregate (self : InsightAggregator) (round : string)
    (now : datetime) : InsightBatch * InsightAggregator :=
  match default [] (insight_buffer self !! round) with
  | [] => (empty_batch round now, self)
  | raw_insights =>
      let grouped := _group_insights raw_insights in
      let '(scored, self1) := score_groups self round grouped now in
      let '(aggregated, self2) := mark_alerts self1 (ranked scored) now in
      ({| batch_round_id := round;
          insights := aggregated;
          recommendations :=
            if generate_recommendations settings
            then _generate_recommendations aggregated else [];
          summary := _create_summary aggregated;
          batch_timestamp := now |},
       self2)
  end.

End WithSetOrder.

End WithSettings.

(** ** A concrete enumeration order, used to run the model *)

#[export] Instance remove_dups_order : PySetOrder := {|
  list_set := remove_dups;
  list_set_NoDup := NoDup_remove_dups;
  list_set_elem_of := fun xs x => elem_of_remove_dups xs x
|}.

(** ** Summation from left to right, used to run the model *)

#[export] Instance left_to_right_sum : PyFloatSum := {|
  float_sum := fun xs => fold_left float_add xs (float_of_int 0);
  float_sum_one := fun x => eq_refl
|}.

(** * [RecommendationEngine] and the request handlers that call the aggregator *)

(** The dictionary [generate_overall_assessment] returns.  [generated_at]
    is the clock reading whose ISO rendering the code stores. *)
Record Assessment := {
  assessment_round_id : string;
  interview_duration_minutes : Z;
  risk_level : string;
  risk_explanation : string;
  fraud_indicators : nat;
  contradictions_found : nat;
  assessment_total_insights : nat;
  next_steps : list string;
  generated_at : datetime
}.

Definition fraud_alerts (insights : list AggregatedInsight)
    : list AggregatedInsight :=
  List.filter (fun i => String.eqb (category i) "fraud" && is_alert i) insights.

Definition contradictions (insights : list AggregatedInsight)
    : list AggregatedInsight :=
  List.filter (fun i => String.eqb (category i) "contradiction" && is_alert i)
              insights.

(** [RecommendationEngine.generate_overall_assessment] *)
Definition generate_overall_assessment (round : string)
    (insights : list AggregatedInsight) (duration_minutes : Z)
    (now : datetime) : Assessment :=
  let frauds := fraud_alerts insights in
  let contras := contradictions insights in
  let risk :=
    if (2 <=? length frauds)%nat then
      ("high",
       "Multiple fraud indicators detected. Strong recommendation to verify identity.")
    else if (length frauds =? 1)%nat || (2 <=? length contras)%nat then
      ("medium", "Some concerns detected. Consider probing specific areas.")
    else ("low", "No significant concerns detected so far.") in
  let steps1 :=
    match frauds with
    | [] => []
    | _ => ["Verify candidate identity before proceeding"]
    end in
  let steps2 :=
    match contras with
    | [] => steps1
    | _ => steps1 ++ ["Clarify discrepancies in experience claims"]
    end in
  let steps3 :=
    match steps2 with
    | [] => ["Continue with planned interview questions"]
    | _ => steps2
    end in
  {| assessment_round_id := round;
     interview_duration_minutes := duration_minutes;
     risk_level := risk.1;
     risk_explanation := risk.2;
     fraud_indicators := length frauds;
     contradictions_found := length contras;
     assessment_total_insights := length insights;
     next_steps := steps3;
     generated_at := now |}.

Section Handlers.

Variable settings : Settings.
Context {order : PySetOrder} {adder : PyFloatSum}.

(** The body of [receive_insight] ([POST /insights/receive]) on an
    initialised aggregator: the dictionary built from the validated
    request is added, and the buffer size is reported. *)
Definition receive_insight (self : InsightAggregator) (round : string)
    (type source : string) (payload : InsightData) (now now' : datetime)
    : nat * InsightAggregator :=
  let self' :=
    add_insight settings self round
                {| source := Some source;
                   raw_type := Some type;
                   data := Some payload;
                   received_at := None |}
                now now' in
  (get_buffer_size self' round, self').

(** The body of [get_assessment] ([GET /insights/{round_id}/assessment]):
    an aggregation, then the assessment of its insights. *)
Definition get_assessment (self : InsightAggregator) (round : string)
    (duration_minutes : Z) (now : datetime)
    : Assessment * InsightAggregator :=
  let '(batch, self') := aggregate settings self round now in
  (generate_overall_assessment round (insights batch) duration_minutes now,
   self').

End Handlers.

(** The categories [_source_to_category] produces and the severities
    [_aggregate_severity] produces. *)
Definition categories : list string :=
  ["speech"; "video"; "fraud"; "contradiction"; "other"].

Definition severity_levels : list string := ["low"; "medium"; "high"].

(** How many of the strings are equal to [s]. *)
Definition occurrences (s : string) (xs : list string) : nat :=
  length (List.filter (String.eqb s) xs).

(** [counts.get(k, 0)] on a counter dictionary. *)
Fixpoint count_get (k : string) (counts : list (string * nat)) : nat :=
  match counts with
  | [] => 0%nat
  | (k', n) :: rest => if String.eqb k' k then n else count_get k rest
  end.

(** * Vocabulary of the properties *)

Section Vocabulary.

Variable settings : Settings.
Context {order : PySetOrder} {adder : PyFloatSum}.

(** The cut-off of [_cleanup_buffer]. *)
Definition cutoff (now : datetime) : datetime :=
  now - seconds (insight_window_seconds settings * 2).

(** The confidence and severity gates on their own. *)
Definition passes_gates (insight : AggregatedInsight) : bool :=
  (String.eqb (category insight) "fraud"
   && float_ge (confidence insight) (fraud_alert_confidence settings))
  || (String.eqb (category insight) "contradiction"
      && float_ge (confidence insight)
                  (contradiction_alert_confidence settings))
  || (String.eqb (severity insight) "high"
      && float_ge (confidence insight) (float_lit 8 10)).

(** A sequence of gate calls, each with its own clock reading. *)
Fixpoint run_gate (self : InsightAggregator)
    (calls : list (AggregatedInsight * datetime))
    : list bool * InsightAggregator :=
  match calls with
  | [] => ([], self)
  | (insight, now) :: rest =>
      let '(alert, self1) := _should_be_alert settings self insight now in
      let '(alerts, self2) := run_gate self1 rest in
      (alert :: alerts, self2)
  end.

(** The state reached after a promotion of [key] at [t], as far as later
    calls on [key] can tell: the stored time is [t] or later. *)
Definition promoted_since (key : string) (t : datetime)
    (self : InsightAggregator) : Prop :=
  exists last, recent_alerts self !! key = Some last /\ t <= last.

(** The snapshot [aggregate] reads, and the stages it goes through. *)
Definition snapshot (self : InsightAggregator) (round : string)
    : list RawInsight :=
  default [] (insight_buffer self !! round).

Definition scored (self : InsightAggregator) (round : string)
    (now : datetime) : list AggregatedInsight :=
  (score_groups self round (_group_insights (snapshot self round)) now).1.

Definition above_threshold (a : AggregatedInsight) : bool :=
  float_ge (confidence a) (min_confidence_threshold settings).

(** Where a scored insight comes from. *)
Definition scored_from (round : string) (now : datetime)
    (g : group_key * list RawInsight) (a : AggregatedInsight) : Prop :=
  exists self0 self1,
    _aggregate_group self0 round g.1.1 g.1.2 g.2 now = (Some a, self1).

(** Whether some insight of the list is an alert with the given key. *)
Definition alerted (key : string) (aggregated : list AggregatedInsight)
    : bool :=
  existsb (fun a => is_alert a && String.eqb (alert_key a) key) aggregated.

End Vocabulary.

Section KeyOrder.

Context {A K : Type} (ltb : K -> K -> bool) (key : A -> K).

(** The order and the ties a key comparison induces on the elements. *)
Definition key_le (x y : A) : Prop := ltb (key y) (key x) = false.

Definition key_tied (k : K) (x : A) : bool :=
  negb (ltb (key x) k) && negb (ltb k (key x)).

End KeyOrder.

(** The order a batch is specified to have, with its own tables: the
    priority of a category (99 for a category that is not listed) and the
    weight of a severity (0 for a severity that is not listed). *)
Definition priority_table : list (string * Z) :=
  [("fraud", 1); ("contradiction", 2); ("speech", 3); ("video", 4)].

Definition weight_table : list (string * Z) :=
  [("high", 3); ("medium", 2); ("low", 1)].

Fixpoint listed (table : list (string * Z)) (otherwise : Z) (s : string) : Z :=
  match table with
  | [] => otherwise
  | (k, v) :: rest => if String.eqb k s then v else listed rest otherwise s
  end.

Definition priority_of (a : AggregatedInsight) : Z :=
  listed priority_table 99 (category a).

Definition weight_of (a : AggregatedInsight) : Z :=
  listed weight_table 0 (severity a).

(** Category priority ascending, then confidence descending, then
    severity weight descending. *)
Definition ranks_no_later (x y : AggregatedInsight) : Prop :=
  priority_of x < priority_of y
  \/ (priority_of x = priority_of y
      /\ (float_lt (confidence y) (confidence x) = true
          \/ (float_eq (confidence x) (confidence y) = true
              /\ weight_of y <= weight_of x))).

(** Two insights tie when the three keys agree. *)
Definition tied (x y : AggregatedInsight) : bool :=
  (priority_of x =? priority_of y)
  && float_eq (confidence x) (confidence y)
  && (weight_of x =? weight_of y).

Definition is_nan (x : float) : bool :=
  match x with S754_nan => true | _ => false end.

(** Where a float that is not a NaN stands in the order of the
    comparisons: its class, then exponent and mantissa. *)
Definition float_rank (x : float) : Z * Z * Z :=
  match x with
  | S754_nan => (0, 0, 0)
  | S754_zero _ => (0, 0, 0)
  | S754_infinity s => (if s then -2 else 2, 0, 0)
  | S754_finite s m e => if s then (-1, - e, - Z.pos m) else (1, e, Z.pos m)
  end.

Definition rank_lt (a b : Z * Z * Z) : Prop :=
  a.1.1 < b.1.1
  \/ (a.1.1 = b.1.1
      /\ (a.1.2 < b.1.2 \/ (a.1.2 = b.1.2 /\ a.2 < b.2))).

Definition rank_eq (a b : Z * Z * Z) : Prop :=
  a.1.1 = b.1.1 /\ a.1.2 = b.1.2 /\ a.2 = b.2.

Definition rank_compare (a b : Z * Z * Z) : comparison :=
  match a.1.1 ?= b.1.1 with
  | Eq => match a.1.2 ?= b.1.2 with
          | Eq => a.2 ?= b.2
          | c => c
          end
  | c => c
  end.

(** The keys the sort is run on: no NaN among them. *)
Definition key_ok (k : Z * float * Z) : Prop := is_nan k.1.2 = false.

(** The (session, category, type) of an insight, which its alert key is
    meant to stand for. *)
Definition alert_triple (a : AggregatedInsight) : string * string * string :=
  (round_id a, category a, insight_type a).

Fixpoint colon_free (s : string) : bool :=
  match s with
  | EmptyString => true
  | String c rest => negb (Ascii.eqb c ":") && colon_free rest
  end.

(** What an aggregated insight says, apart from its id, its time stamp and
    its alert flag. *)
Definition content (a : AggregatedInsight) :=
  (round_id a, category a, insight_type a, confidence a, severity a,
   title a, description a, evidence a, source_services a,
   followup_questions a).

(** A group on which every enumeration order and every summation give the
    same score: one record, with at most one evidence string and one
    follow-up question. *)
Definition order_free (members : list RawInsight) : bool :=
  (length members <=? 1)%nat
  && (length (collect_evidence members) <=? 1)%nat
  && (length (collect_followups members) <=? 1)%nat.

(** * Example data *)

(** Two sessions with one record each, an alert on record and a counter
    that has advanced. *)
Definition two_sessions : InsightAggregator :=
  {| insight_buffer :=
       <["r1" := [ {| source := Some "fraud-detection";
                      raw_type := Some "multiple_faces";
                      data := None;
                      received_at := Some 0 |} ]]>
         (<["r2" := [ {| source := Some "nlp-engine";
                        raw_type := Some "contradiction";
                        data := None;
                        received_at := Some 5 |} ]]> ∅);
     recent_alerts := {[ "r1:fraud:multiple_faces" := 7 ]};
     insight_counter := 4 |}.

(** A session whose only record is 61 seconds older than the insert that
    follows. *)
Definition stale_buffer : InsightAggregator :=
  {| insight_buffer :=
       {[ "r1" := [ {| source := Some "speech-analysis";
                       raw_type := Some "high_hesitation";
                       data := None;
                       received_at := Some (seconds 10) |} ] ]};
     recent_alerts := ∅;
     insight_counter := 0 |}.

Definition fraud_candidate : AggregatedInsight :=
  {| insight_id := "r1-1";
     round_id := "r1";
     category := "fraud";
     insight_type := "multiple_faces";
     confidence := float_lit 9 10;
     severity := "low";
     title := "Multiple Faces Detected";
     description := "Two faces in the frame";
     evidence := [];
     source_services := ["fraud-detection"];
     followup_questions := [];
     timestamp := 0;
     is_alert := false |}.

Definition reported (src ty : string) (c : float) : RawInsight :=
  {| source := Some src;
     raw_type := Some ty;
     data := Some {| data_confidence := Some c;
                     data_severity := None;
                     data_description := None;
                     data_evidence := None;
                     data_followup_questions := None |};
     received_at := None |}.

(** Session ["r1"] after the three records came in, one second apart. *)
Definition scenario_r1 (fraud_type speech_type : string) : InsightAggregator :=
  add_insight default_settings
    (add_insight default_settings
       (add_insight default_settings init "r1"
          (reported "fraud-detection" fraud_type (float_lit 9 10))
          (seconds 0) (seconds 0))
       "r1" (reported "video-analysis" fraud_type (float_lit 95 100))
       (seconds 1) (seconds 1))
    "r1" (reported "speech-analysis" speech_type (float_lit 4 10))
    (seconds 2) (seconds 2).

Definition scenario_batch {order : PySetOrder} {adder : PyFloatSum}
    (fraud_type speech_type : string) : InsightBatch :=
  (aggregate default_settings (scenario_r1 fraud_type speech_type)
             "r1" (seconds 3)).1.

(** Sessions ["a"] and ["b"], one fraud record each. *)
Definition two_rounds : InsightAggregator :=
  add_insight default_settings
    (add_insight default_settings init "a"
       (reported "fraud-detection" "multiple_faces" (float_lit 9 10))
       (seconds 0) (seconds 0))
    "b" (reported "fraud-detection" "face_switch" (float_lit 9 10))
    (seconds 1) (seconds 1).

(** Session ["r1"] with one fraud record. *)
Definition one_fraud : InsightAggregator :=
  add_insight default_settings init "r1"
    (reported "fraud-detection" "multiple_faces" (float_lit 9 10))
    (seconds 0) (seconds 0).


Definition eight_strings : list string :=
  ["e1"; "e2"; "e3"; "e4"; "e5"; "e6"; "e7"; "e8"].

Definition eight_evidence : list RawInsight :=
  [ {| source := Some "fraud-detection";
       raw_type := Some "multiple_faces";
       data := Some {| data_confidence := Some (float_lit 9 10);
                       data_severity := Some "high";
                       data_description := Some "e1";
                       data_evidence := Some ["e2"; "e3"; "e4"; "e1"];
                       data_followup_questions := None |};
       received_at := Some 0 |};
    {| source := Some "fraud-detection";
       raw_type := Some "multiple_faces";
       data := Some {| data_confidence := Some (float_lit 8 10);
                       data_severity := None;
                       data_description := None;
                       data_evidence := Some ["e5"; "e6"; "e7"; "e8"];
                       data_followup_questions := Some ["q1"; "q1"] |};
       received_at := Some 1 |} ].

(** Session ["r1"] with one speech record of confidence 0.4. *)
Definition one_weak : InsightAggregator :=
  add_insight default_settings init "r1"
    (reported "speech-analysis" "low_confidence" (float_lit 4 10))
    (seconds 0) (seconds 0).

(** Three records, two of them with the same source and type. *)
Definition mixed_records : list RawInsight :=
  [ reported "fraud-detection" "multiple_faces" (float_lit 9 10);
    reported "speech-analysis" "low_confidence" (float_lit 4 10);
    reported "fraud-detection" "multiple_faces" (float_lit 8 10) ].

Definition contradiction_candidate : AggregatedInsight :=
  {| insight_id := "r1-2";
     round_id := "r1";
     category := "contradiction";
     insight_type := "skill_mismatch";
     confidence := float_lit 85 100;
     severity := "medium";
     title := "Skill Level Mismatch";
     description := "Claims five years of Rust, cannot explain ownership";
     evidence := [];
     source_services := ["nlp-engine"];
     followup_questions := ["Which Rust projects did you ship?"];
     timestamp := 0;
     is_alert := true |}.

(** One fraud alert and one contradiction alert. *)
Definition two_flagged : list AggregatedInsight :=
  [set_is_alert fraud_candidate true; contradiction_candidate].

(** The defaults, with room for one insight per batch. *)
Definition tight_settings : Settings :=
  {| insight_window_seconds := 30;
     min_confidence_threshold := float_lit 7 10;
     max_insights_per_batch := 1;
     fraud_alert_confidence := float_lit 85 100;
     contradiction_alert_confidence := float_lit 80 100;
     min_alert_interval_seconds := 60;
     generate_recommendations := true;
     max_recommendations_per_round := 5 |}.

(** The video insight of the three-record scenario, as it is scored. *)
Definition video_scored : AggregatedInsight :=
  {| insight_id := "r1-2";
     round_id := "r1";
     category := "video";
     insight_type := "multiple_faces";
     confidence := float_lit 95 100;
     severity := "low";
     title := "Video: Multiple Faces";
     description := "Observation in video: multiple_faces";
     evidence := [];
     source_services := ["video-analysis"];
     followup_questions := [];
     timestamp := seconds 3;
     is_alert := false |}.

(** The fraud insight of the three-record scenario, as the batch has it. *)
Definition fraud_flagged : AggregatedInsight :=
  {| insight_id := "r1-1";
     round_id := "r1";
     category := "fraud";
     insight_type := "multiple_faces";
     confidence := float_lit 9 10;
     severity := "low";
     title := "Multiple Faces Detected";
     description :=
       "Multiple people detected in the candidate's video feed. This may indicate someone else is present during the interview.";
     evidence := [];
     source_services := ["fraud-detection"];
     followup_questions := [];
     timestamp := seconds 3;
     is_alert := true |}.


(** Three gate calls on the same insight, at 0, 59 and 60 seconds. *)
Definition three_calls : list (AggregatedInsight * datetime) :=
  [ (fraud_candidate, 0);
    (fraud_candidate, seconds 59);
    (fraud_candidate, seconds 60) ].

(** * Proof automation *)

Ltac by_arith := solve [done | lia | intros; exfalso; lia].

Ltac steps_cases H :=
  repeat match type of H with
         | _ \/ _ => destruct H as [H|H]
         end;
  try discriminate H; try contradiction.

(** * Properties *)

(** ** The round buffer: [clear_buffer] and [add_insight] *)

Lemma get_buffer_size_lookup (self : InsightAggregator) (round : string) :
  get_buffer_size self round
  = match insight_buffer self !! round with
    | Some records => length records
    | None => 0%nat
    end.
Proof. unfold get_buffer_size. by destruct (insight_buffer self !! round). Qed.

Lemma clear_buffer_buffer (self : InsightAggregator) (round : string) :
  insight_buffer (clear_buffer self round) = delete round (insight_buffer self).
Proof.
  unfold clear_buffer.
  destruct (insight_buffer self !! round) eqn:E; simpl; [done|].
  symmetry. by apply delete_id.
Qed.

(** C10. [clear_buffer] deletes the entry of the given session and nothing
    else: the size of that session becomes 0, the buffer is the old one
    without that key, so every other session keeps its records, the
    insight counter and the whole map of recent alerts are unchanged, and
    on a session that has no entry the aggregator is returned as it is. *)
Theorem clear_buffer_frame (self : InsightAggregator) (round : string) :
  get_buffer_size (clear_buffer self round) round = 0%nat
  /\ insight_buffer (clear_buffer self round)
     = delete round (insight_buffer self)
  /\ (forall other : string,
        other <> round ->
        insight_buffer (clear_buffer self round) !! other
        = insight_buffer self !! other)
  /\ (forall other : string,
        other <> round ->
        get_buffer_size (clear_buffer self round) other
        = get_buffer_size self other)
  /\ insight_counter (clear_buffer self round) = insight_counter self
  /\ recent_alerts (clear_buffer self round) = recent_alerts self
  /\ (insight_buffer self !! round = None -> clear_buffer self round = self).
Proof.
  pose proof (clear_buffer_buffer self round) as Hbuf.
  repeat split.
  - rewrite get_buffer_size_lookup, Hbuf. by rewrite lookup_delete_eq.
  - exact Hbuf.
  - intros other Hne. rewrite Hbuf. by apply lookup_delete_ne.
  - intros other Hne. rewrite !get_buffer_size_lookup, Hbuf.
    by rewrite lookup_delete_ne.
  - unfold clear_buffer. by destruct (insight_buffer self !! round).
  - unfold clear_buffer. by destruct (insight_buffer self !! round).
  - intros Hnone. unfold clear_buffer. by rewrite Hnone.
Qed.

Lemma clear_buffer_frame_witness :
  get_buffer_size (clear_buffer two_sessions "r1") "r1" = 0%nat
  /\ get_buffer_size (clear_buffer two_sessions "r1") "r2" = 1%nat
  /\ recent_alerts (clear_buffer two_sessions "r1") !! "r1:fraud:multiple_faces"
     = Some 7
  /\ clear_buffer init "r1" = init.
Proof.
  destruct (clear_buffer_frame two_sessions "r1")
    as (Hsize & _ & _ & Hother & _ & Halerts & _).
  destruct (clear_buffer_frame init "r1") as (_ & _ & _ & _ & _ & _ & Hnoop).
  split; [exact Hsize|].
  split; [rewrite Hother; [reflexivity | discriminate]|].
  split; [rewrite Halerts; reflexivity|].
  apply Hnoop. reflexivity.
Defined.

Section BufferProperties.

Variable settings : Settings.

Lemma add_insight_snapshot (self : InsightAggregator) (round : string)
    (insight : RawInsight) (now now' : datetime) :
  insight_buffer (add_insight settings self round insight now now') !! round
  = Some (List.filter
            (fun r => cutoff settings now' <? default now' (received_at r))
            (default [] (insight_buffer self !! round) ++ [stamp insight now])).
Proof.
  unfold add_insight, _cleanup_buffer; simpl.
  by rewrite lookup_insert_eq, lookup_insert_eq.
Qed.

(** C6. Right after [add_insight] whose clean-up reads the clock at
    [now'], every record left in that session's buffer was received
    strictly after [now' - 2 * window]: none is older than that.  In
    particular a record of the old buffer whose [received_at] is at or
    before the cut-off is not in the snapshot that follows, while the
    records received after the cut-off are all kept. *)
Theorem add_insight_evicts (self : InsightAggregator) (round : string)
    (insight : RawInsight) (now now' : datetime) :
  let self' := add_insight settings self round insight now now' in
  let buffered := default [] (insight_buffer self' !! round) in
  (forall r t, In r buffered -> received_at r = Some t -> cutoff settings now' < t)
  /\ (forall r t,
        In r (default [] (insight_buffer self !! round)) ->
        received_at r = Some t -> t <= cutoff settings now' -> ~ In r buffered)
  /\ (forall r t,
        In r (default [] (insight_buffer self !! round)) ->
        received_at r = Some t -> cutoff settings now' < t -> In r buffered).
Proof.
  intros self' buffered.
  assert (Hsnap : forall r, In r buffered <->
            In r (default [] (insight_buffer self !! round)
                    ++ [stamp insight now])
            /\ (cutoff settings now' <? default now' (received_at r)) = true).
  { intros r. unfold buffered, self'. rewrite add_insight_snapshot. simpl.
    apply filter_In. }
  assert (Hnew : forall r t, In r buffered -> received_at r = Some t ->
                             cutoff settings now' < t).
  { intros r t Hin Ht. apply Hsnap in Hin as [_ Hkeep].
    rewrite Ht in Hkeep. simpl in Hkeep. lia. }
  split; [exact Hnew|]. split.
  - intros r t _ Ht Hold Hin. specialize (Hnew r t Hin Ht). lia.
  - intros r t Hin Ht Hfresh. apply Hsnap. split.
    + apply in_or_app. by left.
    + rewrite Ht. simpl. lia.
Qed.

End BufferProperties.

Lemma add_insight_evicts_witness :
  ~ In {| source := Some "speech-analysis";
          raw_type := Some "high_hesitation";
          data := None;
          received_at := Some (seconds 10) |}
       (default []
          (insight_buffer
             (add_insight default_settings stale_buffer "r1"
                {| source := Some "video-analysis";
                   raw_type := Some "head_movement";
                   data := None;
                   received_at := None |}
                (seconds 71) (seconds 71)) !! "r1")).
Proof.
  apply (add_insight_evicts default_settings stale_buffer "r1" _
           (seconds 71) (seconds 71)) with (t := seconds 10).
  - left. reflexivity.
  - reflexivity.
  - vm_compute. discriminate.
Defined.

(** ** The alert gate *)

Section AlertGate.

Variable settings : Settings.

Lemma should_be_alert_spec (self : InsightAggregator)
    (insight : AggregatedInsight) (now : datetime) :
  _should_be_alert settings self insight now
  = if in_cooldown settings self (alert_key insight) now then (false, self)
    else if passes_gates settings insight
         then (true, record_alert self (alert_key insight) now)
         else (false, self).
Proof.
  unfold _should_be_alert, passes_gates.
  destruct (in_cooldown settings self (alert_key insight) now); [done|].
  destruct (String.eqb (category insight) "fraud"
            && float_ge (confidence insight) (fraud_alert_confidence settings));
    [done|].
  destruct (String.eqb (category insight) "contradiction"
            && float_ge (confidence insight)
                        (contradiction_alert_confidence settings)); [done|].
  by destruct (String.eqb (severity insight) "high"
               && float_ge (confidence insight) (float_lit 8 10)).
Qed.

Lemma should_be_alert_state (self : InsightAggregator)
    (insight : AggregatedInsight) (now : datetime) :
  (_should_be_alert settings self insight now).2
  = if (_should_be_alert settings self insight now).1
    then record_alert self (alert_key insight) now
    else self.
Proof.
  rewrite should_be_alert_spec.
  destruct (in_cooldown settings self (alert_key insight) now); [done|].
  by destruct (passes_gates settings insight).
Qed.

Lemma promoted_since_suppresses (key : string) (t : datetime)
    (self : InsightAggregator) (insight : AggregatedInsight) (now : datetime) :
  promoted_since key t self ->
  alert_key insight = key ->
  now - t < seconds (min_alert_interval_seconds settings) ->
  _should_be_alert settings self insight now = (false, self).
Proof.
  intros (last & Hlast & Hle) Hkey Hnear.
  rewrite should_be_alert_spec. unfold in_cooldown.
  rewrite Hkey, Hlast.
  destruct (now - last <? _) eqn:E; [done|]. lia.
Qed.

Lemma promoted_since_step (key : string) (t : datetime)
    (self : InsightAggregator) (insight : AggregatedInsight) (now : datetime) :
  0 <= min_alert_interval_seconds settings ->
  promoted_since key t self ->
  promoted_since key t (_should_be_alert settings self insight now).2.
Proof.
  intros Hpos (last & Hlast & Hle).
  rewrite should_be_alert_spec. unfold in_cooldown.
  destruct (decide (alert_key insight = key)) as [Heq|Hne].
  - rewrite Heq, Hlast.
    destruct (now - last <? _) eqn:E; [by exists last|].
    destruct (passes_gates settings insight); [|by exists last].
    exists now. simpl. rewrite lookup_insert_eq. split; [done|].
    unfold seconds in E. lia.
  - destruct (match recent_alerts self !! alert_key insight with
              | Some _ => _ | None => _ end); [by exists last|].
    destruct (passes_gates settings insight); [|by exists last].
    exists last. simpl. by rewrite lookup_insert_ne.
Qed.

Lemma run_gate_suppressed (key : string) (t : datetime)
    (calls : list (AggregatedInsight * datetime)) :
  0 <= min_alert_interval_seconds settings ->
  forall (self : InsightAggregator) (n : nat)
         (insight : AggregatedInsight) (now : datetime),
    promoted_since key t self ->
    calls !! n = Some (insight, now) ->
    alert_key insight = key ->
    now - t < seconds (min_alert_interval_seconds settings) ->
    (run_gate settings self calls).1 !! n = Some false.
Proof.
  intros Hpos. induction calls as [|[j u] calls IH];
    intros self n insight now Hinv Hn Hkey Hnear; [done|].
  simpl.
  pose proof (promoted_since_step key t self j u Hpos Hinv) as Hinv'.
  destruct (_should_be_alert settings self j u) as [alert self1] eqn:E1.
  destruct (run_gate settings self1 calls) as [alerts self2] eqn:E2.
  destruct n as [|n]; simpl in *.
  - injection Hn as -> ->.
    rewrite (promoted_since_suppresses key t self insight now) in E1 by done.
    by injection E1 as <- _.
  - specialize (IH self1 n insight now Hinv' Hn Hkey Hnear).
    by rewrite E2 in IH.
Qed.

(** The alert key determines the triple when the session id and the
    category contain no colon, and not otherwise. *)
Lemma append_cons (c : ascii) (r s : string) :
  String c r +:+ s = String c (r +:+ s).
Proof. reflexivity. Qed.

Lemma append_colon_inj (r1 r2 x1 x2 : string) :
  colon_free r1 = true -> colon_free r2 = true ->
  r1 +:+ ":" +:+ x1 = r2 +:+ ":" +:+ x2 -> r1 = r2 /\ x1 = x2.
Proof.
  revert r2.
  induction r1 as [|c r1 IH]; intros [|d r2]; cbn [colon_free];
    intros H1 H2 Heq;
    change ("" +:+ ":" +:+ x1) with (String ":" x1) in Heq;
    change ("" +:+ ":" +:+ x2) with (String ":" x2) in Heq;
    rewrite ?append_cons in Heq.
  - by injection Heq as ->.
  - injection Heq as <- _. discriminate H2.
  - injection Heq as -> _. discriminate H1.
  - injection Heq as -> Heq.
    apply andb_true_iff in H1 as [_ H1], H2 as [_ H2].
    by destruct (IH r2 H1 H2 Heq) as [-> ->].
Qed.

Lemma alert_key_triple (a b : AggregatedInsight) :
  colon_free (round_id a) = true -> colon_free (category a) = true ->
  colon_free (round_id b) = true -> colon_free (category b) = true ->
  alert_key a = alert_key b -> alert_triple a = alert_triple b.
Proof.
  unfold alert_key, alert_triple. intros Hra Hca Hrb Hcb Heq.
  apply append_colon_inj in Heq as [-> Heq]; [|done..].
  apply append_colon_inj in Heq as [-> ->]; done.
Qed.

Lemma alert_triple_key (a b : AggregatedInsight) :
  alert_triple a = alert_triple b -> alert_key a = alert_key b.
Proof.
  unfold alert_key, alert_triple. intros H. injection H as -> -> ->. done.
Qed.

(** A run of gate calls, cut in two. *)
Lemma run_gate_app (l1 l2 : list (AggregatedInsight * datetime)) :
  forall self,
    run_gate settings self (l1 ++ l2)
    = ((run_gate settings self l1).1
         ++ (run_gate settings (run_gate settings self l1).2 l2).1,
       (run_gate settings (run_gate settings self l1).2 l2).2).
Proof.
  induction l1 as [|[j u] l1 IH]; intros self; cbn [app run_gate fst snd].
  - by destruct (run_gate settings self l2).
  - destruct (_should_be_alert settings self j u) as [alert self1].
    rewrite (IH self1).
    destruct (run_gate settings self1 l1) as [alerts self2].
    cbn [fst snd app].
    by destruct (run_gate settings self2 l2).
Qed.

Lemma run_gate_length (calls : list (AggregatedInsight * datetime)) :
  forall self, length (run_gate settings self calls).1 = length calls.
Proof.
  induction calls as [|[j u] calls IH]; intros self; cbn [run_gate]; [done|].
  destruct (_should_be_alert settings self j u) as [alert self1].
  specialize (IH self1).
  destruct (run_gate settings self1 calls). cbn [fst length] in *. lia.
Qed.

(** The answer to the [n]-th call of a run is the answer of the gate in
    the state the calls before it have led to. *)
Lemma run_gate_lookup (calls : list (AggregatedInsight * datetime))
    (self : InsightAggregator) (n : nat) (insight : AggregatedInsight)
    (now : datetime) :
  calls !! n = Some (insight, now) ->
  (run_gate settings self calls).1 !! n
  = Some (_should_be_alert settings
            (run_gate settings self (take n calls)).2 insight now).1.
Proof.
  intros Hn.
  rewrite <- (take_drop n calls) at 1.
  rewrite run_gate_app. cbn [fst].
  assert (Hlen : length (run_gate settings self (take n calls)).1 = n).
  { rewrite run_gate_length, length_take.
    apply lookup_lt_Some in Hn. lia. }
  rewrite lookup_app_r by lia. rewrite Hlen, Nat.sub_diag.
  rewrite (drop_S _ _ _ Hn). cbn [run_gate].
  destruct (_should_be_alert settings _ insight now) as [alert self1].
  by destruct (run_gate settings self1 _).
Qed.

(** Every time stored in the alert map was stored by a call that
    answered true, under the key of its insight. *)
Lemma run_gate_stored (calls : list (AggregatedInsight * datetime)) :
  forall self n key t,
    recent_alerts (run_gate settings self (take n calls)).2 !! key = Some t ->
    recent_alerts self !! key = Some t
    \/ exists m earlier,
         (m < n)%nat /\ calls !! m = Some (earlier, t)
         /\ alert_key earlier = key
         /\ (run_gate settings self calls).1 !! m = Some true.
Proof.
  induction calls as [|[j u] calls IH]; intros self n key t Hkey.
  - rewrite take_nil in Hkey. by left.
  - destruct n as [|n]; [by left|].
    cbn [take run_gate] in Hkey |- *.
    pose proof (should_be_alert_state self j u) as Hst.
    destruct (_should_be_alert settings self j u) as [alert self1].
    cbn [fst snd] in Hst.
    specialize (IH self1 n key t).
    destruct (run_gate settings self1 (take n calls)) as [alerts' self2'].
    destruct (run_gate settings self1 calls) as [alerts self2].
    cbn [fst snd] in *.
    destruct (IH Hkey) as [Hold|(m & earlier & Hm & Hcall & Hk & Htrue)].
    + destruct alert; subst self1; [|by left].
      cbn [record_alert recent_alerts] in Hold.
      destruct (decide (alert_key j = key)) as [Heq|Hne].
      * rewrite Heq, lookup_insert_eq in Hold. injection Hold as ->.
        right. exists 0%nat, j. split; [lia|]. by repeat split.
      * rewrite lookup_insert_ne in Hold by done. by left.
    + right. exists (S m), earlier. split; [lia|]. by repeat split.
Qed.

Lemma run_gate_promoted_since (key : string) (t : datetime)
    (calls : list (AggregatedInsight * datetime)) :
  0 <= min_alert_interval_seconds settings ->
  forall self,
    promoted_since key t self ->
    promoted_since key t (run_gate settings self calls).2.
Proof.
  intros Hpos.
  induction calls as [|[j u] calls IH]; intros self Hinv; cbn [run_gate];
    [done|].
  pose proof (promoted_since_step key t self j u Hpos Hinv) as Hstep.
  destruct (_should_be_alert settings self j u) as [alert self1].
  specialize (IH self1 Hstep).
  by destruct (run_gate settings self1 calls).
Qed.

(** X18. The cool-down of the alert gate per (session, category, type),
    over any sequence of gate calls on a fresh aggregator and for an
    interval that is not negative.
    (a) After a call on a triple has answered true at time [t], every
    later call on the same triple at a time [now] with
    [now - t < min_alert_interval_seconds] answers false.
    (b) When no session id and no category of the sequence contains a
    colon, a call on a triple for which every earlier call that answered
    true lies at least the interval in the past answers exactly what the
    confidence and severity gates say.
    (c) A call that answers false returns the aggregator unchanged; a call
    that answers true changes it only by storing its time under the key
    of its insight. *)
Theorem alert_gate_per_triple (calls : list (AggregatedInsight * datetime)) :
  0 <= min_alert_interval_seconds settings ->
  let answers := (run_gate settings init calls).1 in
  (forall m n earlier t later now,
      (m < n)%nat ->
      calls !! m = Some (earlier, t) ->
      calls !! n = Some (later, now) ->
      alert_triple later = alert_triple earlier ->
      answers !! m = Some true ->
      now - t < seconds (min_alert_interval_seconds settings) ->
      answers !! n = Some false)
  /\ (Forall (fun c => colon_free (round_id c.1) = true
                       /\ colon_free (category c.1) = true) calls ->
      forall n insight now,
        calls !! n = Some (insight, now) ->
        (forall m earlier t,
            (m < n)%nat ->
            calls !! m = Some (earlier, t) ->
            alert_triple earlier = alert_triple insight ->
            answers !! m = Some true ->
            seconds (min_alert_interval_seconds settings) <= now - t) ->
        answers !! n = Some (passes_gates settings insight))
  /\ (forall self insight now,
        ((_should_be_alert settings self insight now).1 = false ->
         (_should_be_alert settings self insight now).2 = self)
        /\ ((_should_be_alert settings self insight now).1 = true ->
            (_should_be_alert settings self insight now).2
            = record_alert self (alert_key insight) now)).
Proof.
  intros Hpos answers. split; [|split].
  - intros m n earlier t later now Hmn Hm Hn Htriple Htrue Hnear.
    unfold answers in *.
    rewrite (run_gate_lookup calls init m earlier t Hm) in Htrue.
    rewrite (run_gate_lookup calls init n later now Hn).
    injection Htrue as Htrue.
    set (before := (run_gate settings init (take m calls)).2) in *.
    assert (Hafter : promoted_since (alert_key earlier) t
                       (_should_be_alert settings before earlier t).2).
    { rewrite should_be_alert_state, Htrue.
      exists t. cbn [record_alert recent_alerts].
      rewrite lookup_insert_eq. split; [done | lia]. }
    assert (Hsplit : take n calls
                     = take m calls
                         ++ (earlier, t) :: take (n - S m) (drop (S m) calls)).
    { etrans; [symmetry; apply (take_drop m)|].
      rewrite take_take, Nat.min_l by lia. f_equal.
      rewrite skipn_firstn_comm.
      replace (n - m)%nat with (S (n - S m)) by lia.
      assert (Hd : drop m calls = (earlier, t) :: drop (S m) calls)
        by (by apply drop_S).
      by rewrite Hd. }
    rewrite Hsplit, run_gate_app. cbn [snd run_gate]. fold before.
    destruct (_should_be_alert settings before earlier t)
      as [alert self1] eqn:E.
    cbn [fst snd] in *.
    pose proof (run_gate_promoted_since (alert_key earlier) t
                  (take (n - S m) (drop (S m) calls)) Hpos self1 Hafter)
      as Hprom.
    destruct (run_gate settings self1 _) as [alerts self2]. cbn [snd] in *.
    f_equal.
    rewrite (promoted_since_suppresses (alert_key earlier) t self2 later now);
      [done | done | by apply alert_triple_key | done].
  - intros Hfree n insight now Hn Hfar.
    unfold answers in *.
    rewrite (run_gate_lookup calls init n insight now Hn). f_equal.
    rewrite should_be_alert_spec.
    assert (Hcool : in_cooldown settings
                      (run_gate settings init (take n calls)).2
                      (alert_key insight) now = false).
    { unfold in_cooldown.
      destruct (recent_alerts _ !! alert_key insight) as [last|] eqn:E;
        [|done].
      apply run_gate_stored in E
        as [E|(m & earlier & Hm & Hcall & Hkey & Htrue)];
        [exfalso; revert E; apply lookup_empty_Some|].
      rewrite List.Forall_forall in Hfree.
      destruct (Hfree _ (proj1 (list_elem_of_In _ _)
                           (list_elem_of_lookup_2 _ _ _ Hcall))) as [H1 H2].
      destruct (Hfree _ (proj1 (list_elem_of_In _ _)
                           (list_elem_of_lookup_2 _ _ _ Hn))) as [H3 H4].
      cbn [fst] in *.
      specialize (Hfar m earlier last Hm Hcall
                    (alert_key_triple _ _ H1 H2 H3 H4 Hkey) Htrue).
      apply Z.ltb_ge. exact Hfar. }
    rewrite Hcool. by destruct (passes_gates settings insight).
  - intros self insight now.
    rewrite should_be_alert_state.
    by destruct ((_should_be_alert settings self insight now).1).
Qed.

End AlertGate.


Lemma alert_gate_per_triple_witness :
  (run_gate default_settings init three_calls).1 !! 1%nat = Some false
  /\ (run_gate default_settings init three_calls).1 !! 2%nat = Some true.
Proof.
  assert (Hpos : 0 <= min_alert_interval_seconds default_settings)
    by (simpl; lia).
  destruct (alert_gate_per_triple default_settings three_calls Hpos)
    as (Hnear & Hfar & _).
  split.
  - apply (Hnear 0%nat 1%nat fraud_candidate 0 fraud_candidate (seconds 59));
      [lia | reflexivity | reflexivity | reflexivity | reflexivity
      | vm_compute; reflexivity].
  - rewrite (Hfar (ltac:(repeat constructor))
               2%nat fraud_candidate (seconds 60) eq_refl); [reflexivity|].
    intros [|[|m]] earlier t Hm Hcall _ Htrue; [| |lia].
    + injection Hcall as _ <-. vm_compute. discriminate.
    + discriminate Htrue.
Defined.

(** ** The aggregation pipeline *)

Lemma group_append_nonempty (key : group_key) (insight : RawInsight)
    (grouped : list (group_key * list RawInsight)) :
  Forall (fun g => g.2 <> []) grouped ->
  Forall (fun g => g.2 <> []) (group_append key insight grouped).
Proof.
  induction 1 as [|[k members] rest Hne Hrest IH]; simpl.
  - by repeat constructor.
  - destruct (group_key_eqb k key); constructor; try done.
    simpl. by destruct members.
Qed.

Lemma group_insights_nonempty (insights : list RawInsight) :
  Forall (fun g => g.2 <> []) (_group_insights insights).
Proof.
  unfold _group_insights.
  assert (Hgen : forall acc,
             Forall (fun g : group_key * list RawInsight => g.2 <> []) acc ->
             Forall (fun g => g.2 <> [])
               (fold_left (fun grouped insight =>
                             group_append (insight_key insight) insight grouped)
                          insights acc)).
  { induction insights as [|i insights IH]; intros acc Hacc; simpl; [done|].
    apply IH. by apply group_append_nonempty. }
  apply Hgen. constructor.
Qed.

Lemma py_slice_to_nil {A} (n : Z) : py_slice_to n ([] : list A) = [].
Proof. unfold py_slice_to. destruct (0 <=? n); simpl; by rewrite ?firstn_nil. Qed.

Lemma py_slice_to_incl {A} (n : Z) (xs : list A) (x : A) :
  In x (py_slice_to n xs) -> In x xs.
Proof.
  assert (Htake : forall k, In x (firstn k xs) -> In x xs).
  { intros k Hin. rewrite <- (firstn_skipn k xs). apply in_or_app. by left. }
  unfold py_slice_to. destruct (0 <=? n); apply Htake.
Qed.

Lemma py_slice_to_length {A} (n : Z) (xs : list A) :
  0 <= n -> Z.of_nat (length (py_slice_to n xs)) <= n.
Proof.
  intros Hn. unfold py_slice_to.
  destruct (0 <=? n) eqn:E; [|lia].
  pose proof (firstn_le_length (Z.to_nat n) xs).
  rewrite length_firstn. lia.
Qed.

Lemma Forall2_In_r {A B} (P : A -> B -> Prop) (l : list A) (k : list B)
    (y : B) :
  Forall2 P l k -> In y k -> exists x, In x l /\ P x y.
Proof.
  induction 1 as [|a b l k Hab Hrest IH]; simpl; [done|].
  intros [<-|Hin]; [exists a; tauto|].
  destruct (IH Hin) as (x & Hx & HP). exists x. tauto.
Qed.

Section Pipeline.

Variable settings : Settings.
Context {order : PySetOrder} {adder : PyFloatSum}.

Lemma aggregate_group_some (self : InsightAggregator)
    (round category insight_type : string) (insights : list RawInsight)
    (now : datetime) :
  insights <> [] ->
  exists a,
    _aggregate_group self round category insight_type insights now
    = (Some a, {| insight_buffer := insight_buffer self;
                  recent_alerts := recent_alerts self;
                  insight_counter := S (insight_counter self) |})
    /\ insight_id a = round +:+ "-" +:+ pretty (S (insight_counter self))
    /\ confidence a = group_confidence insights
    /\ evidence a = firstn 5 (list_set (collect_evidence insights))
    /\ followup_questions a = firstn 3 (list_set (collect_followups insights))
    /\ is_alert a = false.
Proof.
  intros Hne. destruct insights as [|i insights]; [done|].
  eexists. split; [reflexivity|]. by repeat split.
Qed.

(** Scoring the groups: one insight per group, numbered from the counter. *)
Lemma score_groups_spec (round : string) (now : datetime)
    (grouped : list (group_key * list RawInsight)) :
  Forall (fun g => g.2 <> []) grouped ->
  forall self : InsightAggregator,
    map insight_id (score_groups self round grouped now).1
    = map (fun n => round +:+ "-" +:+ pretty n)
          (seq (S (insight_counter self)) (length grouped))
    /\ insight_counter (score_groups self round grouped now).2
       = (insight_counter self + length grouped)%nat
    /\ insight_buffer (score_groups self round grouped now).2
       = insight_buffer self
    /\ recent_alerts (score_groups self round grouped now).2
       = recent_alerts self
    /\ Forall (fun a => is_alert a = false)
              (score_groups self round grouped now).1.
Proof.
  induction 1 as [|[key members] rest Hne Hrest IH]; intros self; simpl.
  - repeat split; [lia | constructor].
  - destruct (aggregate_group_some self round key.1 key.2 members now Hne)
      as (a & -> & Hid & _ & _ & _ & Halert).
    specialize (IH {| insight_buffer := insight_buffer self;
                      recent_alerts := recent_alerts self;
                      insight_counter := S (insight_counter self) |}).
    destruct (score_groups _ round rest now) as [aggregated self2].
    simpl in *. destruct IH as (Hids & Hcount & Hbuf & Hal & Hfalse).
    repeat split; [by rewrite Hid, Hids | lia | done | done | by constructor].
Qed.

Lemma mark_alerts_spec (now : datetime) (aggregated : list AggregatedInsight) :
  forall self : InsightAggregator,
    Forall2 (fun a b => exists alert, b = set_is_alert a alert)
            aggregated (mark_alerts settings self aggregated now).1
    /\ insight_buffer (mark_alerts settings self aggregated now).2
       = insight_buffer self
    /\ insight_counter (mark_alerts settings self aggregated now).2
       = insight_counter self.
Proof.
  induction aggregated as [|a rest IH]; intros self; simpl.
  - by repeat split.
  - pose proof (should_be_alert_state settings self a now) as Hst.
    destruct (_should_be_alert settings self a now) as [alert self1].
    specialize (IH self1).
    destruct (mark_alerts settings self1 rest now) as [rest' self2].
    simpl in *. destruct IH as (Hall & Hbuf & Hcount).
    assert (Hsame : insight_buffer self1 = insight_buffer self
                    /\ insight_counter self1 = insight_counter self).
    { subst self1. by destruct alert. }
    destruct Hsame as [Hb Hc].
    repeat split; [|congruence|congruence].
    constructor; [by exists alert | done].
Qed.

End Pipeline.

(** ** The order of the float comparisons *)

Lemma rank_compare_spec (a b : Z * Z * Z) :
  (rank_compare a b = Lt <-> rank_lt a b)
  /\ (rank_compare a b = Eq <-> rank_eq a b)
  /\ (rank_compare a b = Gt <-> rank_lt b a).
Proof.
  unfold rank_compare, rank_lt, rank_eq.
  destruct (Z.compare_spec a.1.1 b.1.1), (Z.compare_spec a.1.2 b.1.2),
           (Z.compare_spec a.2 b.2);
    repeat split; intros; try done; try lia.
Qed.

(** On floats that are not NaN the IEEE comparison is the lexicographic
    comparison of the ranks. *)
Lemma float_compare_rank (x y : float) :
  is_nan x = false -> is_nan y = false ->
  SFcompare x y = Some (rank_compare (float_rank x) (float_rank y)).
Proof.
  destruct x as [s1|s1| |s1 m1 e1], y as [s2|s2| |s2 m2 e2];
    try discriminate; intros _ _;
    try (by destruct s1); try (by destruct s2);
    try (by destruct s1, s2).
  destruct s1, s2; cbn [SFcompare float_rank]; unfold rank_compare;
    cbn [fst snd]; try done.
  change (-1 ?= -1) with Eq. cbn match.
  rewrite !Z.compare_opp, (Z.compare_antisym e1 e2).
  destruct (e1 ?= e2); cbn [CompOpp]; try done.
  change (Z.pos m2 ?= Z.pos m1) with (Pos.compare m2 m1).
  change (PosDef.Pos.compare_cont Eq m1 m2) with (Pos.compare m1 m2).
  by rewrite <- Pos.compare_antisym.
Qed.

Lemma float_neg_rank (x : float) :
  float_rank (float_neg x)
  = (- (float_rank x).1.1, - (float_rank x).1.2, - (float_rank x).2).
Proof.
  destruct x as [s|s| |s m e]; try destruct s; try reflexivity.
  cbn [float_neg SFopp negb float_rank fst snd]. repeat f_equal; lia.
Qed.

Lemma float_neg_nan (x : float) : is_nan (float_neg x) = is_nan x.
Proof. by destruct x. Qed.

Lemma float_lt_rank (x y : float) :
  is_nan x = false -> is_nan y = false ->
  float_lt x y = true <-> rank_lt (float_rank x) (float_rank y).
Proof.
  intros Hx Hy. unfold float_lt, SFltb.
  rewrite (float_compare_rank x y Hx Hy).
  destruct (rank_compare_spec (float_rank x) (float_rank y)) as (H1 & H2 & H3).
  rewrite <- H1. by destruct (rank_compare _ _).
Qed.

Lemma float_eq_rank (x y : float) :
  is_nan x = false -> is_nan y = false ->
  float_eq x y = true <-> rank_eq (float_rank x) (float_rank y).
Proof.
  intros Hx Hy. unfold float_eq, SFeqb.
  rewrite (float_compare_rank x y Hx Hy).
  destruct (rank_compare_spec (float_rank x) (float_rank y)) as (H1 & H2 & H3).
  rewrite <- H2. by destruct (rank_compare _ _).
Qed.

(** A comparison that holds has no NaN on either side. *)
Lemma float_ge_not_nan (a b : float) :
  float_ge a b = true -> is_nan a = false /\ is_nan b = false.
Proof. unfold float_ge, SFleb. by destruct a, b. Qed.

(** ** Sorting by key *)

Section SortByKey.

Context {A K : Type} (ltb : K -> K -> bool) (key : A -> K).

(** What the proofs need of [ltb]: a strict weak order on the keys that
    satisfy [ok]. *)
Variable ok : K -> Prop.
Hypothesis ltb_asym : forall a b,
  ok a -> ok b -> ltb a b = true -> ltb b a = false.
Hypothesis ltb_neg_trans : forall a b c,
  ok a -> ok b -> ok c ->
  ltb a b = false -> ltb b c = false -> ltb a c = false.

Lemma insert_by_Permutation (x : A) (sorted : list A) :
  Permutation (insert_by ltb key x sorted) (x :: sorted).
Proof.
  induction sorted as [|y rest IH]; simpl; [done|].
  destruct (ltb (key y) (key x)); [|done].
  rewrite IH. apply perm_swap.
Qed.

Lemma py_sort_Permutation (xs : list A) : Permutation (py_sort ltb key xs) xs.
Proof.
  induction xs as [|x rest IH]; simpl; [done|].
  rewrite insert_by_Permutation. by constructor.
Qed.

Lemma py_sort_ok (xs : list A) :
  List.Forall (fun y => ok (key y)) xs ->
  List.Forall (fun y => ok (key y)) (py_sort ltb key xs).
Proof.
  rewrite !List.Forall_forall. intros Hall y Hy. apply Hall.
  by apply (Permutation_in _ (py_sort_Permutation xs)).
Qed.

Lemma insert_by_sorted (x : A) (sorted : list A) :
  ok (key x) ->
  List.Forall (fun y => ok (key y)) sorted ->
  StronglySorted (key_le ltb key) sorted ->
  StronglySorted (key_le ltb key) (insert_by ltb key x sorted).
Proof.
  intros Hx Hok.
  induction 1 as [|y rest Hsorted IH Hall]; simpl.
  - repeat constructor.
  - apply Forall_cons in Hok as [Hy Hrest].
    destruct (ltb (key y) (key x)) eqn:E.
    + constructor; [by apply IH|].
      rewrite List.Forall_forall in Hall |- *.
      intros z Hz.
      apply (Permutation_in _ (insert_by_Permutation x rest)) in Hz.
      destruct Hz as [<-|Hz]; [|by apply Hall].
      unfold key_le. by apply ltb_asym.
    + constructor; [by constructor|].
      constructor; [done|].
      rewrite List.Forall_forall in Hall, Hrest |- *. intros z Hz.
      unfold key_le in *. specialize (Hall z Hz).
      apply (ltb_neg_trans _ (key y)); auto.
Qed.

Lemma py_sort_sorted (xs : list A) :
  List.Forall (fun y => ok (key y)) xs ->
  StronglySorted (key_le ltb key) (py_sort ltb key xs).
Proof.
  induction xs as [|x rest IH]; simpl; [constructor|].
  intros Hok. apply Forall_cons in Hok as [Hx Hrest].
  apply insert_by_sorted; [done | by apply py_sort_ok | by apply IH].
Qed.

Lemma insert_by_stable (k : K) (x : A) (sorted : list A) :
  ok k -> ok (key x) ->
  List.Forall (fun y => ok (key y)) sorted ->
  List.filter (key_tied ltb key k) (insert_by ltb key x sorted)
  = List.filter (key_tied ltb key k) (x :: sorted).
Proof.
  intros Hk Hx.
  induction 1 as [|y rest Hy Hrest IH]; simpl; [done|].
  destruct (ltb (key y) (key x)) eqn:E; [|done].
  simpl in *. rewrite IH.
  destruct (key_tied ltb key k x) eqn:Ex; [|done].
  destruct (key_tied ltb key k y) eqn:Ey; [|done].
  unfold key_tied in Ex, Ey.
  apply andb_true_iff in Ex as [_ Hkx], Ey as [Hyk _].
  apply negb_true_iff in Hkx, Hyk.
  rewrite (ltb_neg_trans _ _ _ Hy Hk Hx Hyk Hkx) in E. discriminate.
Qed.

(** Stability: elements with tied keys keep their relative order. *)
Lemma py_sort_stable (k : K) (xs : list A) :
  ok k ->
  List.Forall (fun y => ok (key y)) xs ->
  List.filter (key_tied ltb key k) (py_sort ltb key xs)
  = List.filter (key_tied ltb key k) xs.
Proof.
  intros Hk.
  induction xs as [|x rest IH]; simpl; [done|].
  intros Hok. apply Forall_cons in Hok as [Hx Hrest].
  rewrite insert_by_stable by (done || by apply py_sort_ok).
  simpl. by rewrite IH.
Qed.

(** The sort only looks at keys. *)
Lemma py_sort_Forall2 {B : Type} (key' : B -> K) (R : A -> B -> Prop)
    (xs : list A) (ys : list B) :
  (forall x y, R x y -> key x = key' y) ->
  Forall2 R xs ys ->
  Forall2 R (py_sort ltb key xs) (py_sort ltb key' ys).
Proof.
  intros Hkey.
  assert (Hins : forall x y s1 s2, R x y -> Forall2 R s1 s2 ->
            Forall2 R (insert_by ltb key x s1) (insert_by ltb key' y s2)).
  { intros x y s1 s2 Hxy. induction 1 as [|a b s1 s2 Hab Hrest IH]; simpl.
    - by repeat constructor.
    - rewrite (Hkey _ _ Hxy), (Hkey _ _ Hab).
      destruct (ltb (key' b) (key' y)); by repeat constructor. }
  induction 1; simpl; [constructor|]. by apply Hins.
Qed.

End SortByKey.

(** ** The sort key of [aggregate] *)

Lemma sort_key_ltb_rank (a b : Z * float * Z) :
  key_ok a -> key_ok b ->
  sort_key_ltb a b = true
  <-> a.1.1 < b.1.1
      \/ (a.1.1 = b.1.1
          /\ (rank_lt (float_rank a.1.2) (float_rank b.1.2)
              \/ (rank_eq (float_rank a.1.2) (float_rank b.1.2)
                  /\ a.2 < b.2))).
Proof.
  destruct a as [[p1 c1] w1], b as [[p2 c2] w2]. unfold key_ok.
  cbn [fst snd sort_key_ltb]. intros H1 H2.
  pose proof (float_eq_rank c1 c2 H1 H2) as Heq.
  pose proof (float_lt_rank c1 c2 H1 H2) as Hlt.
  destruct (Z.eqb_spec p1 p2) as [Hp|Hp]; cbn [negb].
  - destruct (float_eq c1 c2); cbn [negb].
    + rewrite Z.ltb_lt.
      assert (Hc : rank_eq (float_rank c1) (float_rank c2)) by by apply Heq.
      unfold rank_lt, rank_eq in *. lia.
    + assert (Hc : ~ rank_eq (float_rank c1) (float_rank c2))
        by (intros H; by apply Heq in H).
      rewrite Hlt. unfold rank_lt, rank_eq in *. lia.
  - rewrite Z.ltb_lt. lia.
Qed.

Lemma sort_key_ltb_asym (a b : Z * float * Z) :
  key_ok a -> key_ok b ->
  sort_key_ltb a b = true -> sort_key_ltb b a = false.
Proof.
  intros Ha Hb. rewrite <- not_true_iff_false.
  rewrite !sort_key_ltb_rank by done.
  unfold rank_lt, rank_eq. lia.
Qed.

Lemma sort_key_ltb_neg_trans (a b c : Z * float * Z) :
  key_ok a -> key_ok b -> key_ok c ->
  sort_key_ltb a b = false -> sort_key_ltb b c = false ->
  sort_key_ltb a c = false.
Proof.
  intros Ha Hb Hc. rewrite <- !not_true_iff_false.
  rewrite !sort_key_ltb_rank by done.
  unfold rank_lt, rank_eq. lia.
Qed.

Lemma listed_priority (c : string) :
  category_priority c = listed priority_table 99 c.
Proof.
  unfold category_priority. cbn [listed priority_table].
  by rewrite !(String.eqb_sym c).
Qed.

Lemma listed_weight (s : string) :
  severity_weights s = listed weight_table 0 s.
Proof.
  unfold severity_weights. cbn [listed weight_table].
  by rewrite !(String.eqb_sym s).
Qed.

Lemma sort_key_ok (x : AggregatedInsight) :
  is_nan (confidence x) = false -> key_ok (sort_key x).
Proof. unfold key_ok, sort_key. cbn [fst snd]. by rewrite float_neg_nan. Qed.

(** The order of the keys is the order the batch is specified to have. *)
Lemma key_le_ranks (x y : AggregatedInsight) :
  is_nan (confidence x) = false -> is_nan (confidence y) = false ->
  key_le sort_key_ltb sort_key x y <-> ranks_no_later x y.
Proof.
  intros Hx Hy. unfold key_le, ranks_no_later, priority_of, weight_of.
  rewrite <- not_true_iff_false.
  rewrite sort_key_ltb_rank by (by apply sort_key_ok).
  rewrite (float_lt_rank _ _ Hy Hx), (float_eq_rank _ _ Hx Hy).
  cbn [sort_key fst snd]. rewrite !float_neg_rank.
  rewrite <- !listed_priority, <- !listed_weight.
  unfold rank_lt, rank_eq. cbn [fst snd]. lia.
Qed.

Lemma key_tied_tied (x y : AggregatedInsight) :
  is_nan (confidence x) = false -> is_nan (confidence y) = false ->
  key_tied sort_key_ltb sort_key (sort_key x) y = tied x y.
Proof.
  intros Hx Hy. unfold key_tied, tied, priority_of, weight_of.
  apply eq_iff_eq_true.
  rewrite !andb_true_iff, !negb_true_iff, <- !not_true_iff_false.
  rewrite !sort_key_ltb_rank by (by apply sort_key_ok).
  rewrite (float_eq_rank _ _ Hx Hy), !Z.eqb_eq.
  cbn [sort_key fst snd]. rewrite !float_neg_rank.
  rewrite <- !listed_priority, <- !listed_weight.
  unfold rank_lt, rank_eq. cbn [fst snd]. lia.
Qed.

(** ** [aggregate] *)

Section Aggregate.

Variable settings : Settings.
Context {order : PySetOrder} {adder : PyFloatSum}.

Lemma aggregate_unfold (self : InsightAggregator) (round : string)
    (now : datetime) :
  snapshot self round <> [] ->
  let groups := score_groups self round
                  (_group_insights (snapshot self round)) now in
  let marked := mark_alerts settings groups.2 (ranked settings groups.1) now in
  aggregate settings self round now
  = ({| batch_round_id := round;
        insights := marked.1;
        recommendations :=
          if generate_recommendations settings
          then _generate_recommendations settings marked.1 else [];
        summary := _create_summary marked.1;
        batch_timestamp := now |},
     marked.2).
Proof.
  unfold snapshot, aggregate. intros Hne.
  destruct (default [] (insight_buffer self !! round)) as [|i raw] eqn:E;
    [done|].
  simpl.
  destruct (score_groups self round (_group_insights (i :: raw)) now)
    as [sc self1].
  simpl. by destruct (mark_alerts settings self1 (ranked settings sc) now).
Qed.

Lemma aggregate_empty_snapshot (self : InsightAggregator) (round : string)
    (now : datetime) :
  snapshot self round = [] ->
  aggregate settings self round now = (empty_batch round now, self).
Proof. unfold snapshot, aggregate. by intros ->. Qed.

Lemma ranked_incl (l : list AggregatedInsight) (a : AggregatedInsight) :
  In a (ranked settings l) -> In a l /\ above_threshold settings a = true.
Proof.
  unfold ranked. intros Hin. apply py_slice_to_incl in Hin.
  apply (Permutation_in _ (py_sort_Permutation _ _ _)) in Hin.
  by apply filter_In in Hin.
Qed.

(** C9. [aggregate] is a total function, and it answers with an empty
    batch in both of these cases.  When the session has no buffered
    record (no entry, or an empty list), the batch has no insight, no
    recommendation and a summary whose total is 0, and the aggregator is
    unchanged.  When records exist and no scored group reaches
    [min_confidence_threshold], the batch has no insight, no
    recommendation and a total of 0.  No division by an empty group
    happens on the way: every group that is scored has a member. *)
Theorem aggregate_nothing_to_report (self : InsightAggregator) (round : string)
    (now : datetime) :
  (snapshot self round = [] ->
     aggregate settings self round now = (empty_batch round now, self)
     /\ insights (aggregate settings self round now).1 = []
     /\ recommendations (aggregate settings self round now).1 = []
     /\ total_insights (summary (aggregate settings self round now).1) = 0%nat)
  /\ (snapshot self round <> [] ->
      Forall (fun a => float_ge (confidence a)
                                (min_confidence_threshold settings) = false)
             (scored self round now) ->
      insights (aggregate settings self round now).1 = []
      /\ recommendations (aggregate settings self round now).1 = []
      /\ total_insights (summary (aggregate settings self round now).1) = 0%nat)
  /\ Forall (fun g => g.2 <> []) (_group_insights (snapshot self round)).
Proof.
  split; [|split].
  - intros Hempty. by rewrite aggregate_empty_snapshot.
  - intros Hne Hlow.
    rewrite aggregate_unfold by done. simpl.
    assert (Hranked : ranked settings (scored self round now) = []).
    { unfold ranked.
      assert (Hnone : List.filter
                (fun i => float_ge (confidence i)
                                   (min_confidence_threshold settings))
                (scored self round now) = []).
      { induction Hlow as [|a l Ha Hl IH]; simpl; [done|]. by rewrite Ha. }
      rewrite Hnone. apply py_slice_to_nil. }
    unfold scored in Hranked. rewrite Hranked. simpl.
    repeat split. destruct (generate_recommendations settings); [|done].
    unfold _generate_recommendations. simpl. apply py_slice_to_nil.
  - apply group_insights_nonempty.
Qed.

(** C2 (as the code has it). Insight ids are ["{round}-{n}"] where [n]
    comes from one counter of the whole aggregator, not one per session:
    an [aggregate] call that starts with counter value [c] numbers the
    groups it scores [c+1], [c+2], ... in group order, whatever the
    session, and leaves the counter at [c] plus the number of groups.
    Every insight of the returned batch carries one of these ids. *)
Theorem insight_ids_follow_counter (self : InsightAggregator)
    (round : string) (now : datetime) :
  let groups := _group_insights (snapshot self round) in
  let self' := (aggregate settings self round now).2 in
  map insight_id (scored self round now)
  = map (fun n => round +:+ "-" +:+ pretty n)
        (seq (S (insight_counter self)) (length groups))
  /\ insight_counter self' = (insight_counter self + length groups)%nat
  /\ forall a, In a (insights (aggregate settings self round now).1) ->
       exists n, insight_id a = round +:+ "-" +:+ pretty n
                 /\ (insight_counter self < n <= insight_counter self')%nat.
Proof.
  intros groups self'.
  destruct (score_groups_spec round now groups
              (group_insights_nonempty (snapshot self round)) self)
    as (Hids & Hcount & _ & _ & _).
  change (score_groups self round groups now).1
    with (scored self round now) in Hids.
  destruct (mark_alerts_spec settings now
              (ranked settings (scored self round now))
              (score_groups self round groups now).2)
    as (Hmarked & _ & Hkeep).
  assert (Hcases : snapshot self round = [] \/ snapshot self round <> [])
    by (destruct (snapshot self round); [by left | by right]).
  assert (Hcounter :
            insight_counter self' = (insight_counter self + length groups)%nat).
  { unfold self'. destruct Hcases as [Hempty|Hne].
    - rewrite aggregate_empty_snapshot by done.
      unfold groups. rewrite Hempty. simpl. lia.
    - rewrite aggregate_unfold by done. simpl.
      etrans; [exact Hkeep | exact Hcount]. }
  split; [done|]. split; [done|].
  intros a Hin. destruct Hcases as [Hempty|Hne].
  - rewrite aggregate_empty_snapshot in Hin by done. destruct Hin.
  - rewrite aggregate_unfold in Hin by done. simpl in Hin.
    destruct (Forall2_In_r _ _ _ _ Hmarked Hin) as (a0 & Ha0 & alert & ->).
    apply ranked_incl in Ha0 as [Ha0 _].
    assert (Hid : In (insight_id a0) (map insight_id (scored self round now)))
      by (by apply in_map).
    rewrite Hids in Hid. apply in_map_iff in Hid as (n & Hn & Hseq).
    apply in_seq in Hseq. exists n. simpl. split; [done|].
    rewrite Hcounter. lia.
Qed.

End Aggregate.

(** ** Repeating [aggregate], and the order of a batch *)

Lemma map_eq_Forall2 {A B} (f : A -> B) (l k : list A) :
  map f l = map f k <-> Forall2 (fun a b => f a = f b) l k.
Proof.
  split.
  - revert k. induction l as [|a l IH]; intros [|b k] H; simpl in H;
      try discriminate; constructor.
    + by injection H.
    + apply IH. by injection H.
  - induction 1 as [|a b l k Hab _ IH]; simpl; [done|]. by rewrite Hab, IH.
Qed.

Lemma filter_Forall2 {A B} (R : A -> B -> Prop) (f : A -> bool)
    (g : B -> bool) (l : list A) (k : list B) :
  (forall x y, R x y -> f x = g y) ->
  Forall2 R l k -> Forall2 R (List.filter f l) (List.filter g k).
Proof.
  intros Hfg. induction 1 as [|a b l k Hab _ IH]; simpl; [constructor|].
  rewrite (Hfg _ _ Hab). destruct (g b); [by constructor | done].
Qed.

Lemma py_slice_to_Forall2 {A B} (R : A -> B -> Prop) (n : Z)
    (l : list A) (k : list B) :
  Forall2 R l k -> Forall2 R (py_slice_to n l) (py_slice_to n k).
Proof.
  intros H. unfold py_slice_to.
  rewrite (Forall2_length _ _ _ H).
  destruct (0 <=? n); by apply Forall2_take.
Qed.

Lemma StronglySorted_weaken {A} (R S : A -> A -> Prop) (l : list A) :
  (forall x y, In x l -> In y l -> R x y -> S x y) ->
  StronglySorted R l -> StronglySorted S l.
Proof.
  intros HRS Hsorted. induction Hsorted as [|a l Hl IH Hall].
  - constructor.
  - constructor.
    + apply IH. intros x y Hx Hy. apply HRS; by right.
    + rewrite List.Forall_forall in Hall |- *. intros z Hz.
      apply HRS; [by left | by right | by apply Hall].
Qed.

Lemma StronglySorted_firstn {A} (R : A -> A -> Prop) (n : nat) (l : list A) :
  StronglySorted R l -> StronglySorted R (firstn n l).
Proof.
  intros Hsorted. revert n.
  induction Hsorted as [|a l Hl IH Hall]; intros [|n]; simpl;
    try constructor; [apply IH|].
  rewrite List.Forall_forall in Hall |- *. intros z Hz. apply Hall.
  rewrite <- (firstn_skipn n l). apply in_or_app. by left.
Qed.

Section Repeat.

Variable settings : Settings.
Context {order : PySetOrder} {adder : PyFloatSum}.

Lemma score_groups_content (round : string)
    (grouped : list (group_key * list RawInsight)) :
  forall (self1 self2 : InsightAggregator) (now1 now2 : datetime),
    map content (score_groups self1 round grouped now1).1
    = map content (score_groups self2 round grouped now2).1.
Proof.
  induction grouped as [|[key members] rest IH]; intros self1 self2 now1 now2;
    simpl; [done|].
  destruct members as [|i members]; simpl.
  - specialize (IH self1 self2 now1 now2).
    destruct (score_groups self1 round rest now1),
             (score_groups self2 round rest now2). done.
  - match goal with
    | |- context [score_groups ?s1 round rest now1] =>
        match goal with
        | |- context [score_groups ?s2 round rest now2] =>
            specialize (IH s1 s2 now1 now2);
            destruct (score_groups s1 round rest now1),
                     (score_groups s2 round rest now2)
        end
    end.
    simpl in *. by rewrite IH.
Qed.

Lemma ranked_content (l k : list AggregatedInsight) :
  map content l = map content k ->
  map content (ranked settings l) = map content (ranked settings k).
Proof.
  rewrite !map_eq_Forall2. intros H. unfold ranked.
  apply py_slice_to_Forall2.
  apply py_sort_Forall2.
  - intros x y Hxy. unfold content in Hxy. unfold sort_key.
    injection Hxy; intros; congruence.
  - apply filter_Forall2; [|done].
    intros x y Hxy. unfold content in Hxy.
    injection Hxy; intros; congruence.
Qed.

Lemma mark_alerts_content (self : InsightAggregator)
    (aggregated : list AggregatedInsight) (now : datetime) :
  map content (mark_alerts settings self aggregated now).1
  = map content aggregated.
Proof.
  destruct (mark_alerts_spec settings now aggregated self) as (H & _ & _).
  symmetry. apply map_eq_Forall2.
  eapply Forall2_impl; [exact H|].
  by intros a b [alert ->].
Qed.

Lemma aggregate_buffer (self : InsightAggregator) (round : string)
    (now : datetime) :
  insight_buffer (aggregate settings self round now).2 = insight_buffer self.
Proof.
  assert (Hcases : snapshot self round = [] \/ snapshot self round <> [])
    by (destruct (snapshot self round); [by left | by right]).
  destruct Hcases as [Hempty|Hne].
  - by rewrite aggregate_empty_snapshot.
  - rewrite aggregate_unfold by done. simpl.
    destruct (mark_alerts_spec settings now
                (ranked settings
                   (score_groups self round
                      (_group_insights (snapshot self round)) now).1)
                (score_groups self round
                   (_group_insights (snapshot self round)) now).2)
      as (_ & -> & _).
    by destruct (score_groups_spec round now
                   (_group_insights (snapshot self round))
                   (group_insights_nonempty (snapshot self round)) self)
      as (_ & _ & -> & _).
Qed.

Lemma aggregate_content (self : InsightAggregator) (round : string)
    (now : datetime) :
  map content (insights (aggregate settings self round now).1)
  = map content (ranked settings (scored self round now)).
Proof.
  assert (Hcases : snapshot self round = [] \/ snapshot self round <> [])
    by (destruct (snapshot self round); [by left | by right]).
  destruct Hcases as [Hempty|Hne].
  - rewrite aggregate_empty_snapshot by done.
    unfold scored. rewrite Hempty. simpl.
    unfold ranked. simpl. by rewrite py_slice_to_nil.
  - rewrite aggregate_unfold by done. simpl. apply mark_alerts_content.
Qed.

Lemma above_threshold_not_nan (a : AggregatedInsight) :
  above_threshold settings a = true -> is_nan (confidence a) = false.
Proof. intros H. by apply float_ge_not_nan in H as [H _]. Qed.

(** The sort of [aggregate] runs on the insights that passed the
    threshold filter, none of which has a NaN confidence: its result is in
    the specified order and keeps the scoring order among ties. *)
Lemma kept_sorted (l : list AggregatedInsight) :
  let kept := List.filter (above_threshold settings) l in
  let sorted := py_sort sort_key_ltb sort_key kept in
  Permutation sorted kept
  /\ StronglySorted ranks_no_later sorted
  /\ (forall x, In x kept ->
        List.filter (tied x) sorted = List.filter (tied x) kept)
  /\ ranked settings l = py_slice_to (max_insights_per_batch settings) sorted.
Proof.
  intros kept sorted.
  assert (Hnan : forall y, In y kept -> is_nan (confidence y) = false).
  { intros y Hy. apply filter_In in Hy as [_ Hy].
    by apply above_threshold_not_nan. }
  assert (Hok : List.Forall (fun y => key_ok (sort_key y)) kept).
  { apply List.Forall_forall. intros y Hy. by apply sort_key_ok, Hnan. }
  assert (Hperm : Permutation sorted kept) by apply py_sort_Permutation.
  split; [exact Hperm|]. split; [|split; [|done]].
  - eapply StronglySorted_weaken;
      [|apply (py_sort_sorted sort_key_ltb sort_key key_ok
                 sort_key_ltb_asym sort_key_ltb_neg_trans kept Hok)].
    intros x y Hx Hy. apply key_le_ranks; apply Hnan.
    + by apply (Permutation_in _ Hperm).
    + by apply (Permutation_in _ Hperm).
  - intros x Hx.
    rewrite <- (filter_ext_in (key_tied sort_key_ltb sort_key (sort_key x))
                  (tied x) sorted).
    + rewrite <- (filter_ext_in (key_tied sort_key_ltb sort_key (sort_key x))
                    (tied x) kept).
      * apply (py_sort_stable sort_key_ltb sort_key key_ok
                 sort_key_ltb_neg_trans); [|done].
        by apply sort_key_ok, Hnan.
      * intros y Hy. apply key_tied_tied; by apply Hnan.
    + intros y Hy. apply key_tied_tied; apply Hnan; [done|].
      by apply (Permutation_in _ Hperm).
Qed.

End Repeat.

(** ** Scoring one group: confidence, evidence, follow-up questions *)



Section Scoring.

Context {order : PySetOrder} {adder : PyFloatSum}.

Lemma list_set_length_le (xs l : list string) :
  NoDup l -> (forall x, x ∈ l -> x ∈ xs) ->
  (length l <= length (list_set xs))%nat.
Proof.
  intros Hl Hincl. apply submseteq_length, NoDup_submseteq; [done|].
  intros x Hx. apply list_set_elem_of. by apply Hincl.
Qed.


Lemma take_list_set_NoDup (n : nat) (xs : list string) :
  NoDup (firstn n (list_set xs)).
Proof.
  eapply sublist_NoDup; [apply list_set_NoDup | apply sublist_take].
Qed.

(** C7. A non-empty group is scored, and in the insight it yields the
    evidence list has at most 5 entries, the list of follow-up questions
    at most 3, neither list repeats a string, and when the group
    contributes 8 pairwise distinct evidence strings the evidence list has
    exactly 5 entries. *)
Theorem evidence_and_followups_capped (self : InsightAggregator)
    (round category insight_type : string) (insights : list RawInsight)
    (now : datetime) :
  insights <> [] ->
  exists a self',
    _aggregate_group self round category insight_type insights now
    = (Some a, self')
    /\ (length (evidence a) <= 5)%nat
    /\ (length (followup_questions a) <= 3)%nat
    /\ NoDup (evidence a)
    /\ NoDup (followup_questions a)
    /\ (forall distinct : list string,
          NoDup distinct -> length distinct = 8%nat ->
          (forall x, x ∈ distinct -> x ∈ collect_evidence insights) ->
          length (evidence a) = 5%nat).
Proof.
  intros Hne.
  destruct (aggregate_group_some self round category insight_type insights
              now Hne) as (a & Hrun & _ & _ & Hev & Hfq & _).
  exists a. eexists. split; [exact Hrun|].
  rewrite Hev, Hfq.
  split; [apply firstn_le_length|].
  split; [apply firstn_le_length|].
  split; [apply take_list_set_NoDup|].
  split; [apply take_list_set_NoDup|].
  intros distinct Hnodup Hlen Hincl.
  pose proof (list_set_length_le (collect_evidence insights) distinct
                Hnodup Hincl).
  rewrite length_firstn. lia.
Qed.


End Scoring.

(** ** The three-record scenario *)

Section Scenario.

Context {order : PySetOrder} {adder : PyFloatSum}.

Lemma list_set_nil : list_set [] = [].
Proof.
  destruct (list_set []) as [|x l] eqn:E; [done|].
  assert (Hx : x ∈ list_set []) by (rewrite E; by left).
  apply (proj1 (list_set_elem_of _ _)) in Hx. by apply elem_of_nil in Hx.
Qed.

Lemma list_set_singleton (x : string) : list_set [x] = [x].
Proof.
  pose proof (list_set_NoDup [x]) as Hnodup.
  assert (Hall : forall y, y ∈ list_set [x] -> y = x).
  { intros y Hy. apply (proj1 (list_set_elem_of _ _)) in Hy.
    by apply list_elem_of_singleton in Hy. }
  assert (Hx : x ∈ list_set [x])
    by (apply list_set_elem_of; by left).
  destruct (list_set [x]) as [|y [|z l]].
  - by apply elem_of_nil in Hx.
  - by rewrite (Hall y) by (by left).
  - apply NoDup_cons in Hnodup as [Hy _]. exfalso. apply Hy.
    rewrite (Hall y) by (by left).
    rewrite (Hall z) by (right; by left). by left.
Qed.

Lemma list_set_small (xs : list string) :
  (length xs <= 1)%nat -> list_set xs = xs.
Proof.
  destruct xs as [|x [|y xs]]; simpl; intros Hlen;
    [apply list_set_nil | apply list_set_singleton | lia].
Qed.

End Scenario.

Section OrderFree.

Variable settings : Settings.
Variables order1 order2 : PySetOrder.
Variables adder1 adder2 : PyFloatSum.

Lemma aggregate_group_order_free (self : InsightAggregator)
    (round category insight_type : string) (members : list RawInsight)
    (now : datetime) :
  order_free members = true ->
  _aggregate_group (order := order1) (adder := adder1) self round category
                   insight_type members now
  = _aggregate_group (order := order2) (adder := adder2) self round category
                     insight_type members now.
Proof.
  unfold order_free. rewrite !andb_true_iff, !Nat.leb_le.
  intros [[Hm He] Hf].
  assert (Hs : (length (map insight_source members) <= 1)%nat)
    by (by rewrite length_map).
  destruct members as [|i [|j members]]; [done | | simpl in Hm; lia].
  unfold _aggregate_group, group_confidence. cbn [map].
  rewrite !(float_sum_one (PyFloatSum := adder1)),
          !(float_sum_one (PyFloatSum := adder2)).
  by rewrite !(list_set_small (order := order1)),
             !(list_set_small (order := order2)).
Qed.

Lemma score_groups_order_free (round : string) (now : datetime)
    (grouped : list (group_key * list RawInsight)) :
  forallb (fun g => order_free g.2) grouped = true ->
  forall self,
    score_groups (order := order1) (adder := adder1) self round grouped now
    = score_groups (order := order2) (adder := adder2) self round grouped
                   now.
Proof.
  induction grouped as [|[key members] rest IH]; intros Hall self; [done|].
  simpl in Hall. apply andb_true_iff in Hall as [Hg Hrest].
  simpl. rewrite (aggregate_group_order_free _ _ _ _ _ _ Hg).
  destruct (_aggregate_group (order := order2) (adder := adder2) self round
              key.1 key.2 members now) as [agg self1].
  by rewrite (IH Hrest self1).
Qed.

Lemma aggregate_order_free (self : InsightAggregator) (round : string)
    (now : datetime) :
  forallb (fun g => order_free g.2)
          (_group_insights (default [] (insight_buffer self !! round)))
  = true ->
  aggregate (order := order1) (adder := adder1) settings self round now
  = aggregate (order := order2) (adder := adder2) settings self round now.
Proof.
  intros Hfree. unfold aggregate.
  destruct (default [] (insight_buffer self !! round)) as [|i raw]; [done|].
  by rewrite (score_groups_order_free round now _ Hfree self).
Qed.

End OrderFree.

(** C1 (as the code has it). With the default configuration, after the
    three records of the scenario, [aggregate("r1")] returns two insights,
    because the record from [fraud-detection] and the one from
    [video-analysis] fall in different groups: first the fraud insight,
    with confidence 0.9 and the alert flag set, then a video insight with
    confidence 0.95 and no alert flag; the speech insight is filtered out;
    and there is exactly one recommendation, of type "action", for the
    fraud insight. *)
Theorem scenario_r1_batch {order : PySetOrder} {adder : PyFloatSum} :
  exists a b r,
    insights (scenario_batch "multiple_faces" "low_confidence") = [a; b]
    /\ category a = "fraud" /\ insight_type a = "multiple_faces"
    /\ confidence a = float_lit 9 10 /\ is_alert a = true
    /\ category b = "video" /\ insight_type b = "multiple_faces"
    /\ confidence b = float_lit 95 100 /\ is_alert b = false
    /\ recommendations (scenario_batch "multiple_faces" "low_confidence") = [r]
    /\ rec_type r = "action"
    /\ related_insight_id r = insight_id a.
Proof.
  unfold scenario_batch.
  rewrite (aggregate_order_free default_settings order remove_dups_order
             adder left_to_right_sum)
    by (vm_compute; reflexivity).
  do 3 eexists. split; [vm_compute; reflexivity|].
  split; [reflexivity|]. split; [reflexivity|].
  split; [vm_compute; reflexivity|]. split; [reflexivity|].
  split; [reflexivity|]. split; [reflexivity|].
  split; [vm_compute; reflexivity|]. split; [reflexivity|].
  split; [vm_compute; reflexivity|]. split; reflexivity.
Qed.

(** The scenario does not give the single boosted fraud insight: under
    either reading of the record type there are two insights. *)
Lemma scenario_r1_counterexample :
  ~ (exists a,
       insights (scenario_batch (order := remove_dups_order)
                   "multiple_faces" "low_confidence") = [a]
       /\ category a = "fraud" /\ confidence a = float_lit 1 1
       /\ is_alert a = true)
  /\ length (insights (scenario_batch (order := remove_dups_order)
                         "multiple_faces" "low_confidence")) = 2%nat
  /\ length (insights (scenario_batch (order := remove_dups_order)
                         "fraud/multiple_faces" "speech/low_confidence"))
     = 2%nat.
Proof.
  split; [|split; vm_compute; reflexivity].
  intros (a & Hone & _). vm_compute in Hone. discriminate.
Qed.

(** The first insight of session ["b"] is numbered 2 when session ["a"]
    was aggregated before, and 1 when it was not. *)
Lemma insight_ids_counterexample :
  let first := aggregate default_settings two_rounds "a" (seconds 2) in
  let second := aggregate default_settings first.2 "b" (seconds 2) in
  let alone := aggregate default_settings two_rounds "b" (seconds 2) in
  map insight_id (insights first.1) = ["a-1"]
  /\ map insight_id (insights second.1) = ["b-2"]
  /\ map insight_id (insights alone.1) = ["b-1"].
Proof. vm_compute. by repeat split. Qed.


(** Two calls one second apart: the second batch has another id and no
    alert. *)
Lemma aggregate_twice_counterexample :
  let first := aggregate default_settings one_fraud "r1" (seconds 1) in
  let second := aggregate default_settings first.2 "r1" (seconds 2) in
  map insight_id (insights first.1) = ["r1-1"]
  /\ map is_alert (insights first.1) = [true]
  /\ map insight_id (insights second.1) = ["r1-2"]
  /\ map is_alert (insights second.1) = [false]
  /\ map (fun a => set_is_alert a false) (insights first.1)
     <> map (fun a => set_is_alert a false) (insights second.1).
Proof.
  vm_compute. repeat split. discriminate.
Qed.


Lemma evidence_and_followups_capped_witness :
  exists a,
    (_aggregate_group init "r1" "fraud" "multiple_faces" eight_evidence 0).1
    = Some a
    /\ length (evidence a) = 5%nat /\ NoDup (evidence a).
Proof.
  assert (Hne : eight_evidence <> []) by discriminate.
  destruct (evidence_and_followups_capped init "r1" "fraud" "multiple_faces"
              eight_evidence 0 Hne)
    as (a & self' & Hrun & _ & _ & Hnodup & _ & Hfive).
  exists a. split; [by rewrite Hrun|]. split; [|exact Hnodup].
  apply (Hfive eight_strings).
  - unfold eight_strings. compute_done.
  - reflexivity.
  - intros x Hx. apply list_elem_of_In.
    apply list_elem_of_In in Hx. vm_compute in Hx |- *. tauto.
Defined.

Lemma aggregate_nothing_to_report_witness :
  aggregate default_settings init "r1" 0 = (empty_batch "r1" 0, init)
  /\ insights (aggregate default_settings one_weak "r1" (seconds 1)).1 = [].
Proof.
  split.
  - destruct (aggregate_nothing_to_report default_settings init "r1" 0) as (Hnone & _).
    apply Hnone. reflexivity.
  - destruct (aggregate_nothing_to_report default_settings one_weak "r1" (seconds 1))
      as (_ & Hlow & _).
    apply Hlow.
    + vm_compute. discriminate.
    + vm_compute. repeat constructor.
Defined.

Lemma insight_ids_follow_counter_witness :
  map insight_id (scored (order := remove_dups_order) two_rounds "b" (seconds 2))
  = ["b-1"]
  /\ insight_counter (aggregate default_settings two_rounds "b" (seconds 2)).2
     = 1%nat
  /\ exists n,
       "b-1" = "b" +:+ "-" +:+ pretty n /\ (0 < n <= 1)%nat.
Proof.
  destruct (insight_ids_follow_counter default_settings two_rounds "b"
              (seconds 2)) as (Hids & Hcount & Hbatch).
  split; [exact Hids|]. split; [exact Hcount|].
  destruct (Hbatch
              (set_is_alert
                 {| insight_id := "b-1";
                    round_id := "b";
                    category := "fraud";
                    insight_type := "face_switch";
                    confidence := float_lit 9 10;
                    severity := "low";
                    title := "Face Switch Detected";
                    description :=
                      "The face in the video appears to have changed from the original candidate. Identity verification recommended.";
                    evidence := [];
                    source_services := ["fraud-detection"];
                    followup_questions := [];
                    timestamp := seconds 2;
                    is_alert := false |} true))
    as (n & Hn & Hrange).
  - left. vm_compute. reflexivity.
  - exists n. split; [exact Hn|]. exact Hrange.
Defined.

(** * Further properties of the aggregator *)

(** ** Grouping is a partition *)

Lemma group_key_eqb_eq (k1 k2 : group_key) :
  group_key_eqb k1 k2 = true <-> k1 = k2.
Proof.
  destruct k1 as [a b], k2 as [c d]. unfold group_key_eqb. simpl.
  rewrite andb_true_iff, !String.eqb_eq. split.
  - by intros [-> ->].
  - intros H. by injection H.
Qed.

Lemma group_key_eqb_refl (k : group_key) : group_key_eqb k k = true.
Proof. by apply group_key_eqb_eq. Qed.

Lemma group_key_eqb_neq (k1 k2 : group_key) :
  k1 <> k2 -> group_key_eqb k1 k2 = false.
Proof.
  intros Hne. apply not_true_iff_false. by rewrite group_key_eqb_eq.
Qed.

Lemma assoc_get_group_append (k key : group_key) (insight : RawInsight)
    (grouped : list (group_key * list RawInsight)) :
  assoc_get k (group_append key insight grouped)
  = if group_key_eqb key k
    then Some (default [] (assoc_get k grouped) ++ [insight])
    else assoc_get k grouped.
Proof.
  induction grouped as [|[k' members] rest IH]; cbn -[group_key_eqb].
  - destruct (group_key_eqb key k); done.
  - destruct (group_key_eqb k' key) eqn:E1; cbn -[group_key_eqb].
    + apply group_key_eqb_eq in E1 as ->.
      destruct (group_key_eqb key k); done.
    + destruct (group_key_eqb k' k) eqn:E2; cbn -[group_key_eqb]; [|exact IH].
      apply group_key_eqb_eq in E2 as ->.
      rewrite (group_key_eqb_neq key k); [done|].
      intros ->. by rewrite group_key_eqb_refl in E1.
Qed.

Lemma group_append_keys (key : group_key) (insight : RawInsight)
    (grouped : list (group_key * list RawInsight)) :
  map fst (group_append key insight grouped)
  = if existsb (group_key_eqb key) (map fst grouped)
    then map fst grouped
    else map fst grouped ++ [key].
Proof.
  induction grouped as [|[k' members] rest IH]; cbn -[group_key_eqb]; [done|].
  destruct (group_key_eqb k' key) eqn:E1; cbn -[group_key_eqb].
  - apply group_key_eqb_eq in E1 as ->. by rewrite group_key_eqb_refl.
  - assert (E2 : group_key_eqb key k' = false).
    { apply group_key_eqb_neq. intros ->. by rewrite group_key_eqb_refl in E1. }
    rewrite E2, IH. cbn -[group_key_eqb]. by destruct (existsb _ _).
Qed.

Lemma assoc_get_In {V} (k : group_key) (v : V)
    (table : list (group_key * V)) :
  NoDup (map fst table) -> (In (k, v) table <-> assoc_get k table = Some v).
Proof.
  induction table as [|[k' v'] rest IH]; cbn -[group_key_eqb]; intros Hnodup; [done|].
  apply NoDup_cons in Hnodup as [Hk' Hrest].
  destruct (group_key_eqb k' k) eqn:E.
  - apply group_key_eqb_eq in E as ->. split.
    + intros [H|H]; [by injection H as -> | ].
      exfalso. apply Hk'. apply list_elem_of_In.
      change k with (fst (k, v)). by apply in_map.
    + intros H. injection H as ->. by left.
  - rewrite <- (IH Hrest). split; [|tauto].
    intros [H|H]; [|done]. injection H as -> ->.
    by rewrite group_key_eqb_refl in E.
Qed.

Lemma group_insights_fold (insights : list RawInsight) :
  forall acc : list (group_key * list RawInsight),
    NoDup (map fst acc) ->
    let grouped :=
      fold_left (fun grouped insight =>
                   group_append (insight_key insight) insight grouped)
                insights acc in
    NoDup (map fst grouped)
    /\ forall k,
         assoc_get k grouped
         = match List.filter (fun i => group_key_eqb (insight_key i) k)
                             insights with
           | [] => assoc_get k acc
           | members => Some (default [] (assoc_get k acc) ++ members)
           end.
Proof.
  induction insights as [|i insights IH]; intros acc Hacc; simpl; [done|].
  assert (Hacc' : NoDup (map fst (group_append (insight_key i) i acc))).
  { rewrite group_append_keys.
    destruct (existsb _ _) eqn:E; [done|].
    apply NoDup_app. split; [done|]. split; [|apply NoDup_singleton].
    intros k Hk Hk'. apply list_elem_of_singleton in Hk' as ->.
    apply not_true_iff_false in E. apply E, existsb_exists.
    exists (insight_key i). split; [by apply list_elem_of_In|].
    apply group_key_eqb_refl. }
  destruct (IH _ Hacc') as [Hnodup Hget].
  split; [exact Hnodup|].
  intros k. rewrite Hget, assoc_get_group_append.
  destruct (group_key_eqb (insight_key i) k); simpl; [|done].
  destruct (List.filter _ insights); simpl; [done|].
  by rewrite <- app_assoc.
Qed.

Lemma group_insights_lookup (insights : list RawInsight) :
  NoDup (map fst (_group_insights insights))
  /\ forall k,
       assoc_get k (_group_insights insights)
       = match List.filter (fun i => group_key_eqb (insight_key i) k)
                           insights with
         | [] => None
         | members => Some members
         end.
Proof.
  destruct (group_insights_fold insights [] (NoDup_nil_2 (A:=group_key)))
    as [Hnodup Hget].
  split; [exact Hnodup|]. intros k. unfold _group_insights. rewrite Hget.
  by destruct (List.filter _ insights).
Qed.

Lemma group_insights_members (insights : list RawInsight) (k : group_key)
    (members : list RawInsight) :
  In (k, members) (_group_insights insights) ->
  members <> []
  /\ members = List.filter (fun i => group_key_eqb (insight_key i) k) insights.
Proof.
  destruct (group_insights_lookup insights) as [Hnodup Hget].
  intros Hin. apply (assoc_get_In _ _ _ Hnodup) in Hin. rewrite Hget in Hin.
  destruct (List.filter _ insights) as [|i l]; [done|].
  by injection Hin as <-.
Qed.

(** X1. [_group_insights] partitions the records by (category, type): no
    key occurs twice, no group is empty, the group of a key holds exactly
    the records with that key in their arrival order, and every record is
    in the group of its key. *)
Theorem group_insights_partition (insights : list RawInsight) :
  NoDup (map fst (_group_insights insights))
  /\ (forall k members,
        In (k, members) (_group_insights insights) ->
        members <> []
        /\ members
           = List.filter (fun i => group_key_eqb (insight_key i) k) insights)
  /\ (forall i,
        In i insights ->
        exists members,
          In (insight_key i, members) (_group_insights insights)
          /\ In i members).
Proof.
  destruct (group_insights_lookup insights) as [Hnodup Hget].
  split; [exact Hnodup|]. split.
  - intros k members. apply group_insights_members.
  - intros i Hi.
    set (mine := List.filter
                   (fun j => group_key_eqb (insight_key j) (insight_key i))
                   insights).
    assert (Hmine : In i mine).
    { apply filter_In. split; [done | apply group_key_eqb_refl]. }
    exists mine. split; [|done].
    apply (assoc_get_In _ _ _ Hnodup). rewrite Hget. fold mine.
    by destruct mine.
Qed.

(** ** Severity of a group *)

Lemma Qle_bool_div (num den : positive) (t n : Z) :
  0 < n ->
  Qle_bool (Z.pos num # den) (inject_Z t / inject_Z n)
  = (Z.pos num * n <=? Z.pos den * t).
Proof.
  intros Hn. destruct n as [|p|p]; try lia.
  apply eq_iff_eq_true. rewrite Qle_bool_iff, Z.leb_le.
  unfold Qle, Qdiv, Qmult, Qinv, inject_Z. simpl.
  rewrite ?Pos.mul_1_l. lia.
Qed.

Lemma severity_scores_sum (severities : list string) (acc : Z) :
  fold_left Z.add (map severity_scores severities) acc
  = acc + 2 * Z.of_nat (occurrences "high" severities)
    + Z.of_nat (occurrences "medium" severities)
    + Z.of_nat (length severities).
Proof.
  revert acc. induction severities as [|s l IH]; intros acc.
  - unfold occurrences. simpl. lia.
  - cbn [map fold_left]. rewrite IH. unfold occurrences, severity_scores.
    cbn [List.filter length].
    destruct (String.eqb_spec "high" s) as [<-|Hh].
    + simpl. lia.
    + destruct (String.eqb_spec s "high") as [->|_]; [done|].
      destruct (String.eqb_spec "medium" s) as [<-|Hm].
      * simpl. lia.
      * destruct (String.eqb_spec s "medium") as [->|_]; [done|].
        simpl. lia.
Qed.

Lemma aggregate_severity_nonempty (severities : list string) :
  severities <> [] ->
  _aggregate_severity severities
  = let total := fold_left Z.add (map severity_scores severities) 0 in
    let avg_score :=
      (inject_Z total / inject_Z (Z.of_nat (length severities)))%Q in
    if Qle_bool (5 # 2) avg_score then "high"
    else if Qle_bool (3 # 2) avg_score then "medium"
    else "low".
Proof. by destruct severities. Qed.

(** X2. [_aggregate_severity] in terms of counts.  With [h] readings
    "high", [m] readings "medium" and [o] other readings (anything else
    counts as low), a non-empty list is "high" exactly when
    [m + 3 * o <= h], otherwise "medium" exactly when [o <= 3 * h + m],
    otherwise "low"; the empty list is "low". *)
Theorem aggregate_severity_by_counts (severities : list string) :
  let h := occurrences "high" severities in
  let m := occurrences "medium" severities in
  let o := (length severities - h - m)%nat in
  (h + m <= length severities)%nat
  /\ _aggregate_severity severities
     = if (length severities =? 0)%nat then "low"
       else if (m + 3 * o <=? h)%nat then "high"
       else if (o <=? 3 * h + m)%nat then "medium"
       else "low".
Proof.
  intros h m o.
  assert (Hle : (h + m <= length severities)%nat).
  { subst h m. unfold occurrences. clear o.
    induction severities as [|s l IH]; cbn [List.filter length]; [lia|].
    destruct (String.eqb_spec "high" s) as [<-|_].
    - change (String.eqb "medium" "high") with false.
      cbn [length]. lia.
    - destruct (String.eqb "medium" s); cbn [length]; lia. }
  split; [exact Hle|].
  destruct (Nat.eqb_spec (length severities) 0) as [Hz|Hnz].
  { apply length_zero_iff_nil in Hz. by subst severities. }
  assert (Hpos : 0 < Z.of_nat (length severities)) by lia.
  rewrite aggregate_severity_nonempty by (by intros ->). cbv zeta.
  rewrite !Qle_bool_div by done.
  rewrite (severity_scores_sum severities 0).
  fold h. fold m.
  destruct (Z.leb_spec (5 * Z.of_nat (length severities))
              (2 * (0 + 2 * Z.of_nat h + Z.of_nat m
                    + Z.of_nat (length severities)))) as [H1|H1].
  - destruct (Nat.leb_spec (m + 3 * o) h) as [H2|H2]; [done|]. lia.
  - destruct (Nat.leb_spec (m + 3 * o) h) as [H2|H2]; [lia|].
    destruct (Z.leb_spec (3 * Z.of_nat (length severities))
                (2 * (0 + 2 * Z.of_nat h + Z.of_nat m
                      + Z.of_nat (length severities)))) as [H3|H3].
    + destruct (Nat.leb_spec o (3 * h + m)) as [H4|H4]; [done|]. lia.
    + destruct (Nat.leb_spec o (3 * h + m)) as [H4|H4]; [lia|done].
Qed.

(** ** The summary *)

Lemma count_get_incr (k k' : string) (counts : list (string * nat)) :
  count_get k (count_incr k' counts)
  = if String.eqb k' k then S (count_get k counts) else count_get k counts.
Proof.
  induction counts as [|[k0 n] rest IH]; cbn [count_incr count_get].
  - by destruct (String.eqb k' k).
  - destruct (String.eqb_spec k0 k') as [->|Hne]; cbn [count_get].
    + by destruct (String.eqb k' k).
    + destruct (String.eqb_spec k0 k) as [->|_]; [|exact IH].
      by destruct (String.eqb_spec k' k) as [->|_].
Qed.

Lemma count_incr_keys (k : string) (counts : list (string * nat)) :
  NoDup (map fst counts) -> NoDup (map fst (count_incr k counts)).
Proof.
  induction counts as [|[k0 n] rest IH]; cbn [count_incr map fst]; intros H.
  - apply NoDup_singleton.
  - destruct (String.eqb_spec k0 k) as [->|Hne]; [done|].
    cbn [map fst]. apply NoDup_cons in H as [Hk0 Hrest].
    apply NoDup_cons. split; [|by apply IH].
    intros Hin. apply Hk0. clear -Hin Hne.
    induction rest as [|[k1 m] rest IH]; cbn [count_incr map fst] in *.
    + apply list_elem_of_singleton in Hin. congruence.
    + destruct (String.eqb k1 k); cbn [map fst] in Hin; [done|].
      apply elem_of_cons in Hin as [->|Hin]; [by left|].
      right. by apply IH.
Qed.

Lemma count_incr_sum (k : string) (counts : list (string * nat)) :
  list_sum (map snd (count_incr k counts)) = S (list_sum (map snd counts)).
Proof.
  unfold list_sum.
  induction counts as [|[k0 n] rest IH]; cbn [count_incr map snd fold_right];
    [done|].
  destruct (String.eqb k0 k); cbn [map snd fold_right]; [lia|].
  rewrite IH. lia.
Qed.

Lemma count_incr_positive (k : string) (counts : list (string * nat)) :
  Forall (fun kn => (0 < kn.2)%nat) counts ->
  Forall (fun kn => (0 < kn.2)%nat) (count_incr k counts).
Proof.
  induction 1 as [|[k0 n] rest Hn Hrest IH]; cbn [count_incr].
  - repeat constructor.
  - destruct (String.eqb k0 k); constructor; simpl in *; [lia|done..].
Qed.

(** Counting a list of labels into a [defaultdict(int)]. *)
Lemma count_fold {A} (label : A -> string) (xs : list A) :
  forall acc : list (string * nat),
    NoDup (map fst acc) ->
    Forall (fun kn => (0 < kn.2)%nat) acc ->
    let counts :=
      fold_left (fun counts x => count_incr (label x) counts) xs acc in
    NoDup (map fst counts)
    /\ Forall (fun kn => (0 < kn.2)%nat) counts
    /\ (forall k, count_get k counts
                  = (count_get k acc + occurrences k (map label xs))%nat)
    /\ list_sum (map snd counts)
       = (list_sum (map snd acc) + length xs)%nat.
Proof.
  induction xs as [|x xs IH]; intros acc Hnodup Hpos; cbn [fold_left].
  - split; [done|]. split; [done|]. split.
    + intros k. unfold occurrences. simpl. lia.
    + simpl. lia.
  - destruct (IH (count_incr (label x) acc)
                (count_incr_keys _ _ Hnodup)
                (count_incr_positive _ _ Hpos))
      as (H1 & H2 & H3 & H4).
    split; [done|]. split; [done|]. split.
    + intros k. rewrite H3, count_get_incr. unfold occurrences.
      cbn [map List.filter].
      rewrite (String.eqb_sym k (label x)).
      destruct (String.eqb (label x) k); cbn [length]; lia.
    + rewrite H4, count_incr_sum. cbn [length]. lia.
Qed.

(** X3. The counters of the summary of a list of insights: the total is
    their number, the alert count is the number of flagged insights and
    so at most the total, and the category and severity counters list
    each label once with the number of insights that carry it (never 0)
    and add up to the total. *)
Theorem create_summary_counts (aggregated : list AggregatedInsight) :
  total_insights (_create_summary aggregated) = length aggregated
  /\ (exists alerts,
        alerts_count (_create_summary aggregated) = Some alerts
        /\ (alerts <= length aggregated)%nat
        /\ alerts = length (List.filter is_alert aggregated))
  /\ (exists counts,
        by_category (_create_summary aggregated) = Some counts
        /\ NoDup (map fst counts)
        /\ Forall (fun kn => (0 < kn.2)%nat) counts
        /\ (forall c, count_get c counts
                      = occurrences c (map category aggregated))
        /\ list_sum (map snd counts) = length aggregated)
  /\ (exists counts,
        by_severity (_create_summary aggregated) = Some counts
        /\ NoDup (map fst counts)
        /\ Forall (fun kn => (0 < kn.2)%nat) counts
        /\ (forall s, count_get s counts
                      = occurrences s (map severity aggregated))
        /\ list_sum (map snd counts) = length aggregated).
Proof.
  split; [done|]. split.
  { eexists. split; [reflexivity|]. split; [|done].
    induction aggregated as [|a l IH]; simpl; [lia|].
    destruct (is_alert a); simpl; lia. }
  split.
  { destruct (count_fold category aggregated [] (NoDup_nil_2 (A:=string))
                (List.Forall_nil _)) as (H1 & H2 & H3 & H4).
    eexists. split; [reflexivity|]. repeat split; done. }
  destruct (count_fold severity aggregated [] (NoDup_nil_2 (A:=string))
              (List.Forall_nil _)) as (H1 & H2 & H3 & H4).
  eexists. split; [reflexivity|]. repeat split; done.
Qed.

(** ** Recommendations *)

Lemma py_slice_to_shorter {A} (n : Z) (xs : list A) :
  (length (py_slice_to n xs) <= length xs)%nat.
Proof.
  unfold py_slice_to. destruct (0 <=? n); rewrite length_firstn; lia.
Qed.

Lemma recommendation_for_cases (a : AggregatedInsight) (r : Recommendation) :
  In r (recommendation_for a) ->
  is_alert a = true
  /\ recommendation_for a = [r]
  /\ related_insight_id r = insight_id a
  /\ ((category a = "fraud" /\ rec_type r = "action"
       /\ rec_priority r = "high")
      \/ (category a = "contradiction" /\ rec_type r = "clarification"
          /\ rec_priority r = "medium"
          /\ rec_description r = description a
          /\ (followup_questions a = [] ->
              suggested_questions r
              = Some [ "Can you elaborate on that?";
                       "Can you walk me through a specific example?" ])
          /\ (followup_questions a <> [] ->
              suggested_questions r = Some (followup_questions a)))
      \/ (category a = "speech" /\ insight_type a = "high_hesitation"
          /\ rec_type r = "observation" /\ rec_priority r = "low")).
Proof.
  unfold recommendation_for.
  destruct (is_alert a); simpl; [|done].
  destruct (String.eqb_spec (category a) "fraud") as [Hf|Hf].
  { intros [<-|[]]. split; [done|]. split; [done|]. split; [done|].
    left. done. }
  destruct (String.eqb_spec (category a) "contradiction") as [Hc|Hc].
  { intros [<-|[]]. split; [done|]. split; [done|]. split; [done|].
    right. left. simpl. split; [done|]. split; [done|]. split; [done|].
    split; [done|].
    by destruct (followup_questions a) as [|q qs]. }
  destruct (String.eqb_spec (category a) "speech") as [Hs|Hs]; simpl;
    [|done].
  destruct (String.eqb_spec (insight_type a) "high_hesitation") as [Ht|Ht];
    simpl; [|done].
  intros [<-|[]]. split; [done|]. split; [done|]. split; [done|].
  right. right. done.
Qed.

Section Recommendations.

Variable settings : Settings.

(** X4. Every recommendation comes from an insight of the list that is an
    alert and names it in [related_insight_id]; its type and priority are
    fixed by that insight's category (fraud: action/high; contradiction:
    clarification/medium, with the insight's follow-up questions or, when
    it has none, the two stock questions "Can you elaborate on that?" and
    "Can you walk me through a specific example?"; speech with type
    high_hesitation:
    observation/low).  There are no more recommendations than alerts, and
    no more than [max_recommendations_per_round] when that is not
    negative. *)
Theorem recommendations_come_from_alerts
    (aggregated : list AggregatedInsight) :
  let recs := _generate_recommendations settings aggregated in
  (forall r, In r recs ->
     exists a, In a aggregated
       /\ is_alert a = true
       /\ related_insight_id r = insight_id a
       /\ ((category a = "fraud" /\ rec_type r = "action"
            /\ rec_priority r = "high")
           \/ (category a = "contradiction" /\ rec_type r = "clarification"
               /\ rec_priority r = "medium"
               /\ rec_description r = description a
               /\ (followup_questions a = [] ->
                   suggested_questions r
                   = Some [ "Can you elaborate on that?";
                            "Can you walk me through a specific example?" ])
               /\ (followup_questions a <> [] ->
                   suggested_questions r = Some (followup_questions a)))
           \/ (category a = "speech" /\ insight_type a = "high_hesitation"
               /\ rec_type r = "observation" /\ rec_priority r = "low")))
  /\ (length recs <= length (List.filter is_alert aggregated))%nat
  /\ (0 <= max_recommendations_per_round settings ->
      Z.of_nat (length recs) <= max_recommendations_per_round settings).
Proof.
  intros recs. split; [|split].
  - intros r Hr. unfold recs, _generate_recommendations in Hr.
    apply py_slice_to_incl, in_flat_map in Hr as (a & Ha & Hr).
    exists a. split; [done|].
    destruct (recommendation_for_cases a r Hr) as (H1 & _ & H2 & H3). done.
  - unfold recs, _generate_recommendations.
    etrans; [apply py_slice_to_shorter|]. clear recs.
    induction aggregated as [|a l IH]; simpl; [lia|].
    rewrite length_app. unfold recommendation_for at 1.
    destruct (is_alert a); simpl; [|lia].
    destruct (String.eqb (category a) "fraud"); simpl; [lia|].
    destruct (String.eqb (category a) "contradiction"); simpl; [lia|].
    destruct (String.eqb (category a) "speech"
              && String.eqb (insight_type a) "high_hesitation");
      simpl; lia.
  - intros Hmax. by apply py_slice_to_length.
Qed.

End Recommendations.

(** ** The overall assessment *)

Lemma fraud_and_contradiction_alerts (insights : list AggregatedInsight) :
  (length (fraud_alerts insights) + length (contradictions insights)
   <= length insights)%nat.
Proof.
  unfold fraud_alerts, contradictions.
  induction insights as [|a l IH]; cbn [List.filter length]; [lia|].
  destruct (String.eqb_spec (category a) "fraud") as [->|_]; simpl.
  - destruct (is_alert a); simpl; lia.
  - destruct (String.eqb (category a) "contradiction" && is_alert a);
      simpl; lia.
Qed.

Lemma assessment_risk (round : string) (insights : list AggregatedInsight)
    (duration_minutes : Z) (now : datetime) :
  risk_level (generate_overall_assessment round insights duration_minutes now)
  = if (2 <=? length (fraud_alerts insights))%nat then "high"
    else if (length (fraud_alerts insights) =? 1)%nat
            || (2 <=? length (contradictions insights))%nat
         then "medium" else "low".
Proof.
  unfold generate_overall_assessment. cbn [risk_level].
  destruct (2 <=? length (fraud_alerts insights))%nat; [done|].
  by destruct ((length (fraud_alerts insights) =? 1)%nat
               || (2 <=? length (contradictions insights))%nat).
Qed.

Lemma assessment_steps (round : string) (insights : list AggregatedInsight)
    (duration_minutes : Z) (now : datetime) :
  next_steps (generate_overall_assessment round insights duration_minutes now)
  = if (length (fraud_alerts insights) =? 0)%nat then
      if (length (contradictions insights) =? 0)%nat
      then ["Continue with planned interview questions"]
      else ["Clarify discrepancies in experience claims"]
    else
      if (length (contradictions insights) =? 0)%nat
      then ["Verify candidate identity before proceeding"]
      else ["Verify candidate identity before proceeding";
            "Clarify discrepancies in experience claims"].
Proof.
  unfold generate_overall_assessment. cbn [next_steps].
  by destruct (fraud_alerts insights), (contradictions insights).
Qed.

(** X5. [generate_overall_assessment] with [f] fraud alerts and [c]
    contradiction alerts among the insights: [f + c] is at most the number
    of insights; the risk is "high" exactly when [f >= 2], "medium" exactly
    when [f = 1], or [f = 0] and [c >= 2], and "low" exactly when [f = 0]
    and [c <= 1]; the next steps are never empty, ask to verify the
    identity exactly when [f > 0], to clarify discrepancies exactly when
    [c > 0], and to continue as planned exactly when [f = 0] and [c = 0];
    and more insights never lower the risk. *)
Theorem overall_assessment_levels (round : string)
    (insights more : list AggregatedInsight) (duration_minutes : Z)
    (now : datetime) :
  let a := generate_overall_assessment round insights duration_minutes now in
  let a' := generate_overall_assessment round (insights ++ more)
              duration_minutes now in
  let f := fraud_indicators a in
  let c := contradictions_found a in
  f = length (fraud_alerts insights)
  /\ c = length (contradictions insights)
  /\ (f + c <= assessment_total_insights a)%nat
  /\ assessment_total_insights a = length insights
  /\ (risk_level a = "high" <-> (2 <= f)%nat)
  /\ (risk_level a = "medium" <-> f = 1%nat \/ (f = 0%nat /\ (2 <= c)%nat))
  /\ (risk_level a = "low" <-> f = 0%nat /\ (c <= 1)%nat)
  /\ next_steps a <> []
  /\ (In "Verify candidate identity before proceeding" (next_steps a)
      <-> (0 < f)%nat)
  /\ (In "Clarify discrepancies in experience claims" (next_steps a)
      <-> (0 < c)%nat)
  /\ (In "Continue with planned interview questions" (next_steps a)
      <-> f = 0%nat /\ c = 0%nat)
  /\ (risk_level a = "high" -> risk_level a' = "high")
  /\ (risk_level a = "medium" -> risk_level a' <> "low").
Proof.
  intros a a' f c.
  pose proof (fraud_and_contradiction_alerts insights) as Hsum.
  pose proof (assessment_risk round insights duration_minutes now) as Hrisk.
  pose proof (assessment_risk round (insights ++ more) duration_minutes now)
    as Hrisk'.
  pose proof (assessment_steps round insights duration_minutes now) as Hsteps.
  fold a in Hrisk, Hsteps. fold a' in Hrisk'.
  unfold fraud_alerts, contradictions in Hrisk'.
  rewrite !List.filter_app, !length_app in Hrisk'.
  fold (fraud_alerts insights) (contradictions insights)
       (fraud_alerts more) (contradictions more) in Hrisk'.
  change (length (fraud_alerts insights)) with f in *.
  change (length (contradictions insights)) with c in *.
  split; [done|]. split; [done|]. split; [exact Hsum|]. split; [done|].
  split; [|split; [|split; [|split; [|split; [|split; [|split; [|split]]]]]]].
  - rewrite Hrisk. destruct (Nat.leb_spec 2 f); [done|].
    destruct ((f =? 1)%nat || (2 <=? c)%nat); split; by_arith.
  - rewrite Hrisk. destruct (Nat.leb_spec 2 f); [split; by_arith|].
    destruct (Nat.eqb_spec f 1); cbn [orb]; [split; by_arith|].
    destruct (Nat.leb_spec 2 c); split; by_arith.
  - rewrite Hrisk. destruct (Nat.leb_spec 2 f); [split; by_arith|].
    destruct (Nat.eqb_spec f 1); cbn [orb]; [split; by_arith|].
    destruct (Nat.leb_spec 2 c); split; by_arith.
  - rewrite Hsteps. by destruct (f =? 0)%nat, (c =? 0)%nat.
  - rewrite Hsteps.
    destruct (Nat.eqb_spec f 0), (Nat.eqb_spec c 0); simpl;
      (split; [intros H; steps_cases H; by_arith | intros H; by_arith || tauto]).
  - rewrite Hsteps.
    destruct (Nat.eqb_spec f 0), (Nat.eqb_spec c 0); simpl;
      (split; [intros H; steps_cases H; by_arith | intros H; by_arith || tauto]).
  - rewrite Hsteps.
    destruct (Nat.eqb_spec f 0), (Nat.eqb_spec c 0); simpl;
      (split; [intros H; steps_cases H; by_arith | intros H; by_arith || tauto]).
  - rewrite Hrisk, Hrisk'. destruct (Nat.leb_spec 2 f) as [H2|H2].
    + intros _. destruct (Nat.leb_spec 2 (f + length (fraud_alerts more)));
        [done | lia].
    + by destruct ((f =? 1)%nat || (2 <=? c)%nat).
  - rewrite Hrisk, Hrisk'. destruct (Nat.leb_spec 2 f) as [H2|H2]; [done|].
    destruct (Nat.eqb_spec f 1) as [H1|H1]; cbn [orb].
    + intros _.
      destruct (Nat.leb_spec 2 (f + length (fraud_alerts more))); [done|].
      destruct (Nat.eqb_spec (f + length (fraud_alerts more)) 1);
        [done | lia].
    + destruct (Nat.leb_spec 2 c) as [H3|H3]; [|done]. intros _.
      destruct (Nat.leb_spec 2 (f + length (fraud_alerts more))); [done|].
      destruct (Nat.leb_spec 2 (c + length (contradictions more)));
        [|lia].
      by rewrite orb_true_r.
Qed.

(** ** Adding a record *)

Lemma filter_sublist {A} (f : A -> bool) (l : list A) :
  sublist (List.filter f l) l.
Proof.
  induction l as [|x l IH]; simpl; [constructor|].
  destruct (f x); by constructor.
Qed.

Section AddInsight.

Variable settings : Settings.

(** X6. [add_insight] touches one buffer entry only: the alert map, the
    counter and the buffers of the other sessions are unchanged.  The
    session has an entry afterwards, which is the old records followed by
    the new one, in that order, without those at or before the cut-off;
    so it grows by at most one record, and when the two clock readings
    are less than twice the window apart the new record, stamped with the
    first reading, is its last element. *)
Theorem add_insight_frame (self : InsightAggregator) (round : string)
    (insight : RawInsight) (now now' : datetime) :
  let self' := add_insight settings self round insight now now' in
  recent_alerts self' = recent_alerts self
  /\ insight_counter self' = insight_counter self
  /\ (forall other, other <> round ->
        insight_buffer self' !! other = insight_buffer self !! other)
  /\ (exists kept,
        insight_buffer self' !! round = Some kept
        /\ sublist kept (snapshot self round ++ [stamp insight now])
        /\ (length kept <= S (get_buffer_size self round))%nat)
  /\ (now' - now < seconds (insight_window_seconds settings * 2) ->
      exists kept,
        insight_buffer self' !! round = Some (kept ++ [stamp insight now])
        /\ sublist kept (snapshot self round)
        /\ (1 <= get_buffer_size self' round)%nat).
Proof.
  intros self'.
  pose proof (add_insight_snapshot settings self round insight now now')
    as Hsnap.
  fold self' in Hsnap. fold (snapshot self round) in Hsnap.
  split; [done|]. split; [done|]. split; [|split].
  - intros other Hne. unfold self', add_insight, _cleanup_buffer. simpl.
    by rewrite !lookup_insert_ne.
  - eexists. split; [exact Hsnap|]. split; [apply filter_sublist|].
    etrans; [apply submseteq_length, sublist_submseteq, filter_sublist|].
    rewrite length_app. unfold get_buffer_size, snapshot. simpl. lia.
  - intros Hfresh. rewrite List.filter_app in Hsnap.
    assert (Hkeep : List.filter
              (fun r => cutoff settings now' <? default now' (received_at r))
              [stamp insight now] = [stamp insight now]).
    { simpl. unfold cutoff.
      destruct (Z.ltb_spec
                  (now' - seconds (insight_window_seconds settings * 2))
                  now); [done | lia]. }
    rewrite Hkeep in Hsnap.
    eexists. split; [exact Hsnap|]. split; [apply filter_sublist|].
    unfold get_buffer_size. rewrite Hsnap. simpl. rewrite length_app.
    simpl. lia.
Qed.

(** X7. What [receive_insight] reports: the number of records of the
    session that are newer than the cut-off of the clean-up, the new one
    included, and the aggregator it leaves is the one [add_insight]
    gives. *)
Theorem receive_insight_reports_fresh_records (self : InsightAggregator)
    (round type source : string) (payload : InsightData)
    (now now' : datetime) :
  let fresh (r : RawInsight) :=
    cutoff settings now' <? default now' (received_at r) in
  let new_one := if cutoff settings now' <? now then 1%nat else 0%nat in
  (receive_insight settings self round type source payload now now').1
  = (length (List.filter fresh (snapshot self round)) + new_one)%nat
  /\ get_buffer_size
       (receive_insight settings self round type source payload now now').2
       round
     = (receive_insight settings self round type source payload now now').1
  /\ (now' - now < seconds (insight_window_seconds settings * 2) ->
      (1 <= (receive_insight settings self round type source payload
               now now').1)%nat).
Proof.
  intros fresh new_one. unfold receive_insight. cbn [fst snd].
  unfold get_buffer_size. rewrite add_insight_snapshot.
  fold (snapshot self round). cbn [default from_option]. unfold id.
  rewrite List.filter_app, length_app. fold fresh.
  split; [|split; [done|]].
  - f_equal. unfold new_one, fresh. simpl.
    by destruct (cutoff settings now' <? now).
  - intros Hfresh. unfold fresh. simpl. unfold cutoff.
    destruct (Z.ltb_spec
                (now' - seconds (insight_window_seconds settings * 2))
                now); [simpl; lia | lia].
Qed.

End AddInsight.

(** ** Shape of a batch *)

Lemma source_to_category_known (source : string) :
  In (_source_to_category source) categories.
Proof.
  unfold _source_to_category, categories.
  repeat match goal with
         | |- context [String.eqb ?a ?b] => destruct (String.eqb a b)
         end; simpl; tauto.
Qed.

Lemma aggregate_severity_known (severities : list string) :
  In (_aggregate_severity severities) severity_levels.
Proof.
  unfold _aggregate_severity, severity_levels.
  destruct severities; [simpl; tauto|].
  cbv zeta.
  repeat match goal with
         | |- context [Qle_bool ?a ?b] => destruct (Qle_bool a b)
         end; simpl; tauto.
Qed.

Lemma assoc_get_value {V} (k : group_key) (v : V)
    (table : list (group_key * V)) :
  assoc_get k table = Some v -> In v (map snd table).
Proof.
  induction table as [|[k' v'] rest IH]; cbn -[group_key_eqb]; [done|].
  destruct (group_key_eqb k' k); [|by right; apply IH].
  intros H. injection H as ->. by left.
Qed.

Lemma generate_title_nonempty (cat ty : string) (insights : list RawInsight) :
  _generate_title cat ty insights <> EmptyString.
Proof.
  unfold _generate_title.
  destruct (assoc_get (cat, ty) titles) as [t|] eqn:E; cbn [default from_option].
  - apply assoc_get_value in E. unfold id.
    simpl in E. intros ->.
    repeat (destruct E as [E|E]; [discriminate E|]). done.
  - unfold id. by destruct (str_title cat).
Qed.

Lemma first_description_nonempty (insights : list RawInsight) (d : string) :
  first_description insights = Some d ->
  d <> EmptyString
  /\ exists i, In i insights /\ data_description (get_data i) = Some d.
Proof.
  induction insights as [|i l IH]; cbn [first_description]; [done|].
  destruct (data_description (get_data i)) as [d'|] eqn:E.
  - destruct (nonempty d') eqn:En.
    + intros H. injection H as <-. split; [by destruct d'|].
      exists i. split; [by left | done].
    + intros H. destruct (IH H) as (Hd & j & Hj & Hdj).
      split; [done|]. exists j. split; [by right | done].
  - intros H. destruct (IH H) as (Hd & j & Hj & Hdj).
    split; [done|]. exists j. split; [by right | done].
Qed.

Lemma generate_description_nonempty (cat ty : string)
    (insights : list RawInsight) :
  _generate_description cat ty insights <> EmptyString.
Proof.
  unfold _generate_description.
  destruct (first_description insights) as [d|] eqn:E.
  - by apply first_description_nonempty in E as [Hd _].
  - destruct (assoc_get (cat, ty) descriptions) as [t|] eqn:E';
      cbn [default from_option].
    + apply assoc_get_value in E'. unfold id.
      simpl in E'. intros ->.
      repeat (destruct E' as [E'|E']; [discriminate E'|]). done.
    + unfold id. done.
Qed.

Section BatchShape.

Variable settings : Settings.
Context {order : PySetOrder} {adder : PyFloatSum}.

Lemma aggregate_group_fields (self self' : InsightAggregator)
    (round cat ty : string) (members : list RawInsight) (now : datetime)
    (a : AggregatedInsight) :
  _aggregate_group self round cat ty members now = (Some a, self') ->
  members <> []
  /\ round_id a = round /\ category a = cat /\ insight_type a = ty
  /\ confidence a = group_confidence members
  /\ severity a
     = _aggregate_severity
         (map (fun i => default "low" (data_severity (get_data i))) members)
  /\ title a = _generate_title cat ty members
  /\ description a = _generate_description cat ty members
  /\ source_services a = list_set (map insight_source members)
  /\ timestamp a = now
  /\ is_alert a = false.
Proof.
  destruct members as [|i members]; [done|].
  unfold _aggregate_group. intros H. injection H as <- _.
  by repeat split.
Qed.



Lemma score_groups_origin (round : string) (now : datetime)
    (grouped : list (group_key * list RawInsight)) :
  Forall (fun g => g.2 <> []) grouped ->
  forall self,
    Forall2 (scored_from round now) grouped
            (score_groups self round grouped now).1.
Proof.
  induction 1 as [|[key members] rest Hne Hrest IH]; intros self; simpl.
  - constructor.
  - destruct (aggregate_group_some self round key.1 key.2 members now Hne)
      as (a & Hrun & _).
    rewrite Hrun.
    specialize (IH {| insight_buffer := insight_buffer self;
                      recent_alerts := recent_alerts self;
                      insight_counter := S (insight_counter self) |}).
    destruct (score_groups _ round rest now) as [aggregated self2].
    simpl in *. constructor; [|done]. eexists self, _. exact Hrun.
Qed.

Lemma batch_insight_origin (self : InsightAggregator) (round : string)
    (now : datetime) (a : AggregatedInsight) :
  In a (insights (aggregate settings self round now).1) ->
  exists g a0 alert,
    In g (_group_insights (snapshot self round))
    /\ scored_from round now g a0
    /\ In a0 (scored self round now)
    /\ above_threshold settings a0 = true
    /\ a = set_is_alert a0 alert.
Proof.
  intros Hin.
  assert (Hcases : snapshot self round = [] \/ snapshot self round <> [])
    by (destruct (snapshot self round); [by left | by right]).
  destruct Hcases as [Hempty|Hne].
  { rewrite aggregate_empty_snapshot in Hin by done. destruct Hin. }
  rewrite aggregate_unfold in Hin by done. simpl in Hin.
  destruct (mark_alerts_spec settings now
              (ranked settings (scored self round now))
              (score_groups self round
                 (_group_insights (snapshot self round)) now).2)
    as (Hmarked & _ & _).
  destruct (Forall2_In_r _ _ _ _ Hmarked Hin) as (a0 & Ha0 & alert & ->).
  apply ranked_incl in Ha0 as [Ha0 Habove].
  pose proof (score_groups_origin round now _
                (group_insights_nonempty (snapshot self round)) self)
    as Horigin.
  fold (scored self round now) in Horigin.
  destruct (Forall2_In_r _ _ _ _ Horigin Ha0) as (g & Hg & Hfrom).
  by exists g, a0, alert.
Qed.

End BatchShape.

Lemma submseteq_NoDup {A} (l k : list A) : l ⊆+ k -> NoDup k -> NoDup l.
Proof.
  intros Hsub Hk. apply submseteq_sublist_r in Hsub as (l' & Hperm & Hsl).
  rewrite Hperm. by eapply sublist_NoDup.
Qed.

Section BatchInsights.

Variable settings : Settings.
Context {order : PySetOrder} {adder : PyFloatSum}.

Lemma ranked_submseteq (l : list AggregatedInsight) : ranked settings l ⊆+ l.
Proof.
  unfold ranked.
  set (kept := List.filter _ l).
  assert (Hkept : kept ⊆+ l) by apply sublist_submseteq, filter_sublist.
  assert (Hsorted : py_sort sort_key_ltb sort_key kept ⊆+ kept)
    by apply Permutation_submseteq, py_sort_Permutation.
  assert (Hslice : py_slice_to (max_insights_per_batch settings)
                     (py_sort sort_key_ltb sort_key kept)
                   ⊆+ py_sort sort_key_ltb sort_key kept).
  { apply sublist_submseteq. unfold py_slice_to.
    destruct (0 <=? max_insights_per_batch settings); apply sublist_take. }
  by repeat (etrans; [eassumption|]).
Qed.

Lemma batch_projection {B} (f : AggregatedInsight -> B)
    (self : InsightAggregator) (round : string) (now : datetime) :
  (forall a alert, f (set_is_alert a alert) = f a) ->
  map f (insights (aggregate settings self round now).1)
  ⊆+ map f (scored self round now).
Proof.
  intros Hf.
  assert (Hcases : snapshot self round = [] \/ snapshot self round <> [])
    by (destruct (snapshot self round); [by left | by right]).
  destruct Hcases as [Hempty|Hne].
  { rewrite aggregate_empty_snapshot by done. apply submseteq_nil_l. }
  rewrite aggregate_unfold by done. cbn [fst insights].
  destruct (mark_alerts_spec settings now
              (ranked settings (scored self round now))
              (score_groups self round
                 (_group_insights (snapshot self round)) now).2)
    as (Hmarked & _ & _).
  fold (scored self round now).
  assert (Heq : map f (mark_alerts settings
                         (score_groups self round
                            (_group_insights (snapshot self round)) now).2
                         (ranked settings (scored self round now)) now).1
                = map f (ranked settings (scored self round now))).
  { symmetry. apply map_eq_Forall2.
    eapply Forall2_impl; [exact Hmarked|].
    intros a b [alert ->]. by rewrite Hf. }
  rewrite Heq. apply (fmap_submseteq f), ranked_submseteq.
Qed.

(** X8. Every insight of a batch belongs to the session, has one of the
    five categories and one of the three severities, a confidence at or
    above [min_confidence_threshold], a title and a description that are
    not empty, and at least one source, none listed twice.  It stands for
    the records of the snapshot with its (category, type): there are
    some, its confidence is theirs, its sources are exactly theirs, and
    each of them maps to its category. *)
Theorem batch_insights_well_formed (self : InsightAggregator)
    (round : string) (now : datetime) (a : AggregatedInsight) :
  In a (insights (aggregate settings self round now).1) ->
  let members :=
    List.filter
      (fun i => group_key_eqb (insight_key i) (category a, insight_type a))
      (snapshot self round) in
  round_id a = round
  /\ In (category a) categories
  /\ In (severity a) severity_levels
  /\ float_ge (confidence a) (min_confidence_threshold settings) = true
  /\ title a <> EmptyString
  /\ description a <> EmptyString
  /\ source_services a <> []
  /\ NoDup (source_services a)
  /\ members <> []
  /\ confidence a = group_confidence members
  /\ (forall s, s ∈ source_services a
                <-> exists i, In i members /\ insight_source i = s)
  /\ (forall s, s ∈ source_services a -> _source_to_category s = category a).
Proof.
  intros Hin members.
  destruct (batch_insight_origin settings self round now a Hin)
    as ([key group] & a0 & alert & Hg & (s0 & s1 & Hrun) & _ & Habove & ->).
  destruct (group_insights_members (snapshot self round) key group Hg)
    as [Hne Hgroup].
  apply aggregate_group_fields in Hrun
    as (_ & Hround & Hcat & Hty & Hconf & Hsev & Htitle & Hdesc & Hsrc & _).
  cbn [fst snd] in *.
  assert (Hkey : (category a0, insight_type a0) = key)
    by (rewrite Hcat, Hty; by destruct key).
  assert (Hmembers : members = group).
  { unfold members. cbn [set_is_alert category insight_type].
    by rewrite Hkey, Hgroup. }
  assert (Hsources : forall s, s ∈ source_services a0
                        <-> exists i, In i members /\ insight_source i = s).
  { intros s. rewrite Hsrc, list_set_elem_of, list_elem_of_In, in_map_iff.
    rewrite Hmembers. split; intros (i & H1 & H2); exists i; tauto. }
  cbn [set_is_alert round_id category severity confidence title description
       source_services].
  split; [done|].
  split. { rewrite Hcat. destruct key as [c t]. simpl.
           assert (Hi : exists i, In i group)
             by (destruct group as [|i ?]; [done | exists i; by left]).
           destruct Hi as [i Hi]. rewrite Hgroup in Hi.
           apply filter_In in Hi as [_ Hi].
           apply group_key_eqb_eq in Hi. injection Hi as <- _.
           apply source_to_category_known. }
  split; [rewrite Hsev; apply aggregate_severity_known|].
  split; [exact Habove|].
  split; [rewrite Htitle; apply generate_title_nonempty|].
  split; [rewrite Hdesc; apply generate_description_nonempty|].
  split.
  { destruct group as [|i group']; [done|].
    assert (Hs : insight_source i ∈ source_services a0).
    { apply Hsources. exists i. rewrite Hmembers. split; [by left | done]. }
    intros Hnil. rewrite Hnil in Hs. by apply elem_of_nil in Hs. }
  split; [rewrite Hsrc; apply list_set_NoDup|].
  split; [by rewrite Hmembers|].
  split; [by rewrite Hmembers|].
  split; [exact Hsources|].
  intros s Hs. apply Hsources in Hs as (i & Hi & <-).
  rewrite Hmembers, Hgroup in Hi. apply filter_In in Hi as [_ Hi].
  apply group_key_eqb_eq in Hi. rewrite <- Hkey in Hi. by injection Hi.
Qed.

(** X9. A batch is deduplicated: no two of its insights have the same
    (category, type), and no two have the same id. *)
Theorem batch_insights_distinct (self : InsightAggregator) (round : string)
    (now : datetime) :
  NoDup (map (fun a => (category a, insight_type a))
             (insights (aggregate settings self round now).1))
  /\ NoDup (map insight_id (insights (aggregate settings self round now).1)).
Proof.
  split.
  - eapply submseteq_NoDup; [by apply batch_projection|].
    pose proof (score_groups_origin round now _
                  (group_insights_nonempty (snapshot self round)) self)
      as Horigin.
    fold (scored self round now) in Horigin.
    assert (Hkeys : map (fun a => (category a, insight_type a))
                        (scored self round now)
                    = map fst (_group_insights (snapshot self round))).
    { induction Horigin as [|[key group] a l k (s0 & s1 & Hrun) _ IH];
        simpl; [done|].
      apply aggregate_group_fields in Hrun as (_ & _ & -> & -> & _).
      rewrite IH. by destruct key. }
    rewrite Hkeys.
    by destruct (group_insights_lookup (snapshot self round)) as [H _].
  - eapply submseteq_NoDup; [by apply batch_projection|].
    destruct (score_groups_spec round now
                (_group_insights (snapshot self round))
                (group_insights_nonempty (snapshot self round)) self)
      as (Hids & _).
    fold (scored self round now) in Hids. rewrite Hids.
    apply NoDup_fmap_2; [|apply NoDup_seq].
    intros n m Heq. apply String.app_inj, String.app_inj in Heq.
    by apply pretty_nat_inj in Heq.
Qed.

End BatchInsights.

(** ** Alerts of a batch and the alert map *)

Section BatchAlerts.

Variable settings : Settings.
Context {order : PySetOrder} {adder : PyFloatSum}.



Lemma mark_alerts_map (now : datetime) (aggregated : list AggregatedInsight) :
  forall self : InsightAggregator,
    (forall key,
        recent_alerts (mark_alerts settings self aggregated now).2 !! key
        = if alerted key (mark_alerts settings self aggregated now).1
          then Some now else recent_alerts self !! key)
    /\ Forall (fun a => is_alert a = true -> passes_gates settings a = true)
              (mark_alerts settings self aggregated now).1.
Proof.
  induction aggregated as [|a rest IH]; intros self; cbn [mark_alerts].
  - split; [done | constructor].
  - pose proof (should_be_alert_spec settings self a now) as Hspec.
    destruct (_should_be_alert settings self a now) as [alert self1].
    specialize (IH self1).
    destruct (mark_alerts settings self1 rest now) as [rest' self2].
    cbn [fst snd] in *. destruct IH as [Hmap Hgates].
    assert (Hstep : (alert = true -> passes_gates settings a = true)
                    /\ self1 = if alert
                               then record_alert self (alert_key a) now
                               else self).
    { destruct (in_cooldown settings self (alert_key a) now);
        [by injection Hspec as -> ->|].
      destruct (passes_gates settings a); by injection Hspec as -> ->. }
    destruct Hstep as [Hpass ->].
    split; [|by constructor].
    intros key. rewrite Hmap. unfold alerted. cbn [existsb].
    change (alert_key (set_is_alert a alert)) with (alert_key a).
    change (is_alert (set_is_alert a alert)) with alert.
    fold (alerted key rest').
    destruct alert; cbn [andb orb]; [|done].
    cbn [record_alert recent_alerts].
    destruct (String.eqb_spec (alert_key a) key) as [->|Hne]; cbn [orb].
    + rewrite lookup_insert_eq. by destruct (alerted key rest').
    + by rewrite lookup_insert_ne.
Qed.

Lemma aggregate_alert_map (self : InsightAggregator) (round : string)
    (now : datetime) :
  (forall key,
      recent_alerts (aggregate settings self round now).2 !! key
      = if alerted key (insights (aggregate settings self round now).1)
        then Some now else recent_alerts self !! key)
  /\ Forall (fun a => is_alert a = true -> passes_gates settings a = true)
            (insights (aggregate settings self round now).1).
Proof.
  assert (Hcases : snapshot self round = [] \/ snapshot self round <> [])
    by (destruct (snapshot self round); [by left | by right]).
  destruct Hcases as [Hempty|Hne].
  { rewrite aggregate_empty_snapshot by done. split; [done | constructor]. }
  rewrite aggregate_unfold by done. cbn [fst snd insights].
  destruct (mark_alerts_map now
              (ranked settings
                 (score_groups self round
                    (_group_insights (snapshot self round)) now).1)
              (score_groups self round
                 (_group_insights (snapshot self round)) now).2)
    as [Hmap Hgates].
  split; [|exact Hgates].
  intros key. rewrite Hmap.
  by destruct (score_groups_spec round now
                 (_group_insights (snapshot self round))
                 (group_insights_nonempty (snapshot self round)) self)
    as (_ & _ & _ & -> & _).
Qed.

Lemma aggregate_alert_stored (self : InsightAggregator) (round : string)
    (now : datetime) (a : AggregatedInsight) :
  In a (insights (aggregate settings self round now).1) ->
  is_alert a = true ->
  recent_alerts (aggregate settings self round now).2 !! alert_key a
  = Some now.
Proof.
  intros Ha Halert.
  destruct (aggregate_alert_map self round now) as [Hmap _].
  rewrite Hmap.
  assert (Hex : alerted (alert_key a)
                  (insights (aggregate settings self round now).1) = true).
  { apply existsb_exists. exists a. split; [done|].
    by rewrite Halert, String.eqb_refl. }
  by rewrite Hex.
Qed.

(** X10. What [aggregate] does to the alert map: a key is mapped to the
    time of the call exactly when an insight of the returned batch with
    that key is an alert, and every other key keeps what it had, so no
    key is ever dropped.  An insight of the batch is an alert only if it
    passes the confidence and severity gates. *)
Theorem aggregate_records_alerts (self : InsightAggregator)
    (round : string) (now : datetime) :
  let batch := (aggregate settings self round now).1 in
  let self' := (aggregate settings self round now).2 in
  (forall key,
      recent_alerts self' !! key
      = if alerted key (insights batch) then Some now
        else recent_alerts self !! key)
  /\ (forall key, is_Some (recent_alerts self !! key) ->
                  is_Some (recent_alerts self' !! key))
  /\ (forall a, In a (insights batch) -> is_alert a = true ->
                passes_gates settings a = true
                /\ recent_alerts self' !! alert_key a = Some now).
Proof.
  intros batch self'.
  destruct (aggregate_alert_map self round now) as [Hmap Hgates].
  fold batch in Hmap, Hgates. fold self' in Hmap.
  split; [exact Hmap|]. split.
  - intros key Hsome. rewrite Hmap.
    by destruct (alerted key (insights batch)).
  - intros a Ha Halert. rewrite List.Forall_forall in Hgates.
    split; [by apply Hgates|].
    by apply aggregate_alert_stored.
Qed.

End BatchAlerts.

(** ** Two aggregations within the cool-down *)

Lemma passes_gates_content (settings : Settings) (a b : AggregatedInsight) :
  content a = content b -> passes_gates settings a = passes_gates settings b.
Proof.
  unfold content, passes_gates. intros H.
  injection H; intros; congruence.
Qed.

Lemma alert_key_content (a b : AggregatedInsight) :
  content a = content b -> alert_key a = alert_key b.
Proof.
  unfold content, alert_key. intros H.
  injection H; intros; congruence.
Qed.

Lemma map_eq_lookup {A B} (f : A -> B) (l k : list A) (n : nat) (x : A) :
  map f l = map f k -> l !! n = Some x ->
  exists y, k !! n = Some y /\ f y = f x.
Proof.
  revert k n. induction l as [|a l IH]; intros [|b k] n Heq Hx;
    try done.
  injection Heq as Hab Hrest. destruct n as [|n]; simpl in *.
  - injection Hx as <-. by exists b.
  - by apply IH.
Qed.

Lemma no_alerts_no_indicators (aggregated : list AggregatedInsight) :
  Forall (fun b => is_alert b = false) aggregated ->
  fraud_alerts aggregated = [] /\ contradictions aggregated = [].
Proof.
  unfold fraud_alerts, contradictions.
  induction 1 as [|b l Hb _ [IH1 IH2]]; simpl; [done|].
  by rewrite Hb, !andb_false_r.
Qed.

Section Cooldown.

Variable settings : Settings.
Context {order : PySetOrder} {adder : PyFloatSum}.

Hypothesis interval_nonneg : 0 <= min_alert_interval_seconds settings.

Lemma mark_alerts_promoted_since (key : string) (t now : datetime)
    (aggregated : list AggregatedInsight) :
  forall self,
    promoted_since key t self ->
    promoted_since key t (mark_alerts settings self aggregated now).2.
Proof.
  induction aggregated as [|a rest IH]; intros self Hinv;
    cbn [mark_alerts]; [done|].
  pose proof (promoted_since_step settings key t self a now
                interval_nonneg Hinv) as Hstep.
  destruct (_should_be_alert settings self a now) as [alert self1].
  specialize (IH self1 Hstep).
  by destruct (mark_alerts settings self1 rest now).
Qed.

Lemma mark_alerts_suppressed (key : string) (t now : datetime)
    (aggregated : list AggregatedInsight) :
  now - t < seconds (min_alert_interval_seconds settings) ->
  forall self n a,
    promoted_since key t self ->
    aggregated !! n = Some a ->
    alert_key a = key ->
    (mark_alerts settings self aggregated now).1 !! n
    = Some (set_is_alert a false).
Proof.
  intros Hnear.
  induction aggregated as [|x rest IH]; intros self n a Hinv Hn Hkey;
    [done|].
  cbn [mark_alerts].
  pose proof (promoted_since_step settings key t self x now
                interval_nonneg Hinv) as Hstep.
  destruct (_should_be_alert settings self x now) as [alert self1] eqn:E.
  specialize (IH self1).
  destruct (mark_alerts settings self1 rest now) as [rest' self2].
  destruct n as [|n]; cbn [fst] in *.
  - injection Hn as ->.
    rewrite (promoted_since_suppresses settings key t self a now) in E
      by done.
    by injection E as <- _.
  - by apply IH.
Qed.

Lemma in_cooldown_alerts (self self' : InsightAggregator) (key : string)
    (now : datetime) :
  recent_alerts self' = recent_alerts self ->
  in_cooldown settings self' key now = in_cooldown settings self key now.
Proof. unfold in_cooldown. by intros ->. Qed.

Lemma promoted_since_alerts (self self' : InsightAggregator) (key : string)
    (t : datetime) :
  recent_alerts self' = recent_alerts self ->
  promoted_since key t self -> promoted_since key t self'.
Proof. unfold promoted_since. by intros ->. Qed.

(** After the gate has run over a list from a state in which each passing
    insight is either out of cool-down or already promoted, every passing
    insight is promoted. *)
Lemma mark_alerts_all_promoted (now : datetime)
    (aggregated : list AggregatedInsight) :
  forall self,
    (forall y, In y aggregated -> passes_gates settings y = true ->
               in_cooldown settings self (alert_key y) now = false
               \/ promoted_since (alert_key y) now self) ->
    forall y, In y aggregated -> passes_gates settings y = true ->
              promoted_since (alert_key y) now
                (mark_alerts settings self aggregated now).2.
Proof.
  induction aggregated as [|x rest IH]; intros self Hinv y Hy Hpass;
    [destruct Hy|].
  cbn [mark_alerts].
  pose proof (should_be_alert_spec settings self x now) as Hspec.
  assert (Hkeep : forall key, promoted_since key now self ->
            promoted_since key now (_should_be_alert settings self x now).2)
    by (intros key; apply promoted_since_step; exact interval_nonneg).
  destruct (_should_be_alert settings self x now) as [alert self1].
  cbn [snd] in Hkeep.
  assert (Hhead : passes_gates settings x = true ->
                  promoted_since (alert_key x) now self1).
  { intros Hx.
    destruct (Hinv x (or_introl eq_refl) Hx) as [Hcool|Hprom];
      [|by apply Hkeep].
    rewrite Hcool, Hx in Hspec. injection Hspec as _ ->.
    exists now. cbn [record_alert recent_alerts].
    rewrite lookup_insert_eq. split; [done | lia]. }
  assert (Hrest : forall z, In z rest -> passes_gates settings z = true ->
            in_cooldown settings self1 (alert_key z) now = false
            \/ promoted_since (alert_key z) now self1).
  { intros z Hz Hpz.
    destruct (Hinv z (or_intror Hz) Hpz) as [Hcool|Hprom];
      [|right; by apply Hkeep].
    destruct (in_cooldown settings self (alert_key x) now);
      [injection Hspec as _ ->; by left|].
    destruct (passes_gates settings x);
      [|injection Hspec as _ ->; by left].
    injection Hspec as _ ->.
    destruct (decide (alert_key x = alert_key z)) as [Heq|Hne].
    - right. exists now. cbn [record_alert recent_alerts].
      rewrite Heq, lookup_insert_eq. split; [done | lia].
    - left. unfold in_cooldown in *. cbn [record_alert recent_alerts].
      by rewrite lookup_insert_ne. }
  specialize (IH self1 Hrest).
  pose proof (mark_alerts_promoted_since (alert_key x) now now rest self1)
    as Hthrough.
  destruct (mark_alerts settings self1 rest now) as [rest' self2].
  cbn [snd] in *.
  destruct Hy as [<-|Hy]; [by apply Hthrough, Hhead | by apply IH].
Qed.

(** The gate promotes nothing when every passing insight was promoted
    less than the interval ago. *)
Lemma mark_alerts_quiet (t now : datetime)
    (aggregated : list AggregatedInsight) (self : InsightAggregator) :
  now - t < seconds (min_alert_interval_seconds settings) ->
  (forall b, In b aggregated -> passes_gates settings b = true ->
             promoted_since (alert_key b) t self) ->
  mark_alerts settings self aggregated now
  = (map (fun b => set_is_alert b false) aggregated, self).
Proof.
  intros Hnear.
  induction aggregated as [|x rest IH]; intros Hinv; cbn [mark_alerts map];
    [done|].
  assert (Hx : _should_be_alert settings self x now = (false, self)).
  { destruct (passes_gates settings x) eqn:Hpass.
    - apply (promoted_since_suppresses settings (alert_key x) t);
        [by apply Hinv; [left|] | done | done].
    - rewrite should_be_alert_spec, Hpass.
      by destruct (in_cooldown settings self (alert_key x) now). }
  rewrite Hx, IH; [done|].
  intros b Hb. apply Hinv. by right.
Qed.

(** The two lists the gate runs over in two successive calls. *)
Lemma successive_ranked (self : InsightAggregator) (round : string)
    (now1 now2 : datetime) :
  map content (ranked settings (scored self round now1))
  = map content
      (ranked settings
         (scored (aggregate settings self round now1).2 round now2)).
Proof.
  apply ranked_content. unfold scored, snapshot.
  rewrite aggregate_buffer. apply score_groups_content.
Qed.

(** The second of two successive calls runs the gate over a list with
    the content of the first batch, place by place. *)
Lemma successive_lookup (self : InsightAggregator) (round : string)
    (now1 now2 : datetime) (n : nat) (a : AggregatedInsight) :
  insights (aggregate settings self round now1).1 !! n = Some a ->
  exists b0,
    ranked settings
      (scored (aggregate settings self round now1).2 round now2) !! n
    = Some b0
    /\ content b0 = content a.
Proof.
  intros Hn.
  apply (map_eq_lookup content
           (insights (aggregate settings self round now1).1)); [|done].
  rewrite aggregate_content. apply successive_ranked.
Qed.

(** A call whose gate finds a key promoted less than the interval ago
    leaves the insight with that key unflagged. *)
Lemma aggregate_suppressed (self : InsightAggregator) (round key : string)
    (t now : datetime) (n : nat) (b0 : AggregatedInsight) :
  now - t < seconds (min_alert_interval_seconds settings) ->
  promoted_since key t self ->
  ranked settings (scored self round now) !! n = Some b0 ->
  alert_key b0 = key ->
  insights (aggregate settings self round now).1 !! n
  = Some (set_is_alert b0 false).
Proof.
  intros Hnear Hprom Hn Hkey.
  assert (Hne : snapshot self round <> []).
  { intros Hempty. unfold scored in Hn. rewrite Hempty in Hn.
    cbn in Hn. unfold ranked in Hn. cbn in Hn.
    by rewrite py_slice_to_nil in Hn. }
  rewrite aggregate_unfold by done. cbn [fst insights].
  apply (mark_alerts_suppressed key t now _ Hnear); [|done|done].
  apply (promoted_since_alerts self); [|done].
  by destruct (score_groups_spec round now
                 (_group_insights (snapshot self round))
                 (group_insights_nonempty (snapshot self round)) self)
    as (_ & _ & _ & -> & _).
Qed.

(** X11. Two [aggregate] calls on the same session with nothing in
    between, the second less than [min_alert_interval_seconds] (not
    negative) after the first: an insight that the first batch flags as
    an alert is, at the same place of the second batch and with the same
    content, not flagged. *)
Theorem alert_not_repeated_within_cooldown (self : InsightAggregator)
    (round : string) (now1 now2 : datetime) :
  now2 - now1 < seconds (min_alert_interval_seconds settings) ->
  let first := aggregate settings self round now1 in
  let second := aggregate settings first.2 round now2 in
  forall n a,
    insights first.1 !! n = Some a ->
    is_alert a = true ->
    exists b, insights second.1 !! n = Some b
              /\ content b = content a
              /\ is_alert b = false.
Proof.
  intros Hnear first second n a Hn Halert.
  destruct (successive_lookup self round now1 now2 n a Hn)
    as (b0 & Hb0 & Hcont).
  exists (set_is_alert b0 false). split; [|split; [exact Hcont | done]].
  apply (aggregate_suppressed first.2 round (alert_key a) now1 now2 n b0);
    [done | | done | by apply alert_key_content].
  exists now1. split; [|lia].
  apply aggregate_alert_stored; [|done].
  by eapply list_elem_of_In, list_elem_of_lookup_2.
Qed.

(** X12. On an aggregator in which no alert is in cool-down, an
    [aggregate] call followed, less than [min_alert_interval_seconds]
    later and with nothing in between, by a second call on the same
    session: the second batch has no alert and no recommendation and
    leaves the alert map as it was; so [get_assessment] in place of the
    second call reports no fraud indicator, no contradiction, the risk
    "low" and the single next step to continue as planned, whatever the
    first batch flagged. *)
Theorem assessment_after_aggregate_is_low (self : InsightAggregator)
    (round : string) (duration_minutes : Z) (now1 now2 : datetime) :
  now2 - now1 < seconds (min_alert_interval_seconds settings) ->
  (forall key, in_cooldown settings self key now1 = false) ->
  let first := aggregate settings self round now1 in
  let second := aggregate settings first.2 round now2 in
  let assessed :=
    get_assessment settings first.2 round duration_minutes now2 in
  Forall (fun b => is_alert b = false) (insights second.1)
  /\ recommendations second.1 = []
  /\ recent_alerts second.2 = recent_alerts first.2
  /\ assessed.2 = second.2
  /\ fraud_indicators assessed.1 = 0%nat
  /\ contradictions_found assessed.1 = 0%nat
  /\ risk_level assessed.1 = "low"
  /\ next_steps assessed.1 = ["Continue with planned interview questions"].
Proof.
  intros Hnear Hquiet first second assessed.
  assert (Hmain : Forall (fun b => is_alert b = false) (insights second.1)
                  /\ recommendations second.1 = []
                  /\ recent_alerts second.2 = recent_alerts first.2).
  { pose proof (aggregate_buffer settings self round now1) as Hbuf.
    pose proof (successive_ranked self round now1 now2) as Hsame.
    fold first in Hbuf, Hsame.
    assert (Hcases : snapshot self round = [] \/ snapshot self round <> [])
      by (destruct (snapshot self round); [by left | by right]).
    destruct Hcases as [Hempty|Hne].
    { unfold second. rewrite aggregate_empty_snapshot
        by (unfold snapshot; rewrite Hbuf; exact Hempty).
      by repeat split. }
    assert (Hne' : snapshot first.2 round <> [])
      by (unfold snapshot; by rewrite Hbuf).
    set (groups1 := score_groups self round
                      (_group_insights (snapshot self round)) now1).
    set (l1 := ranked settings (scored self round now1)) in *.
    set (groups2 := score_groups first.2 round
                      (_group_insights (snapshot first.2 round)) now2).
    set (l2 := ranked settings (scored first.2 round now2)) in *.
    assert (Hfirst : first = aggregate settings self round now1) by done.
    rewrite aggregate_unfold in Hfirst by done. cbv zeta in Hfirst.
    fold groups1 in Hfirst.
    change (ranked settings groups1.1) with l1 in Hfirst.
    assert (Hsecond : second = aggregate settings first.2 round now2)
      by done.
    rewrite aggregate_unfold in Hsecond by done. cbv zeta in Hsecond.
    fold groups2 in Hsecond.
    change (ranked settings groups2.1) with l2 in Hsecond.
    assert (Halerts1 : recent_alerts groups1.2 = recent_alerts self).
    { unfold groups1.
      by destruct (score_groups_spec round now1
                     (_group_insights (snapshot self round))
                     (group_insights_nonempty (snapshot self round)) self)
        as (_ & _ & _ & -> & _). }
    assert (Halerts2 : recent_alerts groups2.2 = recent_alerts first.2).
    { unfold groups2.
      by destruct (score_groups_spec round now2
                     (_group_insights (snapshot first.2 round))
                     (group_insights_nonempty (snapshot first.2 round))
                     first.2) as (_ & _ & _ & -> & _). }
    assert (Hprom1 : forall y, In y l1 -> passes_gates settings y = true ->
              promoted_since (alert_key y) now1 first.2).
    { intros y Hy Hpass. rewrite Hfirst. cbn [snd].
      apply mark_alerts_all_promoted; [|done..].
      intros z _ _. left.
      rewrite (in_cooldown_alerts self groups1.2) by done. apply Hquiet. }
    assert (Hprom2 : forall b, In b l2 -> passes_gates settings b = true ->
              promoted_since (alert_key b) now1 groups2.2).
    { intros b Hb Hpass.
      assert (Hcb : In (content b) (map content l1))
        by (rewrite Hsame; by apply in_map).
      apply in_map_iff in Hcb as (y & Hcont & Hy).
      apply (promoted_since_alerts first.2); [done|].
      rewrite <- (alert_key_content y b Hcont).
      apply Hprom1; [done|].
      by rewrite (passes_gates_content settings y b Hcont). }
    pose proof (mark_alerts_quiet now1 now2 l2 groups2.2 Hnear Hprom2)
      as Hquiet2.
    rewrite Hsecond, Hquiet2. cbn [fst snd insights recommendations].
    assert (Hnone : Forall (fun b => is_alert b = false)
                      (map (fun b => set_is_alert b false) l2)).
    { apply List.Forall_forall. intros b Hb.
      by apply in_map_iff in Hb as (b0 & <- & _). }
    split; [exact Hnone|]. split; [|done].
    destruct (generate_recommendations settings); [|done].
    unfold _generate_recommendations.
    assert (Hflat : flat_map recommendation_for
                      (map (fun b => set_is_alert b false) l2) = []).
    { clear. induction l2 as [|b l IH]; simpl; [done|]. exact IH. }
    rewrite Hflat. apply py_slice_to_nil. }
  destruct Hmain as (Hnone & Hrecs & Hsame).
  split; [done|]. split; [done|]. split; [done|].
  assert (Hassessed : assessed
            = (generate_overall_assessment round (insights second.1)
                 duration_minutes now2, second.2)).
  { unfold assessed, get_assessment. fold second. by destruct second. }
  destruct (no_alerts_no_indicators _ Hnone) as [Hf Hc].
  rewrite Hassessed. cbn [fst snd].
  split; [done|].
  rewrite assessment_risk, assessment_steps.
  unfold generate_overall_assessment.
  cbn [fraud_indicators contradictions_found].
  by rewrite Hf, Hc.
Qed.

End Cooldown.

(** ** Evidence, follow-up questions and description of a group *)

Section GroupTexts.

Context {order : PySetOrder} {adder : PyFloatSum}.




End GroupTexts.

(** X14. The description of a group is the first non-empty description
    among its records, in their order, verbatim; when no record has one
    it does not depend on the records: it is the entry of the fixed table
    for (category, type), or ["Observation in {category}: {type}"] when
    the table has none. *)
Theorem description_of_group (cat ty : string)
    (before after : list RawInsight) (i : RawInsight) (d : string) :
  Forall (fun j => first_description [j] = None) before ->
  (data_description (get_data i) = Some d -> d <> EmptyString ->
   _generate_description cat ty (before ++ i :: after) = d)
  /\ _generate_description cat ty before
     = default ("Observation in " +:+ cat +:+ ": " +:+ ty)
               (assoc_get (cat, ty) descriptions).
Proof.
  intros Hbefore.
  assert (Hskip : forall rest,
            first_description (before ++ rest) = first_description rest).
  { intros rest. induction Hbefore as [|j l Hj _ IH]; [done|].
    cbn [app first_description] in *.
    destruct (data_description (get_data j)) as [dj|]; [|exact IH].
    by destruct (nonempty dj). }
  split.
  - intros Hd Hne. unfold _generate_description.
    rewrite Hskip. cbn [first_description]. rewrite Hd.
    by destruct d.
  - unfold _generate_description.
    specialize (Hskip []). rewrite app_nil_r in Hskip. by rewrite Hskip.
Qed.

(** ** Clearing, then going on *)

Section AfterClear.

Variable settings : Settings.
Context {order : PySetOrder} {adder : PyFloatSum}.

(** X15. After [clear_buffer] the session is as if it had never been
    seen by the buffer: clearing again changes nothing, clearing two
    sessions in either order gives the same aggregator, [aggregate]
    returns the empty batch and changes nothing, and the next
    [add_insight], when its two clock readings are less than twice the
    window apart, leaves exactly the new record in the buffer. *)
Theorem clear_buffer_then (self : InsightAggregator) (round other : string)
    (insight : RawInsight) (now now' : datetime) :
  let cleared := clear_buffer self round in
  clear_buffer cleared round = cleared
  /\ clear_buffer (clear_buffer self other) round
     = clear_buffer cleared other
  /\ aggregate settings cleared round now = (empty_batch round now, cleared)
  /\ (now' - now < seconds (insight_window_seconds settings * 2) ->
      insight_buffer (add_insight settings cleared round insight now now')
        !! round
      = Some [stamp insight now]).
Proof.
  intros cleared.
  assert (Hgone : insight_buffer cleared !! round = None).
  { unfold cleared. rewrite clear_buffer_buffer. apply lookup_delete_eq. }
  assert (Hrecord : forall s r,
            clear_buffer s r
            = {| insight_buffer := delete r (insight_buffer s);
                 recent_alerts := recent_alerts s;
                 insight_counter := insight_counter s |}).
  { intros s r. unfold clear_buffer.
    destruct (insight_buffer s !! r) eqn:E; [done|].
    rewrite delete_id by done. by destruct s. }
  split; [|split; [|split]].
  - unfold clear_buffer at 1. by rewrite Hgone.
  - unfold cleared. rewrite !Hrecord. cbn [insight_buffer recent_alerts
                                            insight_counter].
    by rewrite delete_delete.
  - apply aggregate_empty_snapshot. unfold snapshot. by rewrite Hgone.
  - intros Hfresh. rewrite add_insight_snapshot, Hgone.
    cbn [default from_option app List.filter stamp received_at].
    unfold cutoff, id.
    destruct (Z.ltb_spec
                (now' - seconds (insight_window_seconds settings * 2))
                now); [done | lia].
Qed.

End AfterClear.

(** ** Truncation keeps the best *)

Lemma StronglySorted_app_inv {A} (R : A -> A -> Prop) (l1 l2 : list A) :
  StronglySorted R (l1 ++ l2) ->
  forall x y, In x l1 -> In y l2 -> R x y.
Proof.
  induction l1 as [|a l1 IH]; intros Hs x y Hx Hy; [destruct Hx|].
  cbn [app] in Hs. apply StronglySorted_inv in Hs as [Hs Hall].
  destruct Hx as [<-|Hx]; [|by apply IH].
  rewrite List.Forall_forall in Hall. apply Hall, in_or_app. by right.
Qed.

Section KeepsBest.

Variable settings : Settings.
Context {order : PySetOrder} {adder : PyFloatSum}.

(** X16. When a scored insight at or above the threshold is missing from
    the batch, the batch is full ([max_insights_per_batch] insights, for
    a bound that is not negative) and each of its insights ranks no later
    than the missing one in the sort order. *)
Theorem batch_keeps_best (self : InsightAggregator) (round : string)
    (now : datetime) (x : AggregatedInsight) :
  0 <= max_insights_per_batch settings ->
  In x (scored self round now) ->
  above_threshold settings x = true ->
  (forall alert,
     ~ In (set_is_alert x alert)
          (insights (aggregate settings self round now).1)) ->
  Z.of_nat (length (insights (aggregate settings self round now).1))
  = max_insights_per_batch settings
  /\ forall y, In y (insights (aggregate settings self round now).1) ->
               ranks_no_later y x.
Proof.
  intros Hmax Hx Habove Hmissing.
  set (kept := List.filter (above_threshold settings)
                           (scored self round now)).
  set (sorted := py_sort sort_key_ltb sort_key kept).
  set (n := Z.to_nat (max_insights_per_batch settings)).
  assert (Hranked : ranked settings (scored self round now)
                    = firstn n sorted).
  { unfold ranked, py_slice_to.
    destruct (0 <=? max_insights_per_batch settings) eqn:E; [done | lia]. }
  assert (Hne : snapshot self round <> []).
  { intros Hempty. unfold scored in Hx. by rewrite Hempty in Hx. }
  assert (Hbatch : Forall2 (fun a b => exists alert, b = set_is_alert a alert)
                     (firstn n sorted)
                     (insights (aggregate settings self round now).1)).
  { rewrite <- Hranked, aggregate_unfold by done. cbn [fst insights].
    apply mark_alerts_spec. }
  assert (Hsorted : StronglySorted ranks_no_later
                      (firstn n sorted ++ skipn n sorted)).
  { rewrite firstn_skipn.
    by destruct (kept_sorted settings (scored self round now))
      as (_ & Hs & _). }
  assert (Hin : In x sorted).
  { apply (Permutation_in _
             (Permutation_sym (py_sort_Permutation sort_key_ltb sort_key kept))).
    apply filter_In. by split. }
  rewrite <- (firstn_skipn n sorted) in Hin.
  apply in_app_or in Hin as [Hin|Hin].
  { exfalso.
    apply list_elem_of_In, list_elem_of_lookup in Hin as [k Hk].
    destruct (Forall2_lookup_l _ _ _ _ _ Hbatch Hk)
      as (b & Hb & alert & ->).
    apply (Hmissing alert). by eapply list_elem_of_In, list_elem_of_lookup_2. }
  split.
  - rewrite <- (Forall2_length _ _ _ Hbatch), length_firstn.
    assert (Hlong : (n < length sorted)%nat).
    { destruct (Nat.lt_ge_cases n (length sorted)) as [H|H]; [done|].
      rewrite skipn_all2 in Hin by done. destruct Hin. }
    unfold n in *. lia.
  - intros y Hy.
    destruct (Forall2_In_r _ _ _ _ Hbatch Hy) as (y0 & Hy0 & alert & ->).
    exact (StronglySorted_app_inv _ _ _ Hsorted y0 x Hy0 Hin).
Qed.

(** X17. The summary and the recommendations of a batch against its
    insights.  The total of the summary is the number of insights.  For a
    session with buffered records the summary has all its keys, the alert
    count being the number of insights flagged, and the recommendations
    are those generated from the insights, or none when
    [generate_recommendations] is off; for a session without buffered
    records the summary only has the total, 0. *)
Theorem batch_summary_consistent (self : InsightAggregator) (round : string)
    (now : datetime) :
  let batch := (aggregate settings self round now).1 in
  total_insights (summary batch) = length (insights batch)
  /\ batch_round_id batch = round
  /\ (snapshot self round = [] ->
      alerts_count (summary batch) = None
      /\ by_category (summary batch) = None
      /\ by_severity (summary batch) = None
      /\ overall_confidence (summary batch) = None)
  /\ (snapshot self round <> [] ->
      alerts_count (summary batch)
      = Some (length (List.filter is_alert (insights batch)))
      /\ is_Some (by_category (summary batch))
      /\ is_Some (by_severity (summary batch))
      /\ is_Some (overall_confidence (summary batch))
      /\ recommendations batch
         = (if generate_recommendations settings
            then _generate_recommendations settings (insights batch)
            else [])
      /\ (length (recommendations batch)
          <= length (List.filter is_alert (insights batch)))%nat).
Proof.
  intros batch. unfold batch.
  assert (Hcases : snapshot self round = [] \/ snapshot self round <> [])
    by (destruct (snapshot self round); [by left | by right]).
  destruct Hcases as [Hempty|Hne].
  - rewrite aggregate_empty_snapshot by done.
    split; [done|]. split; [done|]. split; [done|]. by intros [].
  - rewrite aggregate_unfold by done. cbn [fst].
    split; [done|]. split; [done|]. split; [by intros H|]. intros _.
    cbn [summary insights recommendations _create_summary alerts_count
         by_category by_severity overall_confidence].
    split; [done|]. split; [done|]. split; [done|]. split; [done|].
    split; [done|].
    destruct (generate_recommendations settings); [|simpl; lia].
    unfold _generate_recommendations.
    etrans; [apply py_slice_to_shorter|].
    generalize (mark_alerts settings
                  (score_groups self round
                     (_group_insights (snapshot self round)) now).2
                  (ranked settings
                     (score_groups self round
                        (_group_insights (snapshot self round)) now).1)
                  now).1 as l.
    induction l as [|a l IH]; simpl; [lia|].
    rewrite length_app. unfold recommendation_for at 1.
    destruct (is_alert a); simpl; [|lia].
    destruct (String.eqb (category a) "fraud"); simpl; [lia|].
    destruct (String.eqb (category a) "contradiction"); simpl; [lia|].
    destruct (String.eqb (category a) "speech"
              && String.eqb (insight_type a) "high_hesitation");
      simpl; lia.
Qed.

End KeepsBest.

(** ** The order of a batch, and two calls in a row *)

Lemma py_slice_to_take {A} (n : Z) (xs : list A) :
  exists k, py_slice_to n xs = firstn k xs
            /\ (0 <= n -> k = Z.to_nat n).
Proof.
  unfold py_slice_to. destruct (0 <=? n) eqn:E.
  - by exists (Z.to_nat n).
  - eexists. split; [reflexivity | lia].
Qed.

Lemma ranks_no_later_flag (x y : AggregatedInsight) (fx fy : bool) :
  ranks_no_later x y ->
  ranks_no_later (set_is_alert x fx) (set_is_alert y fy).
Proof. done. Qed.

Section OrderAndRepeat.

Variable settings : Settings.
Context {order : PySetOrder} {adder : PyFloatSum}.

Lemma batch_ids_between (self : InsightAggregator) (round : string)
    (now : datetime) (a : AggregatedInsight) :
  In a (insights (aggregate settings self round now).1) ->
  exists n,
    insight_id a = round +:+ "-" +:+ pretty n
    /\ (insight_counter self < n
        <= insight_counter (aggregate settings self round now).2)%nat.
Proof.
  intros Hin.
  assert (Hcases : snapshot self round = [] \/ snapshot self round <> [])
    by (destruct (snapshot self round); [by left | by right]).
  destruct Hcases as [Hempty|Hne].
  { rewrite aggregate_empty_snapshot in Hin by done. destruct Hin. }
  rewrite aggregate_unfold in Hin |- * by done. cbn [fst snd insights] in *.
  destruct (score_groups_spec round now
              (_group_insights (snapshot self round))
              (group_insights_nonempty (snapshot self round)) self)
    as (Hids & Hcount & _).
  destruct (mark_alerts_spec settings now
              (ranked settings (scored self round now))
              (score_groups self round
                 (_group_insights (snapshot self round)) now).2)
    as (Hmarked & _ & Hkeep).
  destruct (Forall2_In_r _ _ _ _ Hmarked Hin) as (a0 & Ha0 & alert & ->).
  apply ranked_incl in Ha0 as [Ha0 _].
  assert (Hid : In (insight_id a0) (map insight_id (scored self round now)))
    by (by apply in_map).
  unfold scored in Hid. rewrite Hids in Hid.
  apply in_map_iff in Hid as (n & Hn & Hseq).
  apply in_seq in Hseq. exists n. split; [done|].
  fold (scored self round now). rewrite Hkeep, Hcount. lia.
Qed.

Lemma batch_insight_labels (self : InsightAggregator) (round : string)
    (now : datetime) (a : AggregatedInsight) :
  In a (insights (aggregate settings self round now).1) ->
  In (category a) categories
  /\ In (severity a) severity_levels
  /\ timestamp a = now.
Proof.
  intros Hin.
  destruct (batch_insight_origin settings self round now a Hin)
    as ([key group] & a0 & alert & Hg & (s0 & s1 & Hrun) & _ & _ & ->).
  destruct (group_insights_members (snapshot self round) key group Hg)
    as [Hne Hgroup].
  apply aggregate_group_fields in Hrun
    as (_ & _ & Hcat & _ & _ & Hsev & _ & _ & _ & Htime & _).
  cbn [fst snd set_is_alert category severity timestamp] in *.
  split; [|split; [rewrite Hsev; apply aggregate_severity_known | done]].
  assert (Hi : exists i, In i group)
    by (destruct group as [|i ?]; [done | exists i; by left]).
  destruct Hi as [i Hi]. rewrite Hgroup in Hi.
  apply filter_In in Hi as [_ Hi].
  apply group_key_eqb_eq in Hi. rewrite Hcat, <- Hi.
  apply source_to_category_known.
Qed.

(** C8. The insights of a batch are in the specified order: category
    priority ascending (fraud 1, contradiction 2, speech 3, video 4, any
    other category 99), then confidence descending, then severity weight
    descending (high 3, medium 2, low 1); every insight has one of the
    five categories and one of the three severities.  The order is that
    of a stable sort: the batch is, up to the alert flags, a prefix of a
    rearrangement of the scored insights above the threshold in which the
    insights tied with any given one appear in the order in which the
    groups were scored.  When [max_insights_per_batch] is not negative the
    prefix has that many insights, or all of them when there are fewer,
    so the batch never has more. *)
Theorem aggregate_sorted (self : InsightAggregator) (round : string)
    (now : datetime) :
  let batch := (aggregate settings self round now).1 in
  let kept := List.filter (above_threshold settings) (scored self round now) in
  StronglySorted ranks_no_later (insights batch)
  /\ Forall (fun a => In (category a) categories
                      /\ In (severity a) severity_levels) (insights batch)
  /\ (0 <= max_insights_per_batch settings ->
      Z.of_nat (length (insights batch)) <= max_insights_per_batch settings)
  /\ exists sorted rest,
       Permutation sorted kept
       /\ StronglySorted ranks_no_later sorted
       /\ (forall x, In x kept ->
             List.filter (tied x) sorted = List.filter (tied x) kept)
       /\ sorted = map (fun a => set_is_alert a false) (insights batch) ++ rest
       /\ (0 <= max_insights_per_batch settings ->
           length (insights batch)
           = Nat.min (Z.to_nat (max_insights_per_batch settings))
                     (length sorted)).
Proof.
  intros batch kept.
  set (sorted := py_sort sort_key_ltb sort_key kept).
  destruct (kept_sorted settings (scored self round now))
    as (Hperm & Hsorted & Htied & Hranked).
  fold kept in Hperm, Hsorted, Htied, Hranked.
  fold sorted in Hperm, Hsorted, Htied, Hranked.
  destruct (py_slice_to_take (max_insights_per_batch settings) sorted)
    as (k & Hk & Hmax).
  rewrite Hk in Hranked.
  assert (Hbatch : Forall2 (fun a b => exists alert, b = set_is_alert a alert)
                     (firstn k sorted) (insights batch)).
  { rewrite <- Hranked.
    assert (Hcases : snapshot self round = [] \/ snapshot self round <> [])
      by (destruct (snapshot self round); [by left | by right]).
    unfold batch. destruct Hcases as [Hempty|Hne].
    - rewrite aggregate_empty_snapshot by done.
      unfold scored. rewrite Hempty. simpl. unfold ranked. simpl.
      rewrite py_slice_to_nil. constructor.
    - rewrite aggregate_unfold by done. simpl.
      apply mark_alerts_spec. }
  assert (Hclean : Forall (fun a => is_alert a = false) (firstn k sorted)).
  { rewrite <- Hranked. apply List.Forall_forall. intros a Ha.
    apply ranked_incl in Ha as [Ha _].
    destruct (score_groups_spec round now
                (_group_insights (snapshot self round))
                (group_insights_nonempty (snapshot self round)) self)
      as (_ & _ & _ & _ & Hfalse).
    rewrite List.Forall_forall in Hfalse. by apply Hfalse. }
  assert (Hflags : map (fun a => set_is_alert a false) (insights batch)
                   = firstn k sorted).
  { clear -Hbatch Hclean.
    induction Hbatch as [|a b l l' [alert ->] Hrest IH]; simpl; [done|].
    apply Forall_cons in Hclean as [Ha Hl].
    rewrite IH by done. f_equal.
    destruct a. simpl in *. by subst. }
  split; [|split; [|split]].
  - assert (Hprefix : StronglySorted ranks_no_later (firstn k sorted))
      by (by apply StronglySorted_firstn).
    clear -Hbatch Hprefix.
    revert Hprefix. induction Hbatch as [|a b l l' [alert ->] Hrest IH];
      intros Hs; [constructor|].
    apply StronglySorted_inv in Hs as [Hs Hall].
    constructor; [by apply IH|].
    rewrite List.Forall_forall in Hall |- *. intros z Hz.
    destruct (Forall2_In_r _ _ _ _ Hrest Hz) as (z0 & Hz0 & alert' & ->).
    apply ranks_no_later_flag. exact (Hall z0 Hz0).
  - apply List.Forall_forall. intros a Ha.
    destruct (batch_insight_labels self round now a Ha) as (H1 & H2 & _).
    done.
  - intros Hpos. rewrite <- (Forall2_length _ _ _ Hbatch), length_firstn.
    rewrite (Hmax Hpos). lia.
  - exists sorted, (skipn k sorted).
    split; [done|]. split; [done|]. split; [done|].
    split; [by rewrite Hflags, firstn_skipn|].
    intros Hpos. rewrite <- (Forall2_length _ _ _ Hbatch), length_firstn.
    by rewrite (Hmax Hpos).
Qed.

(** C5 (as the code has it). Two [aggregate] calls in a row on the same
    session, with nothing in between, leave the buffer as it was and
    return the same insights in the same order as far as their content
    goes: session, category, type, confidence, severity, title,
    description, evidence, sources and follow-up questions.  The id, the
    time stamp and the alert flag are not part of this: the time stamps
    are those of the two calls, no id of the second batch is an id of the
    first, and when the second call comes less than
    [min_alert_interval_seconds] (not negative) after the first, an
    insight that the first batch flags is, at the same place of the
    second, not flagged. *)
Theorem aggregate_twice_same_content (self : InsightAggregator)
    (round : string) (now1 now2 : datetime) :
  let first := aggregate settings self round now1 in
  let second := aggregate settings first.2 round now2 in
  insight_buffer first.2 = insight_buffer self
  /\ map content (insights first.1) = map content (insights second.1)
  /\ Forall (fun a => timestamp a = now1) (insights first.1)
  /\ Forall (fun b => timestamp b = now2) (insights second.1)
  /\ (forall a b, In a (insights first.1) -> In b (insights second.1) ->
                  insight_id a <> insight_id b)
  /\ (0 <= min_alert_interval_seconds settings ->
      now2 - now1 < seconds (min_alert_interval_seconds settings) ->
      forall n a,
        insights first.1 !! n = Some a ->
        is_alert a = true ->
        exists b, insights second.1 !! n = Some b /\ is_alert b = false).
Proof.
  intros first second.
  pose proof (aggregate_buffer settings self round now1) as Hbuf.
  fold first in Hbuf.
  split; [exact Hbuf|]. split; [|split; [|split; [|split]]].
  - unfold second, first. rewrite !aggregate_content.
    apply ranked_content. unfold scored, snapshot.
    rewrite aggregate_buffer. apply score_groups_content.
  - apply List.Forall_forall. intros a Ha.
    by destruct (batch_insight_labels self round now1 a Ha) as (_ & _ & H).
  - apply List.Forall_forall. intros b Hb.
    by destruct (batch_insight_labels first.2 round now2 b Hb) as (_ & _ & H).
  - intros a b Ha Hb Heq.
    destruct (batch_ids_between self round now1 a Ha) as (n & Hn & Hrange).
    destruct (batch_ids_between first.2 round now2 b Hb)
      as (m & Hm & Hrange').
    fold first in Hrange.
    rewrite Hn, Hm in Heq.
    apply String.app_inj, String.app_inj in Heq.
    apply pretty_nat_inj in Heq. lia.
  - intros Hpos Hnear n a Hn Halert.
    destruct (successive_lookup settings self round now1 now2 n a Hn)
      as (b0 & Hb0 & Hcont).
    exists (set_is_alert b0 false). split; [|done].
    apply (aggregate_suppressed settings Hpos first.2 round (alert_key a)
             now1 now2 n b0);
      [done | | done | by apply alert_key_content].
    exists now1. split; [|lia].
    apply aggregate_alert_stored; [|done].
    by eapply list_elem_of_In, list_elem_of_lookup_2.
Qed.

End OrderAndRepeat.

(** ** The further properties on the example data *)

Lemma group_insights_partition_witness :
  exists members,
    In (("fraud", "multiple_faces"), members) (_group_insights mixed_records)
    /\ length members = 2%nat.
Proof.
  destruct (group_insights_partition mixed_records) as (_ & Hgroup & Hall).
  destruct (Hall (reported "fraud-detection" "multiple_faces" (float_lit 9 10)))
    as (members & Hin & _); [left; reflexivity|].
  exists members. split; [exact Hin|].
  destruct (Hgroup _ _ Hin) as [_ ->]. reflexivity.
Defined.

Lemma create_summary_counts_witness :
  exists counts,
    by_category (_create_summary two_flagged) = Some counts
    /\ count_get "fraud" counts = 1%nat
    /\ count_get "contradiction" counts = 1%nat
    /\ count_get "speech" counts = 0%nat
    /\ list_sum (map snd counts) = 2%nat.
Proof.
  destruct (create_summary_counts two_flagged)
    as (_ & _ & (counts & Hcounts & _ & _ & Hget & Hsum) & _).
  exists counts. split; [exact Hcounts|].
  rewrite !Hget. split; [reflexivity|]. split; [reflexivity|].
  split; [reflexivity | exact Hsum].
Defined.

Lemma recommendations_come_from_alerts_witness :
  Z.of_nat (length (_generate_recommendations default_settings two_flagged))
  <= 5
  /\ exists a, In a two_flagged /\ insight_id a = "r1-2".
Proof.
  destruct (recommendations_come_from_alerts default_settings two_flagged)
    as (Hfrom & _ & Hmax).
  split; [apply Hmax; vm_compute; discriminate|].
  destruct (Hfrom (nth 1 (_generate_recommendations default_settings
                            two_flagged)
                       {| rec_type := EmptyString;
                          rec_priority := EmptyString;
                          rec_title := EmptyString;
                          rec_description := EmptyString;
                          suggested_actions := None;
                          suggested_questions := None;
                          related_insight_id := EmptyString |}))
    as (a & Ha & _ & Hid & _).
  - vm_compute. right. left. reflexivity.
  - exists a. split; [exact Ha|]. rewrite <- Hid. reflexivity.
Defined.

Lemma overall_assessment_levels_witness :
  risk_level (generate_overall_assessment "r1" two_flagged 30 0) = "medium"
  /\ In "Verify candidate identity before proceeding"
        (next_steps (generate_overall_assessment "r1" two_flagged 30 0)).
Proof.
  destruct (overall_assessment_levels "r1" two_flagged [] 30 0)
    as (_ & _ & _ & _ & _ & Hmedium & _ & _ & Hverify & _).
  split.
  - apply Hmedium. left. reflexivity.
  - apply Hverify. vm_compute. reflexivity.
Defined.

Lemma add_insight_frame_witness :
  exists kept,
    insight_buffer
      (add_insight default_settings two_sessions "r1"
         (reported "video-analysis" "head_movement" (float_lit 8 10))
         (seconds 20) (seconds 21)) !! "r1"
    = Some (kept ++ [stamp (reported "video-analysis" "head_movement" (float_lit 8 10))
                           (seconds 20)])
  /\ insight_buffer
       (add_insight default_settings two_sessions "r1"
          (reported "video-analysis" "head_movement" (float_lit 8 10))
          (seconds 20) (seconds 21)) !! "r2"
     = insight_buffer two_sessions !! "r2".
Proof.
  destruct (add_insight_frame default_settings two_sessions "r1"
              (reported "video-analysis" "head_movement" (float_lit 8 10))
              (seconds 20) (seconds 21))
    as (_ & _ & Hother & _ & Hfresh).
  destruct Hfresh as (kept & Hkept & _); [vm_compute; reflexivity|].
  exists kept. split; [exact Hkept|].
  apply Hother. discriminate.
Defined.

Lemma receive_insight_reports_fresh_records_witness :
  (1 <= (receive_insight default_settings two_sessions "r1"
           "head_movement" "video-analysis" empty_data
           (seconds 20) (seconds 21)).1)%nat.
Proof.
  destruct (receive_insight_reports_fresh_records default_settings
              two_sessions "r1" "head_movement" "video-analysis" empty_data
              (seconds 20) (seconds 21)) as (_ & _ & Hone).
  apply Hone. vm_compute. reflexivity.
Defined.

Lemma batch_insights_well_formed_witness :
  round_id fraud_flagged = "r1"
  /\ In (category fraud_flagged) categories
  /\ float_ge (confidence fraud_flagged) (float_lit 7 10) = true.
Proof.
  destruct (batch_insights_well_formed default_settings
              (scenario_r1 "multiple_faces" "low_confidence") "r1"
              (seconds 3) fraud_flagged)
    as (Hround & Hcat & _ & Hconf & _).
  - vm_compute. left. reflexivity.
  - split; [exact Hround|]. split; [exact Hcat | exact Hconf].
Defined.

Lemma aggregate_records_alerts_witness :
  recent_alerts
    (aggregate default_settings
       (scenario_r1 "multiple_faces" "low_confidence") "r1" (seconds 3)).2
    !! "r1:fraud:multiple_faces"
  = Some (seconds 3)
  /\ passes_gates default_settings fraud_flagged = true.
Proof.
  destruct (aggregate_records_alerts default_settings
              (scenario_r1 "multiple_faces" "low_confidence") "r1"
              (seconds 3)) as (_ & _ & Halerts).
  destruct (Halerts fraud_flagged) as [Hpass Hkey].
  - vm_compute. left. reflexivity.
  - reflexivity.
  - split; [exact Hkey | exact Hpass].
Defined.

Lemma alert_not_repeated_within_cooldown_witness :
  exists b,
    insights
      (aggregate default_settings
         (aggregate default_settings one_fraud "r1" (seconds 1)).2
         "r1" (seconds 2)).1 !! 0%nat = Some b
    /\ is_alert b = false.
Proof.
  assert (Hpos : 0 <= min_alert_interval_seconds default_settings)
    by (vm_compute; discriminate).
  assert (Hnear : seconds 2 - seconds 1
                  < seconds (min_alert_interval_seconds default_settings))
    by (vm_compute; reflexivity).
  destruct (alert_not_repeated_within_cooldown default_settings Hpos
              one_fraud "r1" (seconds 1) (seconds 2) Hnear 0%nat
              (set_is_alert
                 (hd fraud_candidate
                     (scored (order := remove_dups_order) one_fraud "r1"
                             (seconds 1)))
                 true))
    as (b & Hb & _ & Hquiet).
  - vm_compute. reflexivity.
  - reflexivity.
  - exists b. split; [exact Hb | exact Hquiet].
Defined.

Lemma assessment_after_aggregate_is_low_witness :
  risk_level
    (get_assessment default_settings
       (aggregate default_settings one_fraud "r1" (seconds 1)).2
       "r1" 30 (seconds 2)).1 = "low"
  /\ map is_alert
       (insights (aggregate default_settings one_fraud "r1" (seconds 1)).1)
     = [true].
Proof.
  assert (Hpos : 0 <= min_alert_interval_seconds default_settings)
    by (vm_compute; discriminate).
  assert (Hnear : seconds 2 - seconds 1
                  < seconds (min_alert_interval_seconds default_settings))
    by (vm_compute; reflexivity).
  assert (Hquiet : forall key,
            in_cooldown default_settings one_fraud key (seconds 1) = false).
  { intros key. unfold in_cooldown.
    change (recent_alerts one_fraud) with (∅ : gmap string datetime).
    by rewrite lookup_empty. }
  destruct (assessment_after_aggregate_is_low default_settings Hpos
              one_fraud "r1" 30 (seconds 1) (seconds 2) Hnear Hquiet)
    as (_ & _ & _ & _ & _ & _ & Hlow & _).
  split; [exact Hlow | reflexivity].
Defined.


Lemma description_of_group_witness :
  _generate_description "fraud" "multiple_faces"
    ([reported "fraud-detection" "multiple_faces" (float_lit 9 10)]
       ++ hd (reported "x" "y" (float_lit 5 10)) eight_evidence :: [])
  = "e1".
Proof.
  destruct (description_of_group "fraud" "multiple_faces"
              [reported "fraud-detection" "multiple_faces" (float_lit 9 10)] []
              (hd (reported "x" "y" (float_lit 5 10)) eight_evidence) "e1")
    as [Hfirst _].
  - repeat constructor.
  - apply Hfirst; [reflexivity | discriminate].
Defined.

Lemma clear_buffer_then_witness :
  insight_buffer
    (add_insight default_settings (clear_buffer two_sessions "r1") "r1"
       (reported "video-analysis" "head_movement" (float_lit 8 10))
       (seconds 20) (seconds 21)) !! "r1"
  = Some [stamp (reported "video-analysis" "head_movement" (float_lit 8 10))
                (seconds 20)].
Proof.
  destruct (clear_buffer_then default_settings two_sessions "r1" "r2"
              (reported "video-analysis" "head_movement" (float_lit 8 10))
              (seconds 20) (seconds 21)) as (_ & _ & _ & Hnew).
  apply Hnew. vm_compute. reflexivity.
Defined.

Lemma batch_keeps_best_witness :
  length (insights (aggregate tight_settings
                      (scenario_r1 "multiple_faces" "low_confidence")
                      "r1" (seconds 3)).1) = 1%nat
  /\ ranks_no_later fraud_flagged video_scored.
Proof.
  destruct (batch_keeps_best tight_settings
              (scenario_r1 "multiple_faces" "low_confidence") "r1"
              (seconds 3) video_scored) as [Hfull Hbest].
  - vm_compute. discriminate.
  - vm_compute. right. left. reflexivity.
  - reflexivity.
  - intros alert Hin. vm_compute in Hin.
    destruct alert; destruct Hin as [Hin|[]]; discriminate Hin.
  - split.
    + apply Nat2Z.inj. exact Hfull.
    + apply Hbest. vm_compute. left. reflexivity.
Defined.

Lemma batch_summary_consistent_witness :
  alerts_count
    (summary (aggregate default_settings
                (scenario_r1 "multiple_faces" "low_confidence")
                "r1" (seconds 3)).1) = Some 1%nat
  /\ alerts_count (summary (aggregate default_settings init "r1" 0).1) = None.
Proof.
  destruct (batch_summary_consistent default_settings
              (scenario_r1 "multiple_faces" "low_confidence") "r1"
              (seconds 3)) as (_ & _ & _ & Hfull).
  destruct (batch_summary_consistent default_settings init "r1" 0)
    as (_ & _ & Hnone & _).
  split.
  - destruct Hfull as [-> _]; [vm_compute; discriminate | reflexivity].
  - by destruct Hnone as [-> _].
Defined.

Lemma aggregate_sorted_witness :
  map category
      (insights (scenario_batch "multiple_faces" "low_confidence"))
  = ["fraud"; "video"]
  /\ map priority_of
         (insights (scenario_batch "multiple_faces" "low_confidence"))
     = [1; 4]
  /\ StronglySorted ranks_no_later
       (insights (scenario_batch "multiple_faces" "low_confidence"))
  /\ Z.of_nat (length (insights (scenario_batch "multiple_faces"
                                                "low_confidence")))
     <= 10
  /\ length (insights (aggregate tight_settings
                         (scenario_r1 "multiple_faces" "low_confidence")
                         "r1" (seconds 3)).1) = 1%nat.
Proof.
  destruct (aggregate_sorted default_settings
              (scenario_r1 "multiple_faces" "low_confidence") "r1"
              (seconds 3)) as (Hsorted & _ & Hlen & _).
  destruct (aggregate_sorted tight_settings
              (scenario_r1 "multiple_faces" "low_confidence") "r1"
              (seconds 3))
    as (_ & _ & _ & sorted & rest & Hperm & _ & _ & _ & Hfull).
  split; [vm_compute; reflexivity|].
  split; [vm_compute; reflexivity|].
  split; [exact Hsorted|].
  split; [apply Hlen; vm_compute; discriminate|].
  rewrite Hfull by (vm_compute; discriminate).
  rewrite (Permutation_length Hperm). reflexivity.
Defined.

Lemma aggregate_twice_same_content_witness :
  exists b,
    insights
      (aggregate default_settings
         (aggregate default_settings one_fraud "r1" (seconds 1)).2
         "r1" (seconds 2)).1 !! 0%nat = Some b
    /\ is_alert b = false
    /\ map is_alert
         (insights (aggregate default_settings one_fraud "r1" (seconds 1)).1)
       = [true].
Proof.
  destruct (aggregate_twice_same_content default_settings one_fraud "r1"
              (seconds 1) (seconds 2)) as (_ & _ & _ & _ & _ & Hquiet).
  destruct (Hquiet (ltac:(vm_compute; discriminate))
              (ltac:(vm_compute; reflexivity)) 0%nat
              (set_is_alert
                 (hd fraud_candidate
                     (scored (order := remove_dups_order) one_fraud "r1"
                             (seconds 1)))
                 true))
    as (b & Hb & Hflag).
  - vm_compute. reflexivity.
  - reflexivity.
  - exists b. split; [exact Hb|]. split; [exact Hflag | reflexivity].
Defined.
